(** * expo-iap-ai-token-subscription: renewal reconciliation and generation ledger

    A shallow embedding of the TypeScript services [TokenManager] and
    [RenewalService] and of the two storage adapters ([InMemoryAdapter],
    [SupabaseAdapter]) they run against, followed by the properties of the
    design document that concern them.

    Conventions of the embedding.
    - A JavaScript [number] holding a count or an epoch-millisecond time value
      is a [Z].  Comparisons of integers are exact in double precision; the
      one subtraction of the code is rounded as a double rounds it
      ([to_double]).  [new Date(t).toISOString()] throws a [RangeError] when
      [t] lies outside the range of [Date] ([valid_date]); every place where
      the services, the Supabase adapter or the purchase handler print
      through it a date taken from an event or from the stored record is a
      test in the model, followed by what the enclosing [catch] does, or by
      the end of the method where there is none.  A [Date] object (a mock
      date, a stored expiration date) is the time value it holds.  An ISO-8601 string [toISOString] produces is represented by the
      time value it denotes ([new Date(iso).getTime()] inverts [toISOString]
      at millisecond precision), so [createdAt] and [lastRenewalAt] are time
      values too.
    - A field of a loosely typed object that may be missing is an [option];
      the JavaScript tests [!x], [x || y] and [x ? a : b] are the functions
      [truthy], [js_or] below: [undefined], [null], [0] and the empty string
      are all falsy.
    - Every asynchronous method is a state transformer over a [World]: the
      adapter's store, the wall clock ([Date.now()], an oracle read once per
      call and free to move between calls) and the trace of configuration
      callbacks that were invoked.  [console] output is not part of the model. *)

From stdpp Require Import base option list gmap strings pretty fin_maps.
From Stdlib Require Import ZArith Lia.

Local Open Scope string_scope.
Local Open Scope list_scope.
Local Open Scope Z_scope.

(** ** JavaScript truthiness *)

Class Truthy (A : Type) := truthy_value : A -> bool.

#[global] Instance Truthy_Z : Truthy Z := fun n => negb (n =? 0).
#[global] Instance Truthy_string : Truthy string := fun s => negb (String.eqb s "").

(** [!!x] for a possibly missing field. *)
Definition truthy {A} `{Truthy A} (x : option A) : bool :=
  match x with
  | Some a => truthy_value a
  | None => false
  end.

(** [x || y] on possibly missing fields. *)
Definition js_or {A} `{Truthy A} (x y : option A) : option A :=
  if truthy x then x else y.

(** [x || d] where [d] is a literal of the field's type. *)
Definition js_or_default {A} `{Truthy A} (x : option A) (d : A) : A :=
  match x with
  | Some a => if truthy_value a then a else d
  | None => d
  end.

(** [x ?? d]. *)
Definition nullish {A} (x : option A) (d : A) : A := default d x.

(** [x ? new Date(x) : undefined]. *)
Definition date_if_truthy (x : option Z) : option Z :=
  if truthy x then x else None.

(** ** JavaScript numbers and dates *)

(** The largest integer below which every integer is a double. *)
Definition MAX_SAFE_INTEGER : Z := 9007199254740991.

(** The double nearest to an integer (round to nearest, ties to the even
    significand of 53 bits): what an arithmetic operation returns whose exact
    result is that integer.  Integers up to [2^53] in magnitude are doubles
    themselves. *)
Definition to_double (z : Z) : Z :=
  let a := Z.abs z in
  if a <=? 2 ^ 53 then z
  else
    let e := Z.log2 a - 52 in
    let q := a / 2 ^ e in
    let r := a mod 2 ^ e in
    let half := 2 ^ (e - 1) in
    let q' :=
      if r <? half then q
      else if half <? r then q + 1
      else if Z.even q then q else q + 1 in
    Z.sgn z * (q' * 2 ^ e).

(** The time values a [Date] can hold: 100 000 000 days on either side of
    the epoch.  [new Date(t)] is an invalid date outside this range, and
    [toISOString] of an invalid date throws a [RangeError]. *)
Definition MAX_TIME_VALUE : Z := 8640000000000000.

Definition valid_date (t : Z) : bool :=
  bool_decide (- MAX_TIME_VALUE <= t <= MAX_TIME_VALUE).

(** [x ? new Date(x).toISOString() : null] returns (rather than throws). *)
Definition printable (x : option Z) : bool :=
  negb (truthy x) || valid_date (default 0 x).

(** ** Data model (types.ts) *)

Module TokenConfig.
(** The three callbacks are opaque functions supplied by the application:
    the record says whether each one is configured, and a call of one is
    recorded in the world's trace. *)
Record t := mk {
  productId : string;
  freeTierLimit : Z;
  proTierLimit : Z;
  onSubscriptionActivated : bool;
  onGenerationUsed : bool;
  onLimitReached : bool
}.
End TokenConfig.

Module UserData.
Record t := mk {
  deviceId : string;
  subscriptionPlan : option string;
  generationsLeft : Z;
  createdAt : Z;
  lastRenewalAt : option Z
}.

Definition set_generationsLeft (count : Z) (u : t) : t :=
  mk (deviceId u) (subscriptionPlan u) count (createdAt u) (lastRenewalAt u).
Definition set_subscriptionPlan (plan : option string) (u : t) : t :=
  mk (deviceId u) plan (generationsLeft u) (createdAt u) (lastRenewalAt u).
Definition set_lastRenewalAt (date : option Z) (u : t) : t :=
  mk (deviceId u) (subscriptionPlan u) (generationsLeft u) (createdAt u) date.
End UserData.

Module Purchase.
(** The purchase / subscription object handed over by expo-iap (typed [any]
    in the source); the fields the services and adapters read. *)
Record t := mk {
  transactionId : option string;
  id : option string;
  originalTransactionIdentifierIOS : option string;
  productId : option string;
  transactionDate : option Z;
  purchaseDateIOS : option Z;
  expirationDateIOS : option Z;
  transactionReasonIOS : option string;
  reasonIOS : option string;
  environmentIOS : option string;
  platform : option string;
  isAutoRenewing : option bool;
  renewalDate : option Z;  (* renewalInfoIOS?.renewalDate *)
  originalTransactionDateIOS : option Z
}.
End Purchase.

Module SubscriptionData.
Record t := mk {
  transactionId : string;
  originalTransactionId : option string;
  productId : string;
  transactionDate : Z;
  expirationDate : option Z;
  renewalDate : option Z;
  isActive : bool;
  isCancelled : bool;
  isAutoRenewing : bool;
  platform : string;
  environment : string;
  transactionReason : string;
  purchaseData : Purchase.t
}.
End SubscriptionData.

(** ** Worlds and the monad of asynchronous methods *)

Inductive Callback :=
| SubscriptionActivated
| GenerationUsed (remaining : Z)
| LimitReached (needsSubscription : bool).

Record World (S : Type) := mkWorld {
  store : S;
  time : nat -> Z;     (* the n-th reading of the wall clock *)
  tick : nat;          (* how many readings were taken so far *)
  fired : list Callback (* callbacks invoked so far, oldest first *)
}.
Arguments mkWorld {S}.
Arguments store {S}.
Arguments time {S}.
Arguments tick {S}.
Arguments fired {S}.

Definition M (S A : Type) : Type := World S -> A * World S.

#[global] Instance M_ret {S} : MRet (M S) := fun A (a : A) w => (a, w).
#[global] Instance M_bind {S} : MBind (M S) :=
  fun A B (k : A -> M S B) (m : M S A) w => let (a, w') := m w in k a w'.

Definition gets {S A} (f : S -> A) : M S A := fun w => (f (store w), w).
Definition modify {S} (f : S -> S) : M S unit :=
  fun w => (tt, mkWorld (f (store w)) (time w) (tick w) (fired w)).

(** [Date.now()], also the time value of [new Date()]. *)
Definition Date_now {S} : M S Z :=
  fun w => (time w (tick w), mkWorld (store w) (time w) (Datatypes.S (tick w)) (fired w)).

(** Invocation of a configuration callback. *)
Definition fire {S} (c : Callback) : M S unit :=
  fun w => (tt, mkWorld (store w) (time w) (tick w) (fired w ++ [c])).

Definition when {S} (b : bool) (m : M S unit) : M S unit :=
  if b then m else mret tt.

Definition result {S A} (m : M S A) (w : World S) : A := fst (m w).
Definition after {S A} (m : M S A) (w : World S) : World S := snd (m w).

(** ** The storage contract (adapters/StorageAdapter.ts) *)

Module StorageAdapter.
Class ops (S : Type) := {
  getDeviceId : M S string;
  initializeUser : string -> Z -> M S (option UserData.t);
  getUserData : string -> M S (option UserData.t);
  updateGenerations : string -> Z -> M S bool;
  updateSubscriptionPlan : string -> string -> Z -> M S bool;
  updateLastRenewal : string -> Z -> M S bool;
  cancelSubscription : string -> M S bool;
  upsertSubscription : string -> Purchase.t -> M S bool
}.

(** The read side of the subscription operations of the contract. *)
Class queries (S : Type) := {
  getActiveSubscription : string -> M S (option SubscriptionData.t);
  getAllSubscriptions : string -> M S (list SubscriptionData.t)
}.
End StorageAdapter.

(** [Array.prototype.findIndex] on the transaction identifier. *)
Definition findIndex (transactionId : string) (l : list SubscriptionData.t) : option nat :=
  fst <$> list_find (fun s => SubscriptionData.transactionId s = transactionId) l.

(** ** adapters/InMemoryAdapter.ts *)

Module InMemoryAdapter.
Record state := mk {
  users : gmap string UserData.t;
  subscriptions : gmap string (list SubscriptionData.t);
  deviceId : string
}.

Definition set_users (f : gmap string UserData.t -> gmap string UserData.t)
    (s : state) : state :=
  mk (f (users s)) (subscriptions s) (deviceId s).
Definition set_subscriptions
    (f : gmap string (list SubscriptionData.t) -> gmap string (list SubscriptionData.t))
    (s : state) : state :=
  mk (users s) (f (subscriptions s)) (deviceId s).

Definition getDeviceId : M state string := gets deviceId.

Definition initializeUser (deviceId : string) (freeLimit : Z)
    : M state (option UserData.t) :=
  existing ← gets (fun s => users s !! deviceId);
  match existing with
  | Some u => mret (Some u)
  | None =>
      now ← Date_now;
      let newUser := UserData.mk deviceId None freeLimit now None in
      modify (set_users <[deviceId := newUser]>);;
      mret (Some newUser)
  end.

Definition getUserData (deviceId : string) : M state (option UserData.t) :=
  gets (fun s => users s !! deviceId).

Definition updateGenerations (deviceId : string) (count : Z) : M state bool :=
  user ← gets (fun s => users s !! deviceId);
  match user with
  | None => mret false
  | Some user =>
      modify (set_users <[deviceId := UserData.set_generationsLeft count user]>);;
      mret true
  end.

Definition updateSubscriptionPlan (deviceId plan : string) (generations : Z)
    : M state bool :=
  user ← gets (fun s => users s !! deviceId);
  match user with
  | None => mret false
  | Some user =>
      now ← Date_now;
      let user := UserData.set_subscriptionPlan (Some plan) user in
      let user := UserData.set_generationsLeft generations user in
      let user := UserData.set_lastRenewalAt (Some now) user in
      modify (set_users <[deviceId := user]>);;
      mret true
  end.

Definition updateLastRenewal (deviceId : string) (date : Z) : M state bool :=
  user ← gets (fun s => users s !! deviceId);
  match user with
  | None => mret false
  | Some user =>
      modify (set_users <[deviceId := UserData.set_lastRenewalAt (Some date) user]>);;
      mret true
  end.

Definition cancelSubscription (deviceId : string) : M state bool :=
  user ← gets (fun s => users s !! deviceId);
  match user with
  | None => mret false
  | Some user =>
      modify (set_users <[deviceId := UserData.set_subscriptionPlan None user]>);;
      mret true
  end.

Definition upsertSubscription (deviceId : string) (purchase : Purchase.t)
    : M state bool :=
  transactionId ←
    match js_or (Purchase.transactionId purchase) (Purchase.id purchase) with
    | Some s => if truthy_value s then mret s
                else (now ← Date_now; mret ("tx-" +:+ pretty now))
    | None => now ← Date_now; mret ("tx-" +:+ pretty now)
    end;
  transactionDate ←
    (if truthy (Purchase.transactionDate purchase)
     then mret (default 0 (Purchase.transactionDate purchase))
     else Date_now);
  let subscriptionData :=
    SubscriptionData.mk
      transactionId
      (Purchase.originalTransactionIdentifierIOS purchase)
      (js_or_default (Purchase.productId purchase) "unknown")
      transactionDate
      (date_if_truthy (Purchase.expirationDateIOS purchase))
      (date_if_truthy (Purchase.renewalDate purchase))
      true
      false
      (nullish (Purchase.isAutoRenewing purchase) true)
      "ios"
      (js_or_default (Purchase.environmentIOS purchase) "Sandbox")
      (js_or_default (Purchase.transactionReasonIOS purchase) "PURCHASE")
      purchase in
  userSubscriptions ← gets (fun s => default [] (subscriptions s !! deviceId));
  let userSubscriptions :=
    match findIndex transactionId userSubscriptions with
    | Some existingIndex => <[existingIndex := subscriptionData]> userSubscriptions
    | None => userSubscriptions ++ [subscriptionData]
    end in
  modify (set_subscriptions <[deviceId := userSubscriptions]>);;
  mret true.

Definition getAllSubscriptions (deviceId : string)
    : M state (list SubscriptionData.t) :=
  gets (fun s => default [] (subscriptions s !! deviceId)).

#[global] Instance adapter : StorageAdapter.ops state := {|
  StorageAdapter.getDeviceId := getDeviceId;
  StorageAdapter.initializeUser := initializeUser;
  StorageAdapter.getUserData := getUserData;
  StorageAdapter.updateGenerations := updateGenerations;
  StorageAdapter.updateSubscriptionPlan := updateSubscriptionPlan;
  StorageAdapter.updateLastRenewal := updateLastRenewal;
  StorageAdapter.cancelSubscription := cancelSubscription;
  StorageAdapter.upsertSubscription := upsertSubscription
|}.

(** The test of [getActiveSubscription]: the record is flagged active and its
    expiration date, when it has one, is not before [now]. *)
Definition is_current (now : Z) (sub : SubscriptionData.t) : bool :=
  if negb (SubscriptionData.isActive sub) then false
  else match SubscriptionData.expirationDate sub with
       | Some e => if bool_decide (e < now) then false else true
       | None => true
       end.

Definition getActiveSubscription (deviceId : string)
    : M state (option SubscriptionData.t) :=
  userSubscriptions ← gets (fun s => default [] (subscriptions s !! deviceId));
  now ← Date_now;
  mret (snd <$> list_find (fun sub => is_current now sub = true) userSubscriptions).

#[global] Instance queries : StorageAdapter.queries state := {|
  StorageAdapter.getActiveSubscription := getActiveSubscription;
  StorageAdapter.getAllSubscriptions := getAllSubscriptions
|}.

(** [sub.isCancelled = true; sub.isActive = false]. *)
Definition cancel_record (sub : SubscriptionData.t) : SubscriptionData.t :=
  SubscriptionData.mk
    (SubscriptionData.transactionId sub) (SubscriptionData.originalTransactionId sub)
    (SubscriptionData.productId sub) (SubscriptionData.transactionDate sub)
    (SubscriptionData.expirationDate sub) (SubscriptionData.renewalDate sub)
    false true
    (SubscriptionData.isAutoRenewing sub) (SubscriptionData.platform sub)
    (SubscriptionData.environment sub) (SubscriptionData.transactionReason sub)
    (SubscriptionData.purchaseData sub).

(** [markSubscriptionCancelled] walks [this.subscriptions.entries()].  A
    JavaScript [Map] yields its keys in insertion order, which the finite map
    of the model does not record: [entries] is that sequence of keys. *)
Fixpoint markSubscriptionCancelled (entries : list string) (transactionId : string)
    : M state bool :=
  match entries with
  | [] => mret false
  | deviceId :: entries =>
      subs ← gets (fun s => default [] (subscriptions s !! deviceId));
      match findIndex transactionId subs with
      | Some i =>
          modify (set_subscriptions <[deviceId := alter cancel_record i subs]>);;
          mret true
      | None => markSubscriptionCancelled entries transactionId
      end
  end.

Definition reset : M state unit :=
  modify (fun s => mk ∅ ∅ (deviceId s)).

Definition setDeviceId (newDeviceId : string) : M state unit :=
  modify (fun s => mk (users s) (subscriptions s) newDeviceId).
End InMemoryAdapter.

(** ** adapters/SupabaseAdapter.ts

    The Supabase client is an external collaborator.  Its two tables are
    modelled as far as the adapter uses them: [user] holds at most one row per
    [device_id] (the column every query of the adapter selects on with
    [.single()]), [subscriptions] is a list of rows.  [offline] says that the
    backend cannot be reached: every query then reports an error and changes
    nothing.  [.update(..).eq(..)] on a reachable backend rewrites the matching
    rows and reports no error, also when no row matches. *)

Module SupabaseAdapter.
Record user_row := mk_user {
  device_id : string;
  subscription_plan : option string;
  generations_left : Z;
  created_at : Z;
  last_renewal_at : option Z
}.

Record subscription_row := mk_subscription {
  sub_device_id : string;
  transaction_id : string;
  original_transaction_id : option string;
  product_id : string;
  sub_platform : string;
  environment : option string;
  transaction_reason : option string;
  transaction_date : Z;
  original_purchase_date : option Z;
  expiration_date : option Z;
  renewal_date : option Z;
  is_active : bool;
  is_cancelled : bool;
  is_auto_renewing : bool;
  purchase_data : Purchase.t
}.

Record state := mk {
  user : gmap string user_row;
  subscriptions : list subscription_row;
  offline : bool;
  osBuildId : option string;          (* Device.osBuildId *)
  osInternalBuildId : option string;  (* Device.osInternalBuildId *)
  modelId : option string;            (* Device.modelId *)
  cachedDeviceId : option string;
  createdAtDefault : Z  (* what the database fills [created_at] with on insert *)
}.

Definition set_user (f : gmap string user_row -> gmap string user_row)
    (s : state) : state :=
  mk (f (user s)) (subscriptions s) (offline s)
     (osBuildId s) (osInternalBuildId s) (modelId s) (cachedDeviceId s)
     (createdAtDefault s).
Definition set_subscriptions
    (f : list subscription_row -> list subscription_row) (s : state) : state :=
  mk (user s) (f (subscriptions s)) (offline s)
     (osBuildId s) (osInternalBuildId s) (modelId s) (cachedDeviceId s)
     (createdAtDefault s).
Definition set_cachedDeviceId (d : string) (s : state) : state :=
  mk (user s) (subscriptions s) (offline s)
     (osBuildId s) (osInternalBuildId s) (modelId s) (Some d)
     (createdAtDefault s).

Definition mapUserFromDb (dbUser : user_row) : UserData.t :=
  UserData.mk (device_id dbUser) (subscription_plan dbUser)
              (generations_left dbUser) (created_at dbUser)
              (last_renewal_at dbUser).

Definition getDeviceId : M state string :=
  cached ← gets cachedDeviceId;
  if truthy cached then mret (default "" cached)
  else
    osb ← gets osBuildId;
    osi ← gets osInternalBuildId;
    mid ← gets modelId;
    let deviceId := js_or_default (js_or (js_or osb osi) mid) "unknown-device" in
    modify (set_cachedDeviceId deviceId);;
    mret deviceId.

(** [.from('user').update(patch).eq('device_id', deviceId)]: [None] when the
    backend reported an error. *)
Definition update_user (deviceId : string) (patch : user_row -> user_row)
    : M state (option unit) :=
  off ← gets offline;
  if off : bool then mret None
  else modify (set_user (alter patch deviceId));; mret (Some tt).

Definition initializeUser (deviceId : string) (freeLimit : Z)
    : M state (option UserData.t) :=
  off ← gets offline;
  if off : bool then mret None
  else
    existingUser ← gets (fun s => user s !! deviceId);
    match existingUser with
    | Some row => mret (Some (mapUserFromDb row))
    | None =>
        (* [insert({device_id, subscription_plan: null, generations_left})]:
           the other columns take the defaults of the table *)
        createdAt ← gets createdAtDefault;
        let newUser := mk_user deviceId None freeLimit createdAt None in
        modify (set_user <[deviceId := newUser]>);;
        mret (Some (mapUserFromDb newUser))
    end.

Definition getUserData (deviceId : string) : M state (option UserData.t) :=
  off ← gets offline;
  if off : bool then mret None
  else
    data ← gets (fun s => user s !! deviceId);
    mret (mapUserFromDb <$> data).

Definition updateGenerations (deviceId : string) (count : Z) : M state bool :=
  r ← update_user deviceId (fun row =>
         mk_user (device_id row) (subscription_plan row) count
                 (created_at row) (last_renewal_at row));
  mret (bool_decide (is_Some r)).

Definition updateSubscriptionPlan (deviceId plan : string) (generations : Z)
    : M state bool :=
  now ← Date_now;
  r ← update_user deviceId (fun row =>
         mk_user (device_id row) (Some plan) generations
                 (created_at row) (Some now));
  mret (bool_decide (is_Some r)).

Definition updateLastRenewal (deviceId : string) (date : Z) : M state bool :=
  r ← update_user deviceId (fun row =>
         mk_user (device_id row) (subscription_plan row) (generations_left row)
                 (created_at row) (Some date));
  mret (bool_decide (is_Some r)).

Definition cancelSubscription (deviceId : string) : M state bool :=
  r ← update_user deviceId (fun row =>
         mk_user (device_id row) None 0 (created_at row) (last_renewal_at row));
  mret (bool_decide (is_Some r)).

(** [.select('id').eq('transaction_id', t).single()]: the row when exactly
    one matches; the error it reports otherwise is dropped by the caller. *)
Definition select_single (transactionId : string) (rows : list subscription_row)
    : option subscription_row :=
  match filter (fun r => transaction_id r = transactionId) rows with
  | [r] => Some r
  | _ => None
  end.

(** The row [upsertSubscription] builds from a purchase (the columns the
    adapter reads back or decides on; the others are copied from the
    purchase the same way and kept whole in [purchase_data]). *)
Definition subscriptionData (deviceId transactionId : string) (purchase : Purchase.t)
    (transactionDate : Z) (isActive : bool) : subscription_row :=
  mk_subscription
    deviceId
    transactionId
    (if truthy (Purchase.originalTransactionIdentifierIOS purchase)
     then Purchase.originalTransactionIdentifierIOS purchase else None)
    (js_or_default (Purchase.productId purchase) "unknown")
    (js_or_default (Purchase.platform purchase) "ios")
    (if truthy (Purchase.environmentIOS purchase)
     then Purchase.environmentIOS purchase else None)
    (js_or (Purchase.transactionReasonIOS purchase) (Purchase.reasonIOS purchase))
    transactionDate
    (date_if_truthy (Purchase.originalTransactionDateIOS purchase))
    (date_if_truthy (Purchase.expirationDateIOS purchase))
    (date_if_truthy (Purchase.renewalDate purchase))
    isActive
    false
    (nullish (Purchase.isAutoRenewing purchase) true)
    purchase.

Definition upsertSubscription (deviceId : string) (purchase : Purchase.t)
    : M state bool :=
  let transactionId :=
    js_or (Purchase.transactionId purchase) (Purchase.id purchase) in
  match transactionId with
  | None => mret false
  | Some transactionId =>
    if negb (truthy_value transactionId) then mret false
    else
      let expirationDate := Purchase.expirationDateIOS purchase in
      let renewalDate := Purchase.renewalDate purchase in
      transactionDate ←
        match js_or (Purchase.transactionDate purchase)
                    (Purchase.purchaseDateIOS purchase) with
        | Some t => if truthy_value t then mret t else Date_now
        | None => Date_now
        end;
      let originalPurchaseDate := Purchase.originalTransactionDateIOS purchase in
      now ← Date_now;
      let isActive :=
        negb (truthy expirationDate)
        || bool_decide (now < default 0 expirationDate) in
      (* the four [toISOString] calls of the row; a [RangeError] is caught
         at the end of the method, which then returns false *)
      if negb (valid_date transactionDate && printable originalPurchaseDate
               && printable expirationDate && printable renewalDate)
      then mret false
      else
      let row :=
        subscriptionData deviceId transactionId purchase transactionDate isActive in
      off ← gets offline;
      existingSubscription ←
        gets (fun s => if off : bool then None
                       else select_single transactionId (subscriptions s));
      match existingSubscription with
      | Some _ =>
          if off : bool then mret false
          else
            modify (set_subscriptions
                      (fmap (fun r => if decide (transaction_id r = transactionId)
                                      then row else r)));;
            mret true
      | None =>
          if off : bool then mret false
          else
            modify (set_subscriptions (fun rows => rows ++ [row]));;
            mret true
      end
  end.

#[global] Instance adapter : StorageAdapter.ops state := {|
  StorageAdapter.getDeviceId := getDeviceId;
  StorageAdapter.initializeUser := initializeUser;
  StorageAdapter.getUserData := getUserData;
  StorageAdapter.updateGenerations := updateGenerations;
  StorageAdapter.updateSubscriptionPlan := updateSubscriptionPlan;
  StorageAdapter.updateLastRenewal := updateLastRenewal;
  StorageAdapter.cancelSubscription := cancelSubscription;
  StorageAdapter.upsertSubscription := upsertSubscription
|}.

Definition markSubscriptionCancelled (transactionId : string) : M state bool :=
  off ← gets offline;
  if off : bool then mret false
  else
    modify (set_subscriptions
              (fmap (fun r =>
                 if decide (transaction_id r = transactionId)
                 then mk_subscription
                        (sub_device_id r) (transaction_id r)
                        (original_transaction_id r) (product_id r) (sub_platform r)
                        (environment r) (transaction_reason r) (transaction_date r)
                        (original_purchase_date r)
                        (expiration_date r) (renewal_date r)
                        false true
                        (is_auto_renewing r) (purchase_data r)
                 else r)));;
    mret true.
End SupabaseAdapter.

(** ** services/TokenManager.ts

    Neither reference adapter lets an exception escape (the in-memory one has
    no failing operation, the Supabase one catches at every method) and the
    configuration callbacks are taken not to throw, so the only exception
    within a service method is the [RangeError] of [toISOString] on an
    invalid date.  The methods below are the bodies of their [try] blocks,
    with the result of the [catch] branch at each such call. *)

Record GenerationCheckResult := mkCheck {
  canGenerate_ : bool;
  generationsLeft_ : Z;
  needsSubscription_ : bool
}.

Module TokenManager.
Section WithAdapter.
Context {S : Type} `{!StorageAdapter.ops S} (config : TokenConfig.t).

Definition initializeUser : M S (option UserData.t) :=
  deviceId ← StorageAdapter.getDeviceId;
  StorageAdapter.initializeUser deviceId (TokenConfig.freeTierLimit config).

Definition getUserData : M S (option UserData.t) :=
  deviceId ← StorageAdapter.getDeviceId;
  StorageAdapter.getUserData deviceId.

Definition canGenerate : M S GenerationCheckResult :=
  userData ← getUserData;
  match userData with
  | None => mret (mkCheck false 0 true)
  | Some userData =>
      let isSubscribed :=
        bool_decide (UserData.subscriptionPlan userData ≠ None)
        && bool_decide (UserData.subscriptionPlan userData ≠ Some "") in
      let generationsLeft := UserData.generationsLeft userData in
      if isSubscribed && bool_decide (0 < generationsLeft)
      then mret (mkCheck true generationsLeft false)
      else if negb isSubscribed
      then if bool_decide (0 < generationsLeft)
           then mret (mkCheck true generationsLeft false)
           else mret (mkCheck false 0 true)
      else mret (mkCheck false 0 false)
  end.

Definition useGeneration : M S bool :=
  userData ← getUserData;
  match userData with
  | None => mret false
  | Some userData =>
      if bool_decide (UserData.generationsLeft userData <= 0) then mret false
      else
        deviceId ← StorageAdapter.getDeviceId;
        let newCount := Z.max 0 (to_double (UserData.generationsLeft userData - 1)) in
        success ← StorageAdapter.updateGenerations deviceId newCount;
        (if success : bool then
           when (TokenConfig.onGenerationUsed config)
                (fire (GenerationUsed newCount));;
           when (bool_decide (newCount = 0) && TokenConfig.onLimitReached config)
                (let isSubscribed :=
                   bool_decide (UserData.subscriptionPlan userData ≠ None) in
                 fire (LimitReached (negb isSubscribed)))
         else mret tt);;
        mret success
  end.

Definition resetGenerations : M S bool :=
  deviceId ← StorageAdapter.getDeviceId;
  StorageAdapter.updateGenerations deviceId (TokenConfig.proTierLimit config).

Definition activateSubscription (plan : string) : M S bool :=
  deviceId ← StorageAdapter.getDeviceId;
  success ← StorageAdapter.updateSubscriptionPlan
              deviceId plan (TokenConfig.proTierLimit config);
  when (success && TokenConfig.onSubscriptionActivated config)
       (fire SubscriptionActivated);;
  mret success.

Definition cancelSubscription : M S bool :=
  deviceId ← StorageAdapter.getDeviceId;
  StorageAdapter.cancelSubscription deviceId.

(** [userData?.subscriptionPlan !== null && userData?.subscriptionPlan !== '']:
    without a record the optional chain yields [undefined], which is
    neither [null] nor the empty string. *)
Definition hasSubscription : M S bool :=
  userData ← getUserData;
  mret match userData with
       | None => true
       | Some userData =>
           bool_decide (UserData.subscriptionPlan userData ≠ None)
           && bool_decide (UserData.subscriptionPlan userData ≠ Some "")
       end.

(** [userData?.generationsLeft ?? 0]. *)
Definition getGenerationsLeft : M S Z :=
  userData ← getUserData;
  mret (default 0 (UserData.generationsLeft <$> userData)).
End WithAdapter.
End TokenManager.

(** ** services/RenewalService.ts *)

Module RenewalService.
Section WithAdapter.
Context {S : Type} `{!StorageAdapter.ops S} (config : TokenConfig.t).

Definition shouldRenew (originalTransactionId : string) (transactionDate : Z)
    : M S bool :=
  deviceId ← StorageAdapter.getDeviceId;
  userData ← StorageAdapter.getUserData deviceId;
  match userData with
  | None => mret false
  | Some userData =>
      (* [new Date(transactionDate).toISOString()] is logged here *)
      if negb (valid_date transactionDate) then mret false
      else if negb (truthy (UserData.subscriptionPlan userData)) then mret false
      else
        match UserData.lastRenewalAt userData with
        | None => mret true
        | Some lastRenewalDate =>
            (* [new Date(lastRenewalDate).toISOString()] is logged here *)
            if negb (valid_date lastRenewalDate) then mret false
            else
              let isNewTransaction :=
                bool_decide (lastRenewalDate < transactionDate) in
              mret isNewTransaction
        end
  end.

Definition processRenewal (plan : string) : M S bool :=
  deviceId ← StorageAdapter.getDeviceId;
  success ← StorageAdapter.updateSubscriptionPlan
              deviceId plan (TokenConfig.proTierLimit config);
  when (success && TokenConfig.onSubscriptionActivated config)
       (fire SubscriptionActivated);;
  mret success.

Definition checkAndHandleRenewal (subscription : Purchase.t) : M S bool :=
  let transactionId :=
    js_or (Purchase.transactionId subscription) (Purchase.id subscription) in
  let originalTransactionId :=
    Purchase.originalTransactionIdentifierIOS subscription in
  transactionDate ←
    match js_or (Purchase.transactionDate subscription)
                (Purchase.purchaseDateIOS subscription) with
    | Some t => if truthy_value t then mret t else Date_now
    | None => Date_now
    end;
  let expirationDate := Purchase.expirationDateIOS subscription in
  let transactionReason :=
    js_or (Purchase.transactionReasonIOS subscription)
          (Purchase.reasonIOS subscription) in
  now ← Date_now;
  (* the transaction date and the expiration date are logged through
     [toISOString] before anything is decided *)
  if negb (valid_date transactionDate && printable expirationDate) then mret false
  else
  let isActive :=
    negb (truthy expirationDate)
    || bool_decide (now < default 0 expirationDate) in
  if negb isActive then mret false
  else
    match originalTransactionId with
    | None => mret false
    | Some originalTransactionId =>
      if negb (truthy_value originalTransactionId) then mret false
      else
        needsRenewal ← shouldRenew originalTransactionId transactionDate;
        if negb needsRenewal then mret false
        else
          deviceId ← StorageAdapter.getDeviceId;
          subscriptionSaved ← StorageAdapter.upsertSubscription deviceId subscription;
          updated ← processRenewal "pro";
          mret updated
    end.
End WithAdapter.
End RenewalService.

(** Replaying one event: [n] invocations of [checkAndHandleRenewal] in a row;
    the world after the last one and how many of them reported a renewal. *)
Fixpoint replay {S : Type} `{!StorageAdapter.ops S} (config : TokenConfig.t)
    (subscription : Purchase.t) (n : nat) (w : World S) : nat * World S :=
  match n with
  | O => (O, w)
  | Datatypes.S n =>
      let (renewed, w1) := RenewalService.checkAndHandleRenewal config subscription w in
      let (k, w2) := replay config subscription n w1 in
      ((if renewed then 1 else 0)%nat + k, w2)%nat
  end.

(** A sequence of [useGeneration] calls. *)
Fixpoint useGenerations {S : Type} `{!StorageAdapter.ops S} (config : TokenConfig.t)
    (n : nat) (w : World S) : list bool * World S :=
  match n with
  | O => ([], w)
  | Datatypes.S n =>
      let (ok, w1) := TokenManager.useGeneration config w in
      let (oks, w2) := useGenerations config n w1 in
      (ok :: oks, w2)
  end.

(** ** services/SubscriptionService.ts *)

Module SubscriptionService.
Section WithAdapter.
Context {S : Type} `{!StorageAdapter.ops S} `{!StorageAdapter.queries S}.

Definition saveSubscription (purchase : Purchase.t) : M S bool :=
  deviceId ← StorageAdapter.getDeviceId;
  success ← StorageAdapter.upsertSubscription deviceId purchase;
  mret success.

Definition getActiveSubscription : M S (option SubscriptionData.t) :=
  deviceId ← StorageAdapter.getDeviceId;
  StorageAdapter.getActiveSubscription deviceId.

Definition getAllSubscriptions : M S (list SubscriptionData.t) :=
  deviceId ← StorageAdapter.getDeviceId;
  StorageAdapter.getAllSubscriptions deviceId.

Definition hasActiveSubscription : M S bool :=
  subscription ← getActiveSubscription;
  mret match subscription with
       | None => false
       | Some subscription => SubscriptionData.isActive subscription
       end.

(** [expirationDate] is a [Date] object here, truthy whenever it is there. *)
Definition isSubscriptionExpired (subscription : SubscriptionData.t) : M S bool :=
  match SubscriptionData.expirationDate subscription with
  | None => mret false
  | Some e => now ← Date_now; mret (bool_decide (e < now))
  end.

Definition getSubscriptionStatus (subscription : option SubscriptionData.t)
    : M S string :=
  match subscription with
  | None => mret "Not subscribed"
  | Some subscription =>
      if negb (SubscriptionData.isActive subscription)
         || SubscriptionData.isCancelled subscription
      then mret "Cancelled"
      else
        expired ← isSubscriptionExpired subscription;
        if expired : bool then mret "Expired"
        else if SubscriptionData.isAutoRenewing subscription
        then mret "Active (Auto-renewing)"
        else mret "Active"
  end.
End WithAdapter.
End SubscriptionService.

(** ** config/TokenConfig.ts *)

Module Config.
(** What the application hands to the provider: [productId] is required by
    the type, everything else may be left out. *)
Record partial := mk_partial {
  p_productId : string;
  p_productIdDev : option string;
  p_freeTierLimit : option Z;
  p_proTierLimit : option Z;
  p_resetPeriod : option string;
  p_onSubscriptionActivated : bool;
  p_onGenerationUsed : bool;
  p_onLimitReached : bool
}.

(** The complete configuration: the fields the services read, and the two
    that only [getActiveProductId] and [validateConfig] look at. *)
Record full := mk_full {
  services : TokenConfig.t;
  productIdDev : option string;
  resetPeriod : string
}.

Definition DEFAULT_freeTierLimit : Z := 5.
Definition DEFAULT_proTierLimit : Z := 100.
Definition DEFAULT_resetPeriod : string := "monthly".

Definition createConfig (userConfig : partial) : full :=
  mk_full
    (TokenConfig.mk
       (p_productId userConfig)
       (nullish (p_freeTierLimit userConfig) DEFAULT_freeTierLimit)
       (nullish (p_proTierLimit userConfig) DEFAULT_proTierLimit)
       (p_onSubscriptionActivated userConfig)
       (p_onGenerationUsed userConfig)
       (p_onLimitReached userConfig))
    (p_productIdDev userConfig)
    (nullish (p_resetPeriod userConfig) DEFAULT_resetPeriod).

(** [isDev] is the global [__DEV__] flag ([false] where it is not defined). *)
Definition getActiveProductId (isDev : bool) (config : full) : string :=
  if isDev && truthy (productIdDev config)
  then default "" (productIdDev config)
  else TokenConfig.productId (services config).

(** [validateConfig] returns nothing or throws: the message of the error it
    throws, if any. *)
Definition validateConfig (config : full) : option string :=
  if negb (truthy_value (TokenConfig.productId (services config)))
  then Some "[expo-iap-ai-token-subscription] productId is required in config"
  else if bool_decide (TokenConfig.freeTierLimit (services config) < 0)
  then Some "[expo-iap-ai-token-subscription] freeTierLimit must be >= 0"
  else if bool_decide (TokenConfig.proTierLimit (services config) < 0)
  then Some "[expo-iap-ai-token-subscription] proTierLimit must be >= 0"
  else if negb (bool_decide (resetPeriod config ∈ ["monthly"; "weekly"; "daily"]))
  then Some "[expo-iap-ai-token-subscription] resetPeriod must be one of: monthly, weekly, daily"
  else None.
End Config.

(** ** utils/dateUtils.ts

    The module keeps one variable, [mockDate]; it is the store of the worlds
    these functions run in.  A [Date] object is truthy whatever instant it
    holds, so [mockDate || new Date()] reads the clock only when no mock date
    is set. *)

Module dateUtils.
Definition getCurrentDate : M (option Z) Z :=
  mockDate ← gets (fun m => m);
  match mockDate with
  | Some d => mret d
  | None => Date_now
  end.

Definition getCurrentTimestamp : M (option Z) Z := getCurrentDate.

Definition setMockDate (date : option Z) : M (option Z) unit :=
  modify (fun _ => date).

Definition clearMockDate : M (option Z) unit := setMockDate None.

Definition isExpired (date : Z) : M (option Z) bool :=
  now ← getCurrentTimestamp; mret (bool_decide (date < now)).

Definition isFuture (date : Z) : M (option Z) bool :=
  now ← getCurrentTimestamp; mret (bool_decide (now < date)).
End dateUtils.

(** ** hooks/useTokenSubscription.ts and context/TokenProvider.tsx

    The purchase-success callback the hook hands to expo-iap, with the state
    it works on: the adapter, the set [processedTransactions] of the hook, the
    [userData] and [localIsSubscribed] state of the provider, and the
    purchases handed to expo-iap's [finishTransaction] so far. *)

Module useTokenSubscription.
Record state (A : Type) := mk {
  adapter : A;
  processedTransactions : gset (option string);
  userData : option UserData.t;
  localIsSubscribed : bool;
  finished : list Purchase.t
}.
Arguments mk {A}.
Arguments adapter {A}.
Arguments processedTransactions {A}.
Arguments userData {A}.
Arguments localIsSubscribed {A}.
Arguments finished {A}.

Section WithAdapter.
Context {A : Type} `{!StorageAdapter.ops A} `{!StorageAdapter.queries A}
        (config : TokenConfig.t).

(** A method of a service, run on the adapter the provider holds. *)
Definition on_adapter {X} (m : M A X) : M (state A) X :=
  fun w =>
    let (x, wa) := m (mkWorld (adapter (store w)) (time w) (tick w) (fired w)) in
    (x, mkWorld (mk (store wa) (processedTransactions (store w)) (userData (store w))
                    (localIsSubscribed (store w)) (finished (store w)))
                (time wa) (tick wa) (fired wa)).

Definition setLocalIsSubscribed (value : bool) : M (state A) unit :=
  modify (fun s => mk (adapter s) (processedTransactions s) (userData s)
                      value (finished s)).

Definition setUserData (data : option UserData.t) : M (state A) unit :=
  modify (fun s => mk (adapter s) (processedTransactions s) data
                      (localIsSubscribed s) (finished s)).

Definition finishTransaction (purchase : Purchase.t) : M (state A) unit :=
  modify (fun s => mk (adapter s) (processedTransactions s) (userData s)
                      (localIsSubscribed s) (finished s ++ [purchase])).

Definition refreshUserData : M (state A) unit :=
  data ← on_adapter TokenManager.getUserData;
  setUserData data;;
  match data with
  | Some data =>
      setLocalIsSubscribed
        (bool_decide (UserData.subscriptionPlan data ≠ None)
         && bool_decide (UserData.subscriptionPlan data ≠ Some ""))
  | None => mret tt
  end.

Definition onPurchaseSuccess (purchase : Purchase.t) : M (state A) unit :=
  let transactionId :=
    js_or (Purchase.transactionId purchase) (Purchase.id purchase) in
  seen ← gets (fun s => bool_decide (transactionId ∈ processedTransactions s));
  if seen : bool then mret tt
  else
    modify (fun s => mk (adapter s) ({[transactionId]} ∪ processedTransactions s)
                        (userData s) (localIsSubscribed s) (finished s));;
    setLocalIsSubscribed true;;
    let transactionReason :=
      js_or (Purchase.transactionReasonIOS purchase) (Purchase.reasonIOS purchase) in
    let expirationDate := Purchase.expirationDateIOS purchase in
    now ← Date_now;
    (* the expiration date is logged through [toISOString]; the handler has
       no [try] around it, so a [RangeError] ends it here *)
    if negb (printable expirationDate) then mret tt
    else
    let isActive :=
      negb (truthy expirationDate)
      || bool_decide (now < default 0 expirationDate) in
    if negb isActive then finishTransaction purchase
    else
      subscriptionSaved ← on_adapter (SubscriptionService.saveSubscription purchase);
      (if bool_decide (transactionReason = Some "PURCHASE")
          || bool_decide (transactionReason = Some "purchase")
       then
         updated ← on_adapter (TokenManager.activateSubscription config "pro");
         refreshUserData
       else mret tt);;
      finishTransaction purchase.
End WithAdapter.
End useTokenSubscription.

(** ** Vocabulary of the statements *)

(** The user record of the device an in-memory adapter speaks for. *)
Definition user_of (w : World InMemoryAdapter.state) : option UserData.t :=
  InMemoryAdapter.users (store w) !! InMemoryAdapter.deviceId (store w).

(** The user row of the device a Supabase adapter has cached the identifier of. *)
Definition row_of (dev : string) (w : World SupabaseAdapter.state)
    : option SupabaseAdapter.user_row :=
  SupabaseAdapter.user (store w) !! dev.

(** The reading of the clock that [checkAndHandleRenewal] binds to [now]: the
    first one it takes when the event carries a time stamp, the second one
    when the transaction date itself had to be read off the clock. *)
Definition reading_of_now {S} (subscription : Purchase.t) (w : World S) : Z :=
  if truthy (js_or (Purchase.transactionDate subscription)
                   (Purchase.purchaseDateIOS subscription))
  then time w (tick w)
  else time w (Datatypes.S (tick w)).

(** The limit-reached notifications within a trace of callbacks. *)
Definition is_LimitReached (c : Callback) : bool :=
  match c with LimitReached _ => true | _ => false end.
Definition limit_events (l : list Callback) : list Callback :=
  List.filter is_LimitReached l.

(** The transaction identifiers stored for a device, in storage order. *)
Definition stored_ids (deviceId : string) (w : World InMemoryAdapter.state)
    : list string :=
  SubscriptionData.transactionId <$>
    default [] (InMemoryAdapter.subscriptions (store w) !! deviceId).
Definition stored_row_ids (w : World SupabaseAdapter.state) : list string :=
  SupabaseAdapter.transaction_id <$> SupabaseAdapter.subscriptions (store w).

(** What [shouldRenew] answers on a record and a transaction date. *)
Definition decision (stored : option UserData.t) (transactionDate : Z) : bool :=
  match stored with
  | None => false
  | Some u =>
      valid_date transactionDate
      && truthy (UserData.subscriptionPlan u)
      && match UserData.lastRenewalAt u with
         | None => true
         | Some l => valid_date l && bool_decide (l < transactionDate)
         end
  end.

(** The dates of a purchase the Supabase [upsertSubscription] turns into
    ISO strings can all be printed. *)
Definition storable (purchase : Purchase.t) (transactionDate : Z) : bool :=
  valid_date transactionDate
  && printable (Purchase.originalTransactionDateIOS purchase)
  && printable (Purchase.expirationDateIOS purchase)
  && printable (Purchase.renewalDate purchase).

(** The two dates [checkAndHandleRenewal] logs can be printed. *)
Definition loggable (subscription : Purchase.t) (transactionDate : Z) : bool :=
  valid_date transactionDate && printable (Purchase.expirationDateIOS subscription).

(** The record a renewal leaves behind: plan, balance and renewal stamp are
    written, the identifier and the creation date are kept. *)
Definition renewed (config : TokenConfig.t) (stamp : Z) (u : UserData.t) : UserData.t :=
  UserData.mk (UserData.deviceId u) (Some "pro") (TokenConfig.proTierLimit config)
              (UserData.createdAt u) (Some stamp).

(** The event is live at a reading [now] of the clock. *)
Definition live (subscription : Purchase.t) (now : Z) : bool :=
  negb (truthy (Purchase.expirationDateIOS subscription))
  || bool_decide (now < default 0 (Purchase.expirationDateIOS subscription)).

(** The transaction date [checkAndHandleRenewal] works with: the event's
    [transactionDate], else its [purchaseDateIOS], else a reading of the clock. *)
Definition transaction_time {S} (subscription : Purchase.t) (w : World S) : Z :=
  match js_or (Purchase.transactionDate subscription)
              (Purchase.purchaseDateIOS subscription) with
  | Some t => if truthy_value t then t else time w (tick w)
  | None => time w (tick w)
  end.

(** The row a renewal leaves behind in the [user] table. *)
Definition renewed_row (config : TokenConfig.t) (stamp : Z)
    (row : SupabaseAdapter.user_row) : SupabaseAdapter.user_row :=
  SupabaseAdapter.mk_user (SupabaseAdapter.device_id row) (Some "pro")
                          (TokenConfig.proTierLimit config)
                          (SupabaseAdapter.created_at row) (Some stamp).

(** The adapter has already worked out which device it speaks for. *)
Definition speaks_for (dev : string) (w : World SupabaseAdapter.state) : Prop :=
  SupabaseAdapter.cachedDeviceId (store w) = Some dev ∧ dev ≠ "".

(** Nothing is left for the reconciler to do with an event dated [T]: its
    dates cannot be printed, or the event has expired, or carries no original
    transaction identifier, or [shouldRenew] refuses it. *)
Definition settled (subscription : Purchase.t) (T : Z)
    (w : World InMemoryAdapter.state) : Prop :=
  loggable subscription T = false
  ∨ live subscription (time w (tick w)) = false
  ∨ truthy (Purchase.originalTransactionIdentifierIOS subscription) = false
  ∨ decision (user_of w) T = false.

Definition monotone (clock : nat -> Z) : Prop :=
  ∀ i j : nat, (i <= j)%nat → clock i <= clock j.

(** The list update at the end of the in-memory [upsertSubscription]:
    overwrite the record with the same transaction identifier, else append. *)
Definition upsert_into (subscriptionData : SubscriptionData.t)
    (userSubscriptions : list SubscriptionData.t) : list SubscriptionData.t :=
  match findIndex (SubscriptionData.transactionId subscriptionData) userSubscriptions with
  | Some existingIndex => <[existingIndex := subscriptionData]> userSubscriptions
  | None => userSubscriptions ++ [subscriptionData]
  end.

(** The row update at the end of the Supabase [upsertSubscription]. *)
Definition upsert_row (row : SupabaseAdapter.subscription_row)
    (rows : list SupabaseAdapter.subscription_row)
    : list SupabaseAdapter.subscription_row :=
  match SupabaseAdapter.select_single (SupabaseAdapter.transaction_id row) rows with
  | Some _ =>
      (fun r => if decide (SupabaseAdapter.transaction_id r
                           = SupabaseAdapter.transaction_id row)
                then row else r) <$> rows
  | None => rows ++ [row]
  end.

(** A sequence of [upsertSubscription] calls. *)
Fixpoint upsertAll {S : Type} `{!StorageAdapter.ops S}
    (calls : list (string * Purchase.t)) (w : World S) : World S :=
  match calls with
  | [] => w
  | (deviceId, purchase) :: calls =>
      upsertAll calls (after (StorageAdapter.upsertSubscription deviceId purchase) w)
  end.

(** Every stored balance is non-negative. *)
Definition balances_nonneg (w : World InMemoryAdapter.state) : Prop :=
  ∀ d u, InMemoryAdapter.users (store w) !! d = Some u → 0 <= UserData.generationsLeft u.

Definition rows_nonneg (w : World SupabaseAdapter.state) : Prop :=
  ∀ d row, SupabaseAdapter.user (store w) !! d = Some row →
           0 <= SupabaseAdapter.generations_left row.

(** The callbacks a successful [useGeneration] that leaves [newCount] invokes. *)
Definition used_callbacks (config : TokenConfig.t) (u : UserData.t) (newCount : Z)
    : list Callback :=
  (if TokenConfig.onGenerationUsed config then [GenerationUsed newCount] else [])
  ++ (if bool_decide (newCount = 0) && TokenConfig.onLimitReached config
      then [LimitReached (negb (bool_decide (UserData.subscriptionPlan u ≠ None)))]
      else []).

(** The renewal monitor at work on a sequence of events. *)
Fixpoint reconcileAll {S : Type} `{!StorageAdapter.ops S} (config : TokenConfig.t)
    (events : list Purchase.t) (w : World S) : World S :=
  match events with
  | [] => w
  | subscription :: events =>
      reconcileAll config events
        (after (RenewalService.checkAndHandleRenewal config subscription) w)
  end.

(** A session of an application with the ledger and the reconciler: the calls
    it may make, in any order. *)
Inductive Call :=
| CallInitializeUser
| CallUseGeneration
| CallResetGenerations
| CallActivateSubscription (plan : string)
| CallCancelSubscription
| CallCheckAndHandleRenewal (subscription : Purchase.t).

Definition run_call {S : Type} `{!StorageAdapter.ops S} (config : TokenConfig.t)
    (c : Call) (w : World S) : World S :=
  match c with
  | CallInitializeUser => after (TokenManager.initializeUser config) w
  | CallUseGeneration => after (TokenManager.useGeneration config) w
  | CallResetGenerations => after (TokenManager.resetGenerations config) w
  | CallActivateSubscription plan => after (TokenManager.activateSubscription config plan) w
  | CallCancelSubscription => after TokenManager.cancelSubscription w
  | CallCheckAndHandleRenewal subscription =>
      after (RenewalService.checkAndHandleRenewal config subscription) w
  end.

Definition session {S : Type} `{!StorageAdapter.ops S} (config : TokenConfig.t)
    (calls : list Call) (w : World S) : World S :=
  foldl (fun w c => run_call config c w) w calls.

(** Two Supabase worlds hold the same tables, reach the backend alike and
    have invoked the same callbacks. *)
Definition same_tables (w w' : World SupabaseAdapter.state) : Prop :=
  SupabaseAdapter.user (store w') = SupabaseAdapter.user (store w)
  ∧ SupabaseAdapter.subscriptions (store w') = SupabaseAdapter.subscriptions (store w)
  ∧ SupabaseAdapter.offline (store w') = SupabaseAdapter.offline (store w)
  ∧ fired w' = fired w.

(** The subscription records stored for a device, in storage order. *)
Definition subs_of (deviceId : string) (w : World InMemoryAdapter.state)
    : list SubscriptionData.t :=
  default [] (InMemoryAdapter.subscriptions (store w) !! deviceId).

(** The writes of the in-memory adapter that are addressed to one device. *)
Inductive Write :=
| WriteInitializeUser (freeLimit : Z)
| WriteUpdateGenerations (count : Z)
| WriteUpdateSubscriptionPlan (plan : string) (generations : Z)
| WriteUpdateLastRenewal (date : Z)
| WriteCancelSubscription
| WriteUpsertSubscription (purchase : Purchase.t).

Definition run_write (deviceId : string) (wr : Write)
    (w : World InMemoryAdapter.state) : World InMemoryAdapter.state :=
  match wr with
  | WriteInitializeUser freeLimit =>
      after (InMemoryAdapter.initializeUser deviceId freeLimit) w
  | WriteUpdateGenerations count =>
      after (InMemoryAdapter.updateGenerations deviceId count) w
  | WriteUpdateSubscriptionPlan plan generations =>
      after (InMemoryAdapter.updateSubscriptionPlan deviceId plan generations) w
  | WriteUpdateLastRenewal date =>
      after (InMemoryAdapter.updateLastRenewal deviceId date) w
  | WriteCancelSubscription => after (InMemoryAdapter.cancelSubscription deviceId) w
  | WriteUpsertSubscription purchase =>
      after (InMemoryAdapter.upsertSubscription deviceId purchase) w
  end.

(** The bookkeeping of transactions on the in-memory adapter: records are
    upserted and marked cancelled, in any order. *)
Inductive Booking :=
| BookUpsert (deviceId : string) (purchase : Purchase.t)
| BookCancel (entries : list string) (transactionId : string).

Definition run_booking (b : Booking) (w : World InMemoryAdapter.state)
    : World InMemoryAdapter.state :=
  match b with
  | BookUpsert deviceId purchase =>
      after (InMemoryAdapter.upsertSubscription deviceId purchase) w
  | BookCancel entries transactionId =>
      after (InMemoryAdapter.markSubscriptionCancelled entries transactionId) w
  end.

Definition bookkeeping (bs : list Booking) (w : World InMemoryAdapter.state)
    : World InMemoryAdapter.state :=
  foldl (fun w b => run_booking b w) w bs.

(** No stored record is flagged active and cancelled at once. *)
Definition active_not_cancelled (w : World InMemoryAdapter.state) : Prop :=
  ∀ d sub, sub ∈ subs_of d w →
           SubscriptionData.isActive sub = true →
           SubscriptionData.isCancelled sub = false.

(** The identifier the purchase handler files a purchase under:
    [purchase.transactionId || purchase.id]. *)
Definition handled_id (purchase : Purchase.t) : option string :=
  js_or (Purchase.transactionId purchase) (Purchase.id purchase).

(** The reason the purchase handler reads:
    [purchase.transactionReasonIOS || purchase.reasonIOS]. *)
Definition handled_reason (purchase : Purchase.t) : option string :=
  js_or (Purchase.transactionReasonIOS purchase) (Purchase.reasonIOS purchase).

Definition is_initial_purchase (purchase : Purchase.t) : bool :=
  bool_decide (handled_reason purchase = Some "PURCHASE")
  || bool_decide (handled_reason purchase = Some "purchase").

(** The world of the adapter inside the world of the provider. *)
Definition adapter_world {A} (w : World (useTokenSubscription.state A)) : World A :=
  mkWorld (useTokenSubscription.adapter (store w)) (time w) (tick w) (fired w).

(** Purchases delivered to the purchase handler, one after the other. *)
Definition deliveries {A} `{!StorageAdapter.ops A} (config : TokenConfig.t)
    (purchases : list Purchase.t) (w : World (useTokenSubscription.state A))
    : World (useTokenSubscription.state A) :=
  foldl (fun w purchase =>
           after (useTokenSubscription.onPurchaseSuccess config purchase) w)
        w purchases.

(** The identifiers of the purchases handed to [finishTransaction] so far. *)
Definition finished_ids {A} (w : World (useTokenSubscription.state A))
    : list (option string) :=
  handled_id <$> useTokenSubscription.finished (store w).

(** A provider that has just been mounted on an adapter. *)
Definition mounted {A} (w : World A) : World (useTokenSubscription.state A) :=
  mkWorld (useTokenSubscription.mk (store w) ∅ None false [])
          (time w) (tick w) (fired w).

(** What is finished was filed as processed before, and nothing is finished
    twice. *)
Definition finished_once {A} (w : World (useTokenSubscription.state A)) : Prop :=
  NoDup (finished_ids w)
  ∧ ∀ x, x ∈ finished_ids w
         → x ∈ useTokenSubscription.processedTransactions (store w).

(** Whatever was filed as processed has been finished. *)
Definition all_finished {A} (w : World (useTokenSubscription.state A)) : Prop :=
  ∀ x, x ∈ useTokenSubscription.processedTransactions (store w)
       → x ∈ finished_ids w.

(** The world once [checkAndHandleRenewal] has read the clock: once for
    [now], and once before that when the event has no date of its own. *)
Definition after_reading_dates {S} (subscription : Purchase.t) (w : World S)
    : World S :=
  mkWorld (store w) (time w)
          (Datatypes.S
             (if truthy (js_or (Purchase.transactionDate subscription)
                               (Purchase.purchaseDateIOS subscription))
              then tick w else Datatypes.S (tick w)))
          (fired w).

(** ** Sample data *)

Definition sample_config : TokenConfig.t :=
  TokenConfig.mk "com.example.pro" 5 100 true true true.

Definition sample_user (plan : option string) (generations : Z)
    (lastRenewalAt : option Z) : UserData.t :=
  UserData.mk "device-1" plan generations 0 lastRenewalAt.

(** The device clock: 1000, 1100, 1200, ... *)
Definition sample_clock (n : nat) : Z := 1000 + 100 * Z.of_nat n.

Definition sample_world (u : UserData.t) : World InMemoryAdapter.state :=
  mkWorld (InMemoryAdapter.mk {["device-1" := u]} ∅ "device-1") sample_clock 0 [].

Definition empty_world : World InMemoryAdapter.state :=
  mkWorld (InMemoryAdapter.mk ∅ ∅ "device-1") sample_clock 0 [].

(** A renewal of the subscription chain "orig-1". *)
Definition sample_event (transactionId : option string)
    (transactionDate expirationDate : option Z) : Purchase.t :=
  Purchase.mk transactionId None (Some "orig-1") (Some "com.example.pro")
              transactionDate None expirationDate (Some "RENEWAL") None
              (Some "Production") None (Some true) None None.

Definition sample_row (plan : option string) (generations : Z)
    (lastRenewalAt : option Z) : SupabaseAdapter.user_row :=
  SupabaseAdapter.mk_user "device-1" plan generations 0 lastRenewalAt.

Definition sample_backend (row : SupabaseAdapter.user_row)
    : World SupabaseAdapter.state :=
  mkWorld (SupabaseAdapter.mk {["device-1" := row]} [] false
                              (Some "device-1") None None (Some "device-1") 0)
          sample_clock 0 [].

(** * Properties *)

Ltac unfold_monad :=
  unfold result, after, mbind, mret, M_bind, M_ret, gets, modify, Date_now,
    fire, when in *.

(** ** The renewal decision *)

Section Decision.
Context {S : Type} `{!StorageAdapter.ops S}.

(** [shouldRenew] reads the record through the adapter and decides on it. *)
Lemma shouldRenew_unfold (w : World S) (orig : string) (T : Z) :
  result (RenewalService.shouldRenew orig T) w =
    decision (result TokenManager.getUserData w) T.
Proof.
  unfold RenewalService.shouldRenew, TokenManager.getUserData, decision.
  unfold_monad.
  destruct (StorageAdapter.getDeviceId w) as [dev w1].
  destruct (StorageAdapter.getUserData dev w1) as [[u|] w2]; simpl; [|reflexivity].
  destruct (valid_date T); simpl; [|reflexivity].
  destruct (truthy (UserData.subscriptionPlan u)); simpl; [|reflexivity].
  destruct (UserData.lastRenewalAt u) as [l|]; [|reflexivity].
  destruct (valid_date l); reflexivity.
Qed.

(** A transaction date outside the range of [Date] is refused whatever the
    record says: the log line that prints it throws. *)
Lemma shouldRenew_out_of_range (w : World S) (orig : string) (T : Z) :
  valid_date T = false → result (RenewalService.shouldRenew orig T) w = false.
Proof.
  intros HT. rewrite shouldRenew_unfold. unfold decision.
  destruct (result TokenManager.getUserData w); [|done]. by rewrite HT.
Qed.
End Decision.

(** C2.  For the user record the adapter returns for the device: when its
    [subscriptionPlan] is neither null nor empty, and the transaction date
    and [lastRenewalAt] are time values of the range of [Date], [shouldRenew]
    answers true exactly when [lastRenewalAt] is null or the transaction date
    is strictly later than it; a transaction date equal to [lastRenewalAt] is
    refused; when the record is absent, or its plan is null or empty, the
    answer is false. *)
Theorem C2_shouldRenew_decision {S : Type} `{!StorageAdapter.ops S}
    (w : World S) (originalTransactionId : string) (transactionDate : Z) :
  let stored := result TokenManager.getUserData w in
  let answer :=
    result (RenewalService.shouldRenew originalTransactionId transactionDate) w in
  (∀ u, stored = Some u → truthy (UserData.subscriptionPlan u) = true →
        (valid_date transactionDate = true →
         (∀ l, UserData.lastRenewalAt u = Some l → valid_date l = true) →
         (answer = true ↔
            UserData.lastRenewalAt u = None
            ∨ ∃ l, UserData.lastRenewalAt u = Some l ∧ l < transactionDate))
        ∧ (UserData.lastRenewalAt u = Some transactionDate → answer = false))
  ∧ (stored = None → answer = false)
  ∧ (∀ u, stored = Some u →
          UserData.subscriptionPlan u = None ∨ UserData.subscriptionPlan u = Some "" →
          answer = false).
Proof.
  intros stored answer. subst answer. rewrite shouldRenew_unfold.
  fold stored. unfold decision. split; [|split].
  - intros u -> Hplan. rewrite Hplan. split.
    + intros HT Hstamp. rewrite HT. cbn [andb].
      destruct (UserData.lastRenewalAt u) as [l|]; split.
      * intros [_ Hd]%andb_true_iff. apply bool_decide_eq_true_1 in Hd. right. eauto.
      * intros [Hn|(l' & Hl & Hlt)]; [discriminate|].
        injection Hl as <-. rewrite (Hstamp l eq_refl). by apply bool_decide_eq_true_2.
      * intros _. by left.
      * reflexivity.
    + intros ->. rewrite (bool_decide_eq_false_2 (transactionDate < transactionDate))
        by lia.
      by rewrite !andb_false_r.
  - intros ->. reflexivity.
  - intros u -> [Hp|Hp]; rewrite Hp; cbn; by rewrite andb_false_r.
Qed.

Lemma C2_shouldRenew_decision_witness :
  let w := sample_world (sample_user (Some "pro") 3 (Some 200)) in
  result (RenewalService.shouldRenew "orig-1" 900) w = true
  ∧ result (RenewalService.shouldRenew "orig-1" 200) w = false
  ∧ result (RenewalService.shouldRenew "orig-1" 900) empty_world = false.
Proof.
  split; [|split].
  - destruct (C2_shouldRenew_decision
                (sample_world (sample_user (Some "pro") 3 (Some 200))) "orig-1" 900)
      as (H & _ & _).
    destruct (H (sample_user (Some "pro") 3 (Some 200)) eq_refl eq_refl) as [Hiff _].
    apply Hiff; [reflexivity | by intros l [= <-] |].
    right. exists 200. split; [reflexivity | lia].
  - destruct (C2_shouldRenew_decision
                (sample_world (sample_user (Some "pro") 3 (Some 200))) "orig-1" 200)
      as (H & _ & _).
    destruct (H (sample_user (Some "pro") 3 (Some 200)) eq_refl eq_refl) as [_ Heq].
    apply Heq. reflexivity.
  - destruct (C2_shouldRenew_decision empty_world "orig-1" 900) as (_ & H & _).
    apply H. reflexivity.
Defined.

(** C6.  An event whose [expirationDate] is present (a value the test
    [!expirationDate] of the source does not take for missing, that is any
    time value but 0) and not later than the reading of the clock bound to
    [now] is skipped: the call reports false, the store is as before and no
    callback fires, whatever the other fields of the event and whatever the
    adapter holds. *)
Theorem C6_expired_event_is_skipped {S : Type} `{!StorageAdapter.ops S}
    (config : TokenConfig.t) (subscription : Purchase.t) (w : World S) (e : Z) :
  Purchase.expirationDateIOS subscription = Some e →
  e ≠ 0 →
  e <= reading_of_now subscription w →
  result (RenewalService.checkAndHandleRenewal config subscription) w = false
  ∧ store (after (RenewalService.checkAndHandleRenewal config subscription) w) = store w
  ∧ fired (after (RenewalService.checkAndHandleRenewal config subscription) w) = fired w.
Proof.
  intros He Hnz Hle.
  assert (Htr : truthy (Purchase.expirationDateIOS subscription) = true).
  { rewrite He. cbn. apply negb_true_iff, Z.eqb_neq, Hnz. }
  unfold RenewalService.checkAndHandleRenewal, reading_of_now in *.
  unfold_monad. rewrite Htr, He in *. cbn [negb orb default] in *.
  destruct (js_or (Purchase.transactionDate subscription)
                  (Purchase.purchaseDateIOS subscription)) as [t|]; cbn in *.
  - destruct (truthy_value t); cbn in *;
      (destruct (valid_date _ && printable (Some e)); cbn; [|auto]);
      rewrite bool_decide_eq_false_2 by lia; cbn; auto.
  - destruct (valid_date _ && printable (Some e)); cbn; [|auto].
    rewrite bool_decide_eq_false_2 by lia; cbn; auto.
Qed.

Lemma C6_expired_event_is_skipped_witness :
  let w := sample_world (sample_user (Some "pro") 3 None) in
  let ev := sample_event (Some "tx-2") (Some 5000) (Some 900) in
  result (RenewalService.checkAndHandleRenewal sample_config ev) w = false
  ∧ store (after (RenewalService.checkAndHandleRenewal sample_config ev) w) = store w
  ∧ fired (after (RenewalService.checkAndHandleRenewal sample_config ev) w) = fired w.
Proof.
  apply (C6_expired_event_is_skipped sample_config
           (sample_event (Some "tx-2") (Some 5000) (Some 900))
           (sample_world (sample_user (Some "pro") 3 None)) 900).
  - reflexivity.
  - lia.
  - vm_compute. discriminate.
Defined.

(** ** The in-memory adapter, method by method *)

Section InMemory.
Implicit Types (w : World InMemoryAdapter.state) (u : UserData.t).

Lemma mem_getUserData w :
  TokenManager.getUserData w = (user_of w, w).
Proof. reflexivity. Qed.

Lemma mem_shouldRenew orig T w :
  RenewalService.shouldRenew orig T w = (decision (user_of w) T, w).
Proof.
  unfold RenewalService.shouldRenew, decision, user_of. unfold_monad. cbn.
  destruct (InMemoryAdapter.users (store w) !! InMemoryAdapter.deviceId (store w))
    as [u|]; [|reflexivity].
  destruct (valid_date T); cbn; [|reflexivity].
  destruct (truthy (UserData.subscriptionPlan u)); cbn; [|reflexivity].
  destruct (UserData.lastRenewalAt u) as [l|]; [|reflexivity].
  destruct (valid_date l); reflexivity.
Qed.

Lemma mem_processRenewal config w u :
  user_of w = Some u →
  RenewalService.processRenewal config "pro" w =
    (true,
     mkWorld
       (InMemoryAdapter.set_users
          <[InMemoryAdapter.deviceId (store w) := renewed config (time w (tick w)) u]>
          (store w))
       (time w) (Datatypes.S (tick w))
       (fired w ++ if TokenConfig.onSubscriptionActivated config
                   then [SubscriptionActivated] else [])).
Proof.
  intros Hu. unfold RenewalService.processRenewal, user_of in *.
  unfold_monad. cbn. unfold InMemoryAdapter.updateSubscriptionPlan.
  unfold_monad. cbn. rewrite Hu. cbn.
  destruct (TokenConfig.onSubscriptionActivated config); cbn;
    [reflexivity | by rewrite app_nil_r].
Qed.

(** [processRenewal] leaves the transaction records alone. *)
Lemma mem_processRenewal_frame config plan w :
  InMemoryAdapter.subscriptions
    (store (after (RenewalService.processRenewal config plan) w))
  = InMemoryAdapter.subscriptions (store w).
Proof.
  unfold after, RenewalService.processRenewal. unfold_monad. cbn.
  unfold InMemoryAdapter.updateSubscriptionPlan. unfold_monad. cbn.
  destruct (InMemoryAdapter.users (store w) !! _); cbn;
    destruct (TokenConfig.onSubscriptionActivated config); reflexivity.
Qed.

(** [upsertSubscription] touches the subscription lists only. *)
Lemma mem_upsert_frame deviceId purchase w :
  ∃ (k : nat) subs,
    InMemoryAdapter.upsertSubscription deviceId purchase w =
      (true,
       mkWorld
         (InMemoryAdapter.mk (InMemoryAdapter.users (store w)) subs
                             (InMemoryAdapter.deviceId (store w)))
         (time w) (tick w + k)%nat (fired w)).
Proof.
  unfold InMemoryAdapter.upsertSubscription. unfold_monad.
  destruct (js_or (Purchase.transactionId purchase) (Purchase.id purchase))
    as [s|]; [destruct (truthy_value s)|];
    destruct (truthy (Purchase.transactionDate purchase)); cbn;
    eexists _, _; unfold InMemoryAdapter.set_subscriptions; cbn;
    try (rewrite Nat.add_0_r; reflexivity);
    try (replace (Datatypes.S (tick w)) with (tick w + 1)%nat by lia; reflexivity);
    try (replace (Datatypes.S (Datatypes.S (tick w))) with (tick w + 2)%nat by lia;
         reflexivity).
Qed.

(** The reconciler on the in-memory adapter: its verdict, and what it
    leaves behind in either case. *)
Lemma mem_check config subscription w :
  let go :=
    loggable subscription (transaction_time subscription w)
    && live subscription (reading_of_now subscription w)
    && truthy (Purchase.originalTransactionIdentifierIOS subscription)
    && decision (user_of w) (transaction_time subscription w) in
  ∃ w',
    RenewalService.checkAndHandleRenewal config subscription w = (go, w')
    ∧ time w' = time w
    ∧ InMemoryAdapter.deviceId (store w') = InMemoryAdapter.deviceId (store w)
    ∧ (tick w < tick w')%nat
    ∧ if go
      then ∃ u (j : nat),
             user_of w = Some u ∧ (tick w < j < tick w')%nat
             ∧ InMemoryAdapter.users (store w') =
                 <[InMemoryAdapter.deviceId (store w) := renewed config (time w j) u]>
                   (InMemoryAdapter.users (store w))
      else store w' = store w ∧ fired w' = fired w.
Proof.
  unfold RenewalService.checkAndHandleRenewal, reading_of_now, transaction_time,
    live, loggable.
  set (td := js_or (Purchase.transactionDate subscription)
                   (Purchase.purchaseDateIOS subscription)).
  set (w0 := mkWorld (store w) (time w)
               (if truthy td then tick w else Datatypes.S (tick w)) (fired w)).
  set (T := match td with
            | Some t => if truthy_value t then t else time w (tick w)
            | None => time w (tick w)
            end).
  assert (Hread :
    (match td with
     | Some t => if truthy_value t then mret t else Date_now
     | None => Date_now
     end : M InMemoryAdapter.state Z) w = (T, w0)).
  { subst T w0. destruct td as [t|]; cbn; [destruct (truthy_value t)|];
      cbn; try reflexivity. by destruct w. }
  unfold mbind at 1. unfold M_bind at 1. rewrite Hread.
  unfold mbind at 1. unfold M_bind at 1. unfold Date_now at 1.
  replace (time w0 (tick w0))
    with (if truthy td then time w (tick w) else time w (Datatypes.S (tick w)))
    by (subst w0; cbn; by destruct (truthy td)).
  set (now := if truthy td then time w (tick w) else time w (Datatypes.S (tick w))).
  set (w1 := mkWorld (store w0) (time w0) (Datatypes.S (tick w0)) (fired w0)).
  assert (Hw1 : store w1 = store w ∧ time w1 = time w ∧ fired w1 = fired w
                ∧ (tick w < tick w1)%nat).
  { subst w1 w0. cbn. repeat split. destruct (truthy td); lia. }
  destruct Hw1 as (Hs1 & Ht1 & Hf1 & Hk1).
  destruct (valid_date T && printable (Purchase.expirationDateIOS subscription));
    cbn [negb andb]; [|by exists w1].
  destruct (negb (truthy (Purchase.expirationDateIOS subscription))
            || bool_decide (now < default 0 (Purchase.expirationDateIOS subscription)));
    cbn [negb andb]; [|by exists w1].
  destruct (Purchase.originalTransactionIdentifierIOS subscription) as [orig|];
    cbn [truthy andb]; [|by exists w1].
  destruct (truthy_value orig); cbn [negb andb]; [|by exists w1].
  unfold mbind at 1. unfold M_bind at 1. rewrite mem_shouldRenew.
  replace (user_of w1) with (user_of w)
    by (unfold user_of; by rewrite Hs1).
  destruct (decision (user_of w) T) eqn:Hd; cbn [negb]; [|by exists w1].
  unfold mbind at 1. unfold M_bind at 1.
  cbn [StorageAdapter.getDeviceId InMemoryAdapter.adapter].
  unfold InMemoryAdapter.getDeviceId at 1. unfold gets at 1.
  unfold mbind at 1. unfold M_bind at 1.
  cbn [StorageAdapter.upsertSubscription InMemoryAdapter.adapter].
  destruct (mem_upsert_frame (InMemoryAdapter.deviceId (store w1)) subscription w1)
    as (k & subs & ->).
  unfold decision in Hd. destruct (user_of w) as [u|] eqn:Hu; [|discriminate].
  unfold mbind at 1. unfold M_bind at 1.
  erewrite mem_processRenewal; last first.
  { unfold user_of in *. cbn. exact Hu. }
  cbn. eexists. split; [reflexivity|]. cbn.
  repeat split; [destruct (truthy td); lia|].
  eexists u, _. repeat split; destruct (truthy td); lia.
Qed.
(** When the reconciler renews, it has upserted the event for the device and
    then processed the renewal, in this order, and reports what
    [processRenewal] reported. *)
Lemma mem_check_writes config subscription w :
  result (RenewalService.checkAndHandleRenewal config subscription) w = true →
  RenewalService.checkAndHandleRenewal config subscription w =
    RenewalService.processRenewal config "pro"
      (after (InMemoryAdapter.upsertSubscription
                (InMemoryAdapter.deviceId (store w)) subscription)
             (after_reading_dates subscription w)).
Proof.
  intros Hr. unfold result in Hr.
  destruct (mem_check config subscription w) as (w' & Heq & _).
  rewrite Heq in Hr. cbn [fst] in Hr. clear Heq w'.
  apply andb_true_iff in Hr as [Hr Hdec].
  apply andb_true_iff in Hr as [Hr Horig].
  apply andb_true_iff in Hr as [Hlog Hlive].
  unfold RenewalService.checkAndHandleRenewal, reading_of_now, transaction_time,
    live, loggable, after_reading_dates in *.
  set (td := js_or (Purchase.transactionDate subscription)
                   (Purchase.purchaseDateIOS subscription)) in *.
  set (w0 := mkWorld (store w) (time w)
               (if truthy td then tick w else Datatypes.S (tick w)) (fired w)).
  set (T := match td with
            | Some t => if truthy_value t then t else time w (tick w)
            | None => time w (tick w)
            end) in *.
  assert (Hread :
    (match td with
     | Some t => if truthy_value t then mret t else Date_now
     | None => Date_now
     end : M InMemoryAdapter.state Z) w = (T, w0)).
  { subst T w0. destruct td as [t|]; cbn; [destruct (truthy_value t)|];
      cbn; try reflexivity. by destruct w. }
  unfold mbind at 1. unfold M_bind at 1. rewrite Hread.
  unfold mbind at 1. unfold M_bind at 1. unfold Date_now at 1.
  replace (time w0 (tick w0))
    with (if truthy td then time w (tick w) else time w (Datatypes.S (tick w)))
    by (subst w0; cbn; by destruct (truthy td)).
  rewrite Hlog, Hlive. cbn [negb].
  destruct (Purchase.originalTransactionIdentifierIOS subscription) as [orig|];
    [|discriminate].
  cbn [truthy] in Horig. rewrite Horig. cbn [negb].
  unfold mbind at 1. unfold M_bind at 1. rewrite mem_shouldRenew.
  replace (user_of _) with (user_of w) by reflexivity.
  rewrite Hdec. cbn [negb].
  unfold mbind at 1. unfold M_bind at 1.
  cbn [StorageAdapter.getDeviceId InMemoryAdapter.adapter].
  unfold InMemoryAdapter.getDeviceId at 1. unfold gets at 1.
  unfold mbind at 1. unfold M_bind at 1.
  cbn [StorageAdapter.upsertSubscription InMemoryAdapter.adapter].
  unfold after. subst w0. cbn [store time tick fired].
  destruct (InMemoryAdapter.upsertSubscription _ subscription _) as [saved w2].
  cbn [snd].
  unfold mbind at 1. unfold M_bind at 1.
  by destruct (RenewalService.processRenewal config "pro" w2).
Qed.
End InMemory.

(** ** Replaying an event *)

Section Replay.
Variables (config : TokenConfig.t) (subscription : Purchase.t) (T : Z).
Hypothesis dated : Purchase.transactionDate subscription = Some T.
Hypothesis dated_nonzero : T ≠ 0.
Implicit Types w : World InMemoryAdapter.state.

Lemma dated_truthy : truthy_value T = true.
Proof. apply negb_true_iff, Z.eqb_neq, dated_nonzero. Qed.

Lemma dated_js_or :
  js_or (Purchase.transactionDate subscription)
        (Purchase.purchaseDateIOS subscription) = Some T.
Proof. unfold js_or. rewrite dated. cbn. by rewrite dated_truthy. Qed.

Lemma dated_transaction_time w : transaction_time subscription w = T.
Proof. unfold transaction_time. by rewrite dated_js_or, dated_truthy. Qed.

Lemma dated_reading_of_now w : reading_of_now subscription w = time w (tick w).
Proof.
  unfold reading_of_now. rewrite dated_js_or. cbn. by rewrite dated_truthy.
Qed.

Lemma live_false_later now now' :
  now <= now' → live subscription now = false → live subscription now' = false.
Proof.
  unfold live. intros Hle H.
  apply orb_false_iff in H as [H1 H2]. rewrite H1. cbn.
  apply bool_decide_eq_false in H2. apply bool_decide_eq_false_2. lia.
Qed.

(** A settled event is skipped and stays settled. *)
Lemma settled_skip w :
  monotone (time w) → settled subscription T w →
  ∃ w', RenewalService.checkAndHandleRenewal config subscription w = (false, w')
        ∧ store w' = store w ∧ time w' = time w ∧ fired w' = fired w
        ∧ settled subscription T w'.
Proof.
  intros Hmono Hset.
  destruct (mem_check config subscription w) as (w' & Heq & Ht & Hd & Hk & Hgo).
  rewrite dated_transaction_time, dated_reading_of_now in *.
  assert (Hfalse :
    loggable subscription T
    && live subscription (time w (tick w))
    && truthy (Purchase.originalTransactionIdentifierIOS subscription)
    && decision (user_of w) T = false).
  { destruct Hset as [->|[->|[->| ->]]];
      rewrite ?andb_false_r; reflexivity. }
  rewrite Hfalse in *. destruct Hgo as [Hs Hf].
  exists w'. repeat split; try done.
  destruct Hset as [Hlog|[Hl|[Ho|Hdec]]].
  - by left.
  - right. left. rewrite Ht. eapply live_false_later; [|exact Hl]. apply Hmono. lia.
  - right. right. by left.
  - right. right. right. unfold user_of in *. by rewrite Hs.
Qed.

Lemma replay_settled n : ∀ w,
  monotone (time w) → settled subscription T w →
  (replay config subscription n w).1 = O
  ∧ store (replay config subscription n w).2 = store w.
Proof.
  induction n as [|n IH]; intros w Hmono Hset; [done|].
  destruct (settled_skip w Hmono Hset) as (w' & Heq & Hs & Ht & _ & Hset').
  cbn [replay]. rewrite Heq.
  destruct (IH w') as [Hc Hst]; [by rewrite Ht|done|].
  destruct (replay config subscription n w') as [k w2]. cbn in *.
  subst k. split; [done|]. by rewrite Hst.
Qed.

(** The first invocation settles an event that is not dated after the
    clock: if it renews, the stamp it writes is not earlier than [T]. *)
Lemma first_invocation_settles w :
  monotone (time w) → T <= time w (tick w) →
  ∃ r w', RenewalService.checkAndHandleRenewal config subscription w = (r, w')
          ∧ time w' = time w ∧ settled subscription T w'.
Proof.
  intros Hmono Hpast.
  destruct (mem_check config subscription w) as (w' & Heq & Ht & Hd & Hk & Hgo).
  rewrite dated_transaction_time, dated_reading_of_now in *.
  eexists _, w'. split; [exact Heq|]. split; [done|].
  destruct (loggable subscription T) eqn:Hlog; [|by left].
  cbn [andb] in Hgo. right.
  destruct (live subscription (time w (tick w))) eqn:Hl; cbn [andb] in Hgo.
  2: { left. rewrite Ht. eapply live_false_later; [|exact Hl]. apply Hmono. lia. }
  destruct (truthy (Purchase.originalTransactionIdentifierIOS subscription))
    eqn:Ho; cbn [andb] in Hgo; [|right; by left].
  right. right.
  destruct (decision (user_of w) T) eqn:Hdec.
  - destruct Hgo as (u & j & Hu & Hj & Husers).
    unfold user_of. rewrite Hd, Husers, lookup_insert_eq.
    unfold decision, renewed. cbn.
    rewrite (bool_decide_eq_false_2 (time w j < T)); [by rewrite !andb_false_r|].
    assert (time w (tick w) <= time w j) by (apply Hmono; lia). lia.
  - destruct Hgo as [Hs _]. unfold user_of in *. by rewrite Hs.
Qed.
End Replay.

(** Where replaying is harmless.  Take an event with a fixed
    [transactionDate] that is not later than the device clock when it is
    first delivered, and a clock that does not run backwards.  Then however
    often the event is replayed, every invocation after the first is
    skipped: the user records after the n-th invocation are those after the
    first, and the number of resets performed is the number the first
    invocation performed, at most one. *)
Lemma replay_of_a_past_dated_event
    (config : TokenConfig.t) (subscription : Purchase.t) (T : Z) (n : nat)
    (w : World InMemoryAdapter.state) :
  monotone (time w) →
  Purchase.transactionDate subscription = Some T →
  T ≠ 0 →
  T <= time w (tick w) →
  (1 <= n)%nat →
  let first := replay config subscription 1 w in
  let nth := replay config subscription n w in
  InMemoryAdapter.users (store nth.2) = InMemoryAdapter.users (store first.2)
  ∧ user_of nth.2 = user_of first.2
  ∧ nth.1 = first.1
  ∧ (first.1 <= 1)%nat.
Proof.
  intros Hmono Hdated Hnz Hpast Hn. destruct n as [|n]; [lia|].
  destruct (first_invocation_settles config subscription T Hdated Hnz w Hmono Hpast)
    as (r & w' & Heq & Ht & Hset).
  cbn [replay]. rewrite Heq.
  destruct (replay_settled config subscription T Hdated Hnz n w') as [Hc Hs];
    [by rewrite Ht|done|].
  destruct (replay config subscription n w') as [k w2]. cbn in *. subst k.
  assert (Hst : store w2 = store w') by done.
  unfold user_of. rewrite Hst. repeat split; destruct r; cbn; lia.
Qed.

Lemma sample_clock_monotone : monotone sample_clock.
Proof. intros i j Hij. unfold sample_clock. lia. Qed.

(** C1.  Replaying is not idempotent for an event dated ahead of the device
    clock.  The reset stamps [lastRenewalAt] with the clock, not with the
    transaction date, so as long as the clock has not caught up with the
    date of the event the replay is taken for a new payment: the first and
    the second invocation both report a renewal, both reset the balance to
    [proTierLimit], and the second moves [lastRenewalAt] to a later reading
    of the clock. *)
Theorem C1_event_dated_ahead_of_the_clock_is_reset_twice
    (config : TokenConfig.t) (subscription : Purchase.t) (T : Z)
    (w : World InMemoryAdapter.state) :
  Purchase.transactionDate subscription = Some T →
  T ≠ 0 →
  loggable subscription T = true →
  truthy (Purchase.originalTransactionIdentifierIOS subscription) = true →
  decision (user_of w) T = true →
  (∀ k : nat, (tick w <= k < tick (replay config subscription 2 w).2)%nat →
     time w k < T
     ∧ valid_date (time w k) = true
     ∧ live subscription (time w k) = true) →
  let once := replay config subscription 1 w in
  let twice := replay config subscription 2 w in
  once.1 = 1%nat
  ∧ twice.1 = 2%nat
  ∧ ∃ j1 j2 : nat,
      (j1 < j2)%nat
      ∧ UserData.lastRenewalAt <$> user_of once.2 = Some (Some (time w j1))
      ∧ UserData.lastRenewalAt <$> user_of twice.2 = Some (Some (time w j2))
      ∧ UserData.generationsLeft <$> user_of twice.2
        = Some (TokenConfig.proTierLimit config).
Proof.
  intros Hdated Hnz Hlog Horig Hdec Hclock.
  destruct (mem_check config subscription w) as (w1 & Heq1 & Ht1 & Hd1 & Hk1 & Hgo1).
  destruct (mem_check config subscription w1) as (w2 & Heq2 & Ht2 & Hd2 & Hk2 & Hgo2).
  rewrite (dated_transaction_time subscription T Hdated Hnz),
    (dated_reading_of_now subscription T Hdated Hnz) in *.
  cbn [replay] in *. rewrite Heq1 in *. rewrite Heq2 in *. cbn [fst snd] in *.
  assert (Hl1 : live subscription (time w (tick w)) = true)
    by (apply Hclock; lia).
  rewrite Hlog, Hl1, Horig, Hdec in *. cbn [andb] in *.
  destruct Hgo1 as (u & j1 & Hu & Hj1 & Husers1).
  assert (Hu1 : user_of w1 = Some (renewed config (time w j1) u)).
  { unfold user_of. by rewrite Hd1, Husers1, lookup_insert_eq. }
  assert (Hl2 : live subscription (time w1 (tick w1)) = true)
    by (rewrite Ht1; apply Hclock; lia).
  assert (Hdec2 : decision (user_of w1) T = true).
  { rewrite Hu1. unfold decision, renewed. cbn.
    destruct (Hclock j1) as (Hlt & Hv & _); [lia|].
    unfold loggable in Hlog. apply andb_true_iff in Hlog as [-> _].
    rewrite Hv. cbn. by apply bool_decide_eq_true_2. }
  rewrite Hl2, Hdec2 in *. cbn [andb] in *.
  destruct Hgo2 as (u' & j2 & Hu' & Hj2 & Husers2).
  split; [done|]. split; [done|].
  exists j1, j2. split; [lia|]. split; [by rewrite Hu1|].
  unfold user_of. rewrite Hd2, Husers2, lookup_insert_eq. cbn.
  by rewrite Ht1.
Qed.

Lemma C1_event_dated_ahead_of_the_clock_is_reset_twice_witness :
  let w := sample_world (sample_user (Some "pro") 3 (Some 200)) in
  let ev := sample_event (Some "tx-2") (Some 5000) None in
  (replay sample_config ev 1 w).1 = 1%nat
  ∧ (replay sample_config ev 2 w).1 = 2%nat
  ∧ ∃ j1 j2 : nat,
      (j1 < j2)%nat
      ∧ UserData.lastRenewalAt <$> user_of (replay sample_config ev 1 w).2
        = Some (Some (time w j1))
      ∧ UserData.lastRenewalAt <$> user_of (replay sample_config ev 2 w).2
        = Some (Some (time w j2))
      ∧ UserData.generationsLeft <$> user_of (replay sample_config ev 2 w).2
        = Some (TokenConfig.proTierLimit sample_config).
Proof.
  apply (C1_event_dated_ahead_of_the_clock_is_reset_twice sample_config
           (sample_event (Some "tx-2") (Some 5000) None) 5000
           (sample_world (sample_user (Some "pro") 3 (Some 200))));
    try reflexivity; [lia|].
  intros k Hk. vm_compute in Hk.
  assert (Z.of_nat k < 4) by lia.
  split; [cbn; unfold sample_clock; lia|].
  split; [|reflexivity].
  apply bool_decide_eq_true_2. cbn. unfold sample_clock, MAX_TIME_VALUE. lia.
Defined.

(** The same replay in figures: a balance of 3 stamped at 200, an event
    dated 5000 and a clock at 1000: two invocations, two resets, and the
    stamp moves from 1100 to 1300. *)
Example replay_resets_twice_in_figures :
  let w := sample_world (sample_user (Some "pro") 3 (Some 200)) in
  let ev := sample_event (Some "tx-2") (Some 5000) None in
  (replay sample_config ev 1 w).1 = 1%nat
  ∧ user_of (replay sample_config ev 1 w).2
    = Some (sample_user (Some "pro") 100 (Some 1100))
  ∧ (replay sample_config ev 2 w).1 = 2%nat
  ∧ user_of (replay sample_config ev 2 w).2
    = Some (sample_user (Some "pro") 100 (Some 1300)).
Proof. vm_compute. repeat split. Qed.

(** ** What a renewal writes *)

(** C10.  The reconciler decides to renew exactly when the dates of the
    event lie within the range of [Date] (so that they can be logged), the
    event is live, carries an original transaction identifier and
    [shouldRenew] accepts its date; the call then reports true and leaves the
    user on plan "pro" with [generationsLeft] at the configured
    [proTierLimit], whatever [productId] the event names and whatever plan
    string was stored before. *)
Theorem C10_renewal_writes_pro_and_limit
    (config : TokenConfig.t) (subscription : Purchase.t)
    (w : World InMemoryAdapter.state) :
  let reported := result (RenewalService.checkAndHandleRenewal config subscription) w in
  let w' := after (RenewalService.checkAndHandleRenewal config subscription) w in
  (reported = true ↔
     loggable subscription (transaction_time subscription w) = true
     ∧ live subscription (reading_of_now subscription w) = true
     ∧ truthy (Purchase.originalTransactionIdentifierIOS subscription) = true
     ∧ decision (user_of w) (transaction_time subscription w) = true)
  ∧ (reported = true →
     ∃ u', user_of w' = Some u'
           ∧ UserData.subscriptionPlan u' = Some "pro"
           ∧ UserData.generationsLeft u' = TokenConfig.proTierLimit config).
Proof.
  intros reported w'. subst reported w'. unfold result, after.
  destruct (mem_check config subscription w) as (w' & -> & _ & Hdev & _ & Hgo).
  cbn [fst snd].
  destruct (loggable subscription (transaction_time subscription w));
    destruct (live subscription (reading_of_now subscription w));
    destruct (truthy (Purchase.originalTransactionIdentifierIOS subscription));
    destruct (decision (user_of w) (transaction_time subscription w));
    cbn [andb] in *;
    try (split; [split; [done | intros (? & ? & ? & ?); done] | done]).
  destruct Hgo as (u & j & _ & _ & Husers). split; [done|]. intros _.
  exists (renewed config (time w j) u).
  unfold user_of. rewrite Hdev, Husers, lookup_insert_eq. done.
Qed.

Lemma C10_renewal_writes_pro_and_limit_witness :
  let w := sample_world (sample_user (Some "legacy-plan") 3 (Some 200)) in
  let ev := sample_event (Some "tx-2") (Some 900) None in
  result (RenewalService.checkAndHandleRenewal sample_config ev) w = true
  ∧ ∃ u', user_of (after (RenewalService.checkAndHandleRenewal sample_config ev) w)
            = Some u'
          ∧ UserData.subscriptionPlan u' = Some "pro"
          ∧ UserData.generationsLeft u' = TokenConfig.proTierLimit sample_config.
Proof.
  destruct (C10_renewal_writes_pro_and_limit sample_config
              (sample_event (Some "tx-2") (Some 900) None)
              (sample_world (sample_user (Some "legacy-plan") 3 (Some 200))))
    as [Hiff Hwrites].
  assert (Hr : result (RenewalService.checkAndHandleRenewal sample_config
                         (sample_event (Some "tx-2") (Some 900) None))
                 (sample_world (sample_user (Some "legacy-plan") 3 (Some 200)))
               = true)
    by (apply Hiff; repeat split; reflexivity).
  split; [exact Hr | exact (Hwrites Hr)].
Defined.

(** ** Events without a time stamp *)

(** C4, as the code has it.  An event with neither [transactionDate] nor
    [purchaseDateIOS] is not set aside as malformed: the clock is read in
    place of the missing date, and the event renews exactly when that
    reading and the expiration date, if any, lie within the range of [Date],
    the event is live, carries an original transaction identifier and
    [shouldRenew] accepts that reading.  When it renews the balance is reset
    to [proTierLimit]; when it does not, the store is left as it was. *)
Theorem C4_event_without_timestamp
    (config : TokenConfig.t) (subscription : Purchase.t)
    (w : World InMemoryAdapter.state) :
  truthy (Purchase.transactionDate subscription) = false →
  truthy (Purchase.purchaseDateIOS subscription) = false →
  let reported := result (RenewalService.checkAndHandleRenewal config subscription) w in
  let w' := after (RenewalService.checkAndHandleRenewal config subscription) w in
  (reported = true ↔
     loggable subscription (time w (tick w)) = true
     ∧ live subscription (time w (Datatypes.S (tick w))) = true
     ∧ truthy (Purchase.originalTransactionIdentifierIOS subscription) = true
     ∧ decision (user_of w) (time w (tick w)) = true)
  ∧ (reported = true →
     UserData.generationsLeft <$> user_of w' = Some (TokenConfig.proTierLimit config))
  ∧ (reported = false → store w' = store w).
Proof.
  intros Htd Hpd reported w'. subst reported w'. unfold result, after.
  destruct (mem_check config subscription w) as (w' & -> & _ & Hdev & _ & Hgo).
  assert (Hor : js_or (Purchase.transactionDate subscription)
                      (Purchase.purchaseDateIOS subscription)
                = Purchase.purchaseDateIOS subscription)
    by (unfold js_or; by rewrite Htd).
  assert (HT : transaction_time subscription w = time w (tick w)).
  { unfold transaction_time. rewrite Hor.
    destruct (Purchase.purchaseDateIOS subscription) as [t|]; [|done].
    cbn in Hpd. by rewrite Hpd. }
  assert (Hnow : reading_of_now subscription w = time w (Datatypes.S (tick w))).
  { unfold reading_of_now. by rewrite Hor, Hpd. }
  rewrite HT, Hnow in *. cbn [fst snd].
  destruct (loggable subscription (time w (tick w)));
    destruct (live subscription (time w (Datatypes.S (tick w))));
    destruct (truthy (Purchase.originalTransactionIdentifierIOS subscription));
    destruct (decision (user_of w) (time w (tick w)));
    cbn [andb] in *;
    try (destruct Hgo as [Hs _]; repeat split; try done;
         intros (? & ? & ? & ?); done).
  destruct Hgo as (u & j & _ & _ & Husers). repeat split; try done.
  intros _. unfold user_of. by rewrite Hdev, Husers, lookup_insert_eq.
Qed.

Lemma C4_event_without_timestamp_witness :
  let w := sample_world (sample_user (Some "pro") 3 (Some 200)) in
  let ev := sample_event (Some "tx-2") None None in
  (result (RenewalService.checkAndHandleRenewal sample_config ev) w = true ↔
     loggable ev (time w (tick w)) = true
     ∧ live ev (time w (Datatypes.S (tick w))) = true
     ∧ truthy (Purchase.originalTransactionIdentifierIOS ev) = true
     ∧ decision (user_of w) (time w (tick w)) = true)
  ∧ (result (RenewalService.checkAndHandleRenewal sample_config ev) w = true →
     UserData.generationsLeft
       <$> user_of (after (RenewalService.checkAndHandleRenewal sample_config ev) w)
     = Some (TokenConfig.proTierLimit sample_config))
  ∧ (result (RenewalService.checkAndHandleRenewal sample_config ev) w = false →
     store (after (RenewalService.checkAndHandleRenewal sample_config ev) w) = store w).
Proof.
  apply (C4_event_without_timestamp sample_config
           (sample_event (Some "tx-2") None None)
           (sample_world (sample_user (Some "pro") 3 (Some 200))));
    reflexivity.
Defined.

(** C4 as stated fails: an event without any time stamp, delivered to a
    subscribed user whose last reset is older than the clock, is renewed
    (the call reports true and the balance goes from 3 to 100). *)
Lemma C4_counterexample :
  let w := sample_world (sample_user (Some "pro") 3 (Some 200)) in
  let ev := sample_event (Some "tx-2") None None in
  Purchase.transactionDate ev = None
  ∧ Purchase.purchaseDateIOS ev = None
  ∧ result (RenewalService.checkAndHandleRenewal sample_config ev) w = true
  ∧ UserData.generationsLeft <$> user_of w = Some 3
  ∧ UserData.generationsLeft
      <$> user_of (after (RenewalService.checkAndHandleRenewal sample_config ev) w)
    = Some 100.
Proof. vm_compute. repeat split. Qed.

(** ** The generation ledger *)

(** Counting in doubles: exact up to [2^53], and never down to 0 from a
    positive integer. *)
Lemma to_double_exact (z : Z) : Z.abs z <= 2 ^ 53 → to_double z = z.
Proof.
  intros Hz. unfold to_double. by rewrite (proj2 (Z.leb_le _ _) Hz).
Qed.

(** Above [2^53] a decrement is rounded: 9007199254740994 - 1 is stored as
    9007199254740992. *)
Example to_double_rounds_to_even :
  to_double (9007199254740994 - 1) = 9007199254740992
  ∧ to_double (9007199254740996 - 1) = 9007199254740996
  ∧ to_double (MAX_SAFE_INTEGER - 1) = MAX_SAFE_INTEGER - 1.
Proof. repeat split. Qed.

Example useGeneration_above_max_safe_integer :
  UserData.generationsLeft
    <$> user_of (after (TokenManager.useGeneration sample_config)
                       (sample_world (sample_user (Some "pro") 9007199254740994 None)))
  = Some 9007199254740992.
Proof. reflexivity. Qed.

Lemma to_double_pos (z : Z) : 0 < z → 0 < to_double z.
Proof.
  intros Hz. unfold to_double.
  destruct (Z.abs z <=? 2 ^ 53) eqn:Hsmall; [done|].
  apply Z.leb_gt in Hsmall. rewrite Z.abs_eq in * by lia.
  rewrite Z.sgn_pos by done.
  set (e := Z.log2 z - 52).
  assert (He : 0 < e).
  { subst e. assert (53 <= Z.log2 z); [|lia].
    apply Z.log2_le_pow2; lia. }
  assert (Hpow : 0 < 2 ^ e) by (apply Z.pow_pos_nonneg; lia).
  assert (Hq : 1 <= z / 2 ^ e).
  { apply Z.div_le_lower_bound; [done|]. rewrite Z.mul_1_r.
    transitivity (2 ^ Z.log2 z).
    - apply Z.pow_le_mono_r; subst e; lia.
    - apply Z.log2_spec. lia. }
  set (q := z / 2 ^ e) in *.
  assert (0 < (if z mod 2 ^ e <? 2 ^ (e - 1) then q
               else if 2 ^ (e - 1) <? z mod 2 ^ e then q + 1
               else if Z.even q then q else q + 1)).
  { repeat case_match; lia. }
  nia.
Qed.

Section Ledger.
Variable config : TokenConfig.t.
Implicit Types (w : World InMemoryAdapter.state) (u : UserData.t).

(** [useGeneration] on the in-memory adapter, in closed form. *)
Lemma mem_useGeneration w :
  TokenManager.useGeneration config w =
    match user_of w with
    | None => (false, w)
    | Some u =>
        if bool_decide (UserData.generationsLeft u <= 0) then (false, w)
        else
          let newCount := Z.max 0 (to_double (UserData.generationsLeft u - 1)) in
          (true,
           mkWorld
             (InMemoryAdapter.set_users
                <[InMemoryAdapter.deviceId (store w) :=
                    UserData.set_generationsLeft newCount u]> (store w))
             (time w) (tick w)
             (fired w ++ used_callbacks config u newCount))
    end.
Proof.
  unfold TokenManager.useGeneration.
  unfold mbind at 1. unfold M_bind at 1. rewrite mem_getUserData.
  destruct (user_of w) as [u|] eqn:Hu; [|reflexivity].
  destruct (bool_decide (UserData.generationsLeft u <= 0)); [reflexivity|].
  unfold_monad. cbn. unfold InMemoryAdapter.updateGenerations. unfold_monad. cbn.
  unfold user_of in Hu. rewrite Hu. cbn. unfold used_callbacks.
  destruct (TokenConfig.onGenerationUsed config);
    destruct (bool_decide (Z.max 0 (to_double (UserData.generationsLeft u - 1)) = 0)
              && TokenConfig.onLimitReached config);
    cbn; rewrite <- ?app_assoc, ?app_nil_r; reflexivity.
Qed.

Lemma useGeneration_keeps_nonneg w :
  balances_nonneg w → balances_nonneg (TokenManager.useGeneration config w).2.
Proof.
  intros Hinv. rewrite mem_useGeneration.
  destruct (user_of w) as [u|]; [|done].
  destruct (bool_decide (UserData.generationsLeft u <= 0)); [done|].
  cbn. intros d u' Hd. cbn in Hd.
  destruct (decide (InMemoryAdapter.deviceId (store w) = d)) as [<-|Hne].
  - rewrite lookup_insert_eq in Hd. injection Hd as <-. cbn. lia.
  - rewrite lookup_insert_ne in Hd by done. by eapply Hinv.
Qed.

Lemma useGenerations_keep_nonneg n : ∀ w,
  balances_nonneg w → balances_nonneg (useGenerations config n w).2.
Proof.
  induction n as [|n IH]; intros w Hinv; [done|].
  cbn [useGenerations].
  pose proof (useGeneration_keeps_nonneg w Hinv) as H1.
  destruct (TokenManager.useGeneration config w) as [ok w1].
  specialize (IH w1 H1).
  by destruct (useGenerations config n w1) as [oks w2].
Qed.
End Ledger.

(** C7.  A [useGeneration] call on a missing record, or on a balance of 0,
    reports false and changes nothing; on a positive balance, up to the
    largest integer a JavaScript number counts exactly
    ([Number.MAX_SAFE_INTEGER]), it reports true and lowers [generationsLeft]
    of the device's record by exactly 1, leaving the other fields and the
    other records alone.  No sequence of [useGeneration] calls takes any
    balance below 0, whatever the balances are. *)
Theorem C7_balance_floor (config : TokenConfig.t) (w : World InMemoryAdapter.state) :
  (user_of w = None → TokenManager.useGeneration config w = (false, w))
  ∧ (∀ u, user_of w = Some u → UserData.generationsLeft u = 0 →
          TokenManager.useGeneration config w = (false, w))
  ∧ (∀ u, user_of w = Some u → 0 < UserData.generationsLeft u →
          UserData.generationsLeft u <= MAX_SAFE_INTEGER →
          let w' := after (TokenManager.useGeneration config) w in
          result (TokenManager.useGeneration config) w = true
          ∧ user_of w' =
              Some (UserData.set_generationsLeft (UserData.generationsLeft u - 1) u)
          ∧ ∀ d, d ≠ InMemoryAdapter.deviceId (store w) →
                 InMemoryAdapter.users (store w') !! d
                 = InMemoryAdapter.users (store w) !! d)
  ∧ (∀ n, balances_nonneg w → balances_nonneg (useGenerations config n w).2).
Proof.
  rewrite mem_useGeneration. repeat split.
  - by intros ->.
  - intros u -> Hz. rewrite bool_decide_eq_true_2 by lia. done.
  - unfold result. rewrite mem_useGeneration, H.
    rewrite bool_decide_eq_false_2 by lia. done.
  - unfold after. rewrite mem_useGeneration, H.
    rewrite bool_decide_eq_false_2 by lia. cbn.
    unfold user_of. cbn. rewrite lookup_insert_eq.
    rewrite to_double_exact by (unfold MAX_SAFE_INTEGER in *; lia).
    by rewrite Z.max_r by lia.
  - intros d Hd. unfold after. rewrite mem_useGeneration, H.
    rewrite bool_decide_eq_false_2 by lia. cbn.
    by rewrite lookup_insert_ne.
  - intros n Hinv. by apply useGenerations_keep_nonneg.
Qed.

Lemma sample_world_nonneg plan g last :
  0 <= g → balances_nonneg (sample_world (sample_user plan g last)).
Proof.
  intros Hg d u Hd. cbn in Hd.
  apply lookup_singleton_Some in Hd as [_ <-]. exact Hg.
Qed.

Lemma C7_balance_floor_witness :
  let w := sample_world (sample_user None 1 None) in
  result (TokenManager.useGeneration sample_config) w = true
  ∧ user_of (after (TokenManager.useGeneration sample_config) w)
    = Some (sample_user None 0 None)
  ∧ balances_nonneg (useGenerations sample_config 3 w).2.
Proof.
  destruct (C7_balance_floor sample_config (sample_world (sample_user None 1 None)))
    as (_ & _ & Hpos & Hseq).
  destruct (Hpos (sample_user None 1 None)) as (Hr & Hu & _);
    [reflexivity | cbn; lia | cbn; unfold MAX_SAFE_INTEGER; lia |].
  split; [exact Hr|]. split; [exact Hu|].
  apply Hseq, sample_world_nonneg. lia.
Defined.

(** C8.  With [onLimitReached] configured: a [useGeneration] call that finds
    a balance of 1 succeeds, leaves 0 and invokes the callback once; the next
    call, made at balance 0, fails and invokes nothing.  A call that finds
    any other balance, or no record, does not invoke the callback. *)
Theorem C8_limit_reached_is_edge_triggered
    (config : TokenConfig.t) (w : World InMemoryAdapter.state) :
  TokenConfig.onLimitReached config = true →
  let w' := after (TokenManager.useGeneration config) w in
  let w'' := after (TokenManager.useGeneration config) w' in
  (∀ u, user_of w = Some u → UserData.generationsLeft u = 1 →
        result (TokenManager.useGeneration config) w = true
        ∧ UserData.generationsLeft <$> user_of w' = Some 0
        ∧ limit_events (fired w') =
            limit_events (fired w)
            ++ [LimitReached (bool_decide (UserData.subscriptionPlan u = None))]
        ∧ result (TokenManager.useGeneration config) w' = false
        ∧ limit_events (fired w'') = limit_events (fired w'))
  ∧ ((∀ u, user_of w = Some u → UserData.generationsLeft u ≠ 1) →
     limit_events (fired w') = limit_events (fired w)).
Proof.
  intros Hcb w' w''. subst w' w''. unfold result, after. split.
  - intros u Hu H1.
    rewrite (mem_useGeneration config w), Hu, H1. cbn [bool_decide fst snd].
    rewrite bool_decide_eq_false_2 by lia.
    cbn [Z.max Z.sub Z.add Z.opp Z.pos_sub Z.compare fst snd].
    set (w1 := mkWorld _ _ _ _).
    assert (Hu1 : user_of w1 = Some (UserData.set_generationsLeft 0 u)).
    { unfold user_of. subst w1. cbn. by rewrite lookup_insert_eq. }
    rewrite (mem_useGeneration config w1), Hu1. cbn.
    split; [done|]. split; [done|]. split; [|done].
    subst w1. cbn. unfold used_callbacks, limit_events. rewrite Hcb.
    rewrite !List.filter_app. cbn.
    destruct (TokenConfig.onGenerationUsed config); cbn;
      destruct (UserData.subscriptionPlan u); reflexivity.
  - intros Hne. rewrite (mem_useGeneration config w).
    destruct (user_of w) as [u|] eqn:Hu; [|done].
    specialize (Hne u eq_refl).
    destruct (bool_decide (UserData.generationsLeft u <= 0)) eqn:Hz; [done|].
    apply bool_decide_eq_false in Hz. cbn.
    unfold used_callbacks, limit_events.
    rewrite (bool_decide_eq_false_2
               (Z.max 0 (to_double (UserData.generationsLeft u - 1)) = 0))
      by (pose proof (to_double_pos (UserData.generationsLeft u - 1)); lia).
    rewrite !List.filter_app. cbn.
    destruct (TokenConfig.onGenerationUsed config); cbn; by rewrite app_nil_r.
Qed.

Lemma C8_limit_reached_is_edge_triggered_witness :
  let w := sample_world (sample_user None 1 None) in
  let w' := after (TokenManager.useGeneration sample_config) w in
  let w'' := after (TokenManager.useGeneration sample_config) w' in
  result (TokenManager.useGeneration sample_config) w = true
  ∧ limit_events (fired w') = [LimitReached true]
  ∧ result (TokenManager.useGeneration sample_config) w' = false
  ∧ limit_events (fired w'') = limit_events (fired w').
Proof.
  destruct (C8_limit_reached_is_edge_triggered sample_config
              (sample_world (sample_user None 1 None)) eq_refl) as [Hedge _].
  destruct (Hedge (sample_user None 1 None) eq_refl eq_refl)
    as (H1 & _ & H2 & H3 & H4).
  repeat split; assumption.
Defined.

(** ** Upserting transaction records *)

Section UpsertInMemory.
Implicit Types (l : list SubscriptionData.t) (sd : SubscriptionData.t)
               (w : World InMemoryAdapter.state).
Local Abbreviation ids := (fmap (M := list) SubscriptionData.transactionId).

Lemma findIndex_Some tid l i :
  findIndex tid l = Some i → ids l !! i = Some tid.
Proof.
  unfold findIndex. intros H.
  destruct (list_find _ l) as [[j x]|] eqn:Hf; [|done].
  injection H as ->. apply list_find_Some in Hf as (Hl & Hx & _).
  by rewrite list_lookup_fmap, Hl, <- Hx.
Qed.

Lemma findIndex_None tid l : findIndex tid l = None → tid ∉ ids l.
Proof.
  unfold findIndex. intros H.
  destruct (list_find _ l) as [[j x]|] eqn:Hf; [done|].
  apply list_find_None in Hf. intros (x & -> & Hx)%list_elem_of_fmap.
  by eapply Forall_forall in Hf.
Qed.

Lemma findIndex_elem tid l : tid ∈ ids l → ∃ i, findIndex tid l = Some i.
Proof.
  intros Hin. destruct (findIndex tid l) as [i|] eqn:Hf; [eauto|].
  by apply findIndex_None in Hf.
Qed.

(** Overwriting keeps the identifiers where they are; appending adds a new one. *)
Lemma upsert_into_ids sd l :
  ids (upsert_into sd l) =
    if decide (SubscriptionData.transactionId sd ∈ ids l) then ids l
    else ids l ++ [SubscriptionData.transactionId sd].
Proof.
  unfold upsert_into.
  destruct (findIndex _ l) as [i|] eqn:Hf.
  - pose proof (findIndex_Some _ _ _ Hf) as Hi.
    rewrite decide_True by (eapply list_elem_of_lookup_2, Hi).
    rewrite list_fmap_insert. by apply list_insert_id.
  - rewrite decide_False by by apply findIndex_None.
    by rewrite fmap_app.
Qed.

Lemma upsert_into_NoDup sd l : NoDup (ids l) → NoDup (ids (upsert_into sd l)).
Proof.
  intros Hnd. rewrite upsert_into_ids. case_decide; [done|].
  apply NoDup_app. split; [done|]. split; [|apply NoDup_singleton].
  intros x Hx ->%list_elem_of_singleton. done.
Qed.

Lemma upsert_into_replaces sd l :
  SubscriptionData.transactionId sd ∈ ids l →
  length (upsert_into sd l) = length l
  ∧ ∃ i, ids l !! i = Some (SubscriptionData.transactionId sd)
         ∧ upsert_into sd l = <[i := sd]> l
         ∧ upsert_into sd l !! i = Some sd.
Proof.
  intros (i & Hf)%findIndex_elem. unfold upsert_into. rewrite Hf.
  pose proof (findIndex_Some _ _ _ Hf) as Hi.
  split; [by rewrite length_insert|]. exists i. repeat split; [done|].
  apply list_lookup_insert_eq.
  apply lookup_lt_Some in Hi. by rewrite length_fmap in Hi.
Qed.

Lemma upsert_into_elem sd l : sd ∈ upsert_into sd l.
Proof.
  unfold upsert_into.
  destruct (findIndex (SubscriptionData.transactionId sd) l) as [i|] eqn:Hf.
  - apply findIndex_Some in Hf. rewrite list_lookup_fmap in Hf.
    destruct (l !! i) as [x|] eqn:Hi; [|done].
    eapply list_elem_of_lookup_2, list_lookup_insert_eq.
    by eapply lookup_lt_Some.
  - apply elem_of_app. right. by apply list_elem_of_singleton.
Qed.

(** The in-memory [upsertSubscription] in closed form. *)
Lemma mem_upsert deviceId purchase w :
  ∃ (k : nat) sd,
    InMemoryAdapter.upsertSubscription deviceId purchase w =
      (true,
       mkWorld
         (InMemoryAdapter.set_subscriptions
            <[deviceId :=
                upsert_into sd
                  (default [] (InMemoryAdapter.subscriptions (store w) !! deviceId))]>
            (store w))
         (time w) (tick w + k)%nat (fired w))
    ∧ SubscriptionData.purchaseData sd = purchase
    ∧ ∀ t, js_or (Purchase.transactionId purchase) (Purchase.id purchase) = Some t →
           truthy_value t = true → SubscriptionData.transactionId sd = t.
Proof.
  unfold InMemoryAdapter.upsertSubscription, upsert_into. unfold_monad.
  destruct (js_or (Purchase.transactionId purchase) (Purchase.id purchase))
    as [s|]; [destruct (truthy_value s) eqn:Hs|];
    destruct (truthy (Purchase.transactionDate purchase)); cbn;
    match goal with |- context [ _ ++ [?x] ] => eexists _, x end;
    (split;
     [ first
         [ rewrite Nat.add_0_r; reflexivity
         | replace (Datatypes.S (tick w)) with (tick w + 1)%nat by lia; reflexivity
         | replace (Datatypes.S (Datatypes.S (tick w))) with (tick w + 2)%nat by lia;
           reflexivity ]
     | split; [reflexivity | intros t Ht Htr; cbn; congruence] ]).
Qed.
End UpsertInMemory.

Section UpsertSupabase.
Implicit Types (rows : list SupabaseAdapter.subscription_row)
               (row : SupabaseAdapter.subscription_row)
               (w : World SupabaseAdapter.state).
Local Abbreviation row_ids := (fmap (M := list) SupabaseAdapter.transaction_id).

Lemma filter_absent tid rows :
  tid ∉ row_ids rows →
  filter (fun r => SupabaseAdapter.transaction_id r = tid) rows = [].
Proof.
  induction rows as [|r rows IH]; [done|].
  cbn [fmap list_fmap]. intros [Hne Hnin]%not_elem_of_cons.
  rewrite filter_cons, decide_False by done. by apply IH.
Qed.

Lemma select_single_present tid rows :
  NoDup (row_ids rows) → tid ∈ row_ids rows →
  ∃ r, SupabaseAdapter.select_single tid rows = Some r.
Proof.
  unfold SupabaseAdapter.select_single.
  induction rows as [|r rows IH]; [by intros _ ?%elem_of_nil|].
  cbn [fmap list_fmap]. intros [Hr Hnd]%NoDup_cons Hin.
  rewrite filter_cons. case_decide as Hd.
  - subst tid. rewrite filter_absent by done. eauto.
  - apply elem_of_cons in Hin as [?|Hin]; [done|]. by apply IH.
Qed.

Lemma select_single_absent tid rows :
  NoDup (row_ids rows) → SupabaseAdapter.select_single tid rows = None →
  tid ∉ row_ids rows.
Proof.
  intros Hnd Hnone Hin.
  destruct (select_single_present tid rows Hnd Hin) as [r Hr]. congruence.
Qed.

Lemma replace_keeps_ids row rows :
  row_ids ((fun r => if decide (SupabaseAdapter.transaction_id r
                                = SupabaseAdapter.transaction_id row)
                     then row else r) <$> rows)
  = row_ids rows.
Proof.
  rewrite <- list_fmap_compose. apply list_fmap_ext.
  intros i r _. cbn. by case_decide.
Qed.

Lemma upsert_row_ids row rows :
  NoDup (row_ids rows) →
  row_ids (upsert_row row rows) =
    if decide (SupabaseAdapter.transaction_id row ∈ row_ids rows) then row_ids rows
    else row_ids rows ++ [SupabaseAdapter.transaction_id row].
Proof.
  intros Hnd. unfold upsert_row.
  destruct (SupabaseAdapter.select_single _ rows) as [r|] eqn:Hsel.
  - rewrite replace_keeps_ids. case_decide as Hin; [done|].
    unfold SupabaseAdapter.select_single in Hsel.
    rewrite filter_absent in Hsel by done. done.
  - rewrite decide_False by by apply select_single_absent.
    by rewrite fmap_app.
Qed.

Lemma upsert_row_NoDup row rows :
  NoDup (row_ids rows) → NoDup (row_ids (upsert_row row rows)).
Proof.
  intros Hnd. rewrite upsert_row_ids by done. case_decide; [done|].
  apply NoDup_app. split; [done|]. split; [|apply NoDup_singleton].
  intros x Hx ->%list_elem_of_singleton. done.
Qed.

(** The clock readings of [upsertSubscription] and of
    [checkAndHandleRenewal]: the transaction date, when the event has none,
    and [now]. *)
Lemma read_dates {S : Type} (purchase : Purchase.t) (w : World S) :
  ∃ k : nat,
    (1 <= k <= 2)%nat
    ∧ (x ← match js_or (Purchase.transactionDate purchase)
                      (Purchase.purchaseDateIOS purchase) with
           | Some t => if truthy_value t then mret t else Date_now
           | None => Date_now
           end;
       now ← Date_now; mret (x, now)) w
      = ((transaction_time purchase w, reading_of_now purchase w),
         mkWorld (store w) (time w) (tick w + k)%nat (fired w)).
Proof.
  unfold transaction_time, reading_of_now. unfold_monad.
  destruct (js_or (Purchase.transactionDate purchase)
                  (Purchase.purchaseDateIOS purchase)) as [t|];
    [destruct (truthy_value t) eqn:Ht|]; cbn; rewrite ?Ht; cbn.
  - exists 1%nat. split; [lia|]. by rewrite Nat.add_1_r.
  - exists 2%nat. split; [lia|].
    by replace (tick w + 2)%nat with (Datatypes.S (Datatypes.S (tick w))) by lia.
  - exists 2%nat. split; [lia|].
    by replace (tick w + 2)%nat with (Datatypes.S (Datatypes.S (tick w))) by lia.
Qed.

(** The Supabase [upsertSubscription] in closed form: it fails without a
    transaction identifier, on a date it cannot print and without a backend,
    and upserts the row it builds otherwise; the [user] table is not
    involved. *)
Lemma sb_upsert_closed deviceId purchase w :
  ∃ k : nat,
    SupabaseAdapter.upsertSubscription deviceId purchase w =
      match js_or (Purchase.transactionId purchase) (Purchase.id purchase) with
      | None => (false, w)
      | Some tid =>
          if negb (truthy_value tid) then (false, w)
          else
            let T := transaction_time purchase w in
            let w1 := mkWorld (store w) (time w) (tick w + k)%nat (fired w) in
            if negb (storable purchase T) || SupabaseAdapter.offline (store w)
            then (false, w1)
            else
              (true,
               mkWorld
                 (SupabaseAdapter.set_subscriptions
                    (upsert_row
                       (SupabaseAdapter.subscriptionData deviceId tid purchase T
                          (live purchase (reading_of_now purchase w))))
                    (store w))
                 (time w) (tick w + k)%nat (fired w))
      end.
Proof.
  assert (Hw : ∀ w0 : World SupabaseAdapter.state,
            mkWorld (store w0) (time w0) (tick w0) (fired w0) = w0)
    by (by intros []).
  unfold SupabaseAdapter.upsertSubscription, transaction_time, reading_of_now,
    storable, live, upsert_row.
  destruct (js_or (Purchase.transactionId purchase) (Purchase.id purchase))
    as [tid|]; [|by exists O].
  destruct (truthy_value tid); cbn [negb]; [|by exists O].
  unfold_monad.
  destruct (js_or (Purchase.transactionDate purchase)
                  (Purchase.purchaseDateIOS purchase)) as [t|];
    [destruct (truthy_value t) eqn:Ht|]; cbn [truthy]; rewrite ?Ht;
    cbn [fst snd store time tick fired];
    [exists 1%nat; rewrite Nat.add_1_r
    |exists 2%nat;
     replace (tick w + 2)%nat with (Datatypes.S (Datatypes.S (tick w))) by lia
    |exists 2%nat;
     replace (tick w + 2)%nat with (Datatypes.S (Datatypes.S (tick w))) by lia];
    (match goal with
     | |- context [negb (valid_date ?T && ?a && ?b && ?c)] =>
         destruct (valid_date T && a && b && c)
     end;
     cbn [negb orb fst snd store time tick fired]; [|reflexivity];
     destruct (SupabaseAdapter.offline (store w)); [reflexivity|];
     cbn [SupabaseAdapter.transaction_id SupabaseAdapter.subscriptionData];
     destruct (SupabaseAdapter.select_single tid
                 (SupabaseAdapter.subscriptions (store w))) eqn:Hsel;
     unfold SupabaseAdapter.set_subscriptions; rewrite Hsel; reflexivity).
Qed.

(** With an identifier, the backend in reach and dates that can be printed,
    [upsertSubscription] reports success and the table holds the row built
    from the purchase. *)
Lemma sb_upsert_writes deviceId purchase tid w :
  js_or (Purchase.transactionId purchase) (Purchase.id purchase) = Some tid →
  tid ≠ "" →
  SupabaseAdapter.offline (store w) = false →
  storable purchase (transaction_time purchase w) = true →
  result (SupabaseAdapter.upsertSubscription deviceId purchase) w = true
  ∧ SupabaseAdapter.subscriptions
      (store (after (SupabaseAdapter.upsertSubscription deviceId purchase) w))
    = upsert_row
        (SupabaseAdapter.subscriptionData deviceId tid purchase
           (transaction_time purchase w)
           (live purchase (reading_of_now purchase w)))
        (SupabaseAdapter.subscriptions (store w)).
Proof.
  intros Hid Hne Hoff Hstor. unfold result, after.
  destruct (sb_upsert_closed deviceId purchase w) as (k & ->).
  rewrite Hid.
  assert (Htr : truthy_value tid = true)
    by (apply negb_true_iff, String.eqb_neq, Hne).
  rewrite Htr. cbn zeta. rewrite Hstor, Hoff. cbn [negb orb fst snd store].
  split; [done|]. by destruct (store w).
Qed.

(** Where the identifier is stored, the row is replaced where it stands;
    where it is not, the row is added at the end. *)
Lemma upsert_row_at row rows i :
  NoDup (row_ids rows) →
  row_ids rows !! i = Some (SupabaseAdapter.transaction_id row) →
  upsert_row row rows !! i = Some row.
Proof.
  intros Hnd Hi.
  destruct (select_single_present (SupabaseAdapter.transaction_id row) rows Hnd)
    as [old Hsel]; [by eapply list_elem_of_lookup_2|].
  unfold upsert_row. rewrite Hsel.
  rewrite list_lookup_fmap in Hi. rewrite list_lookup_fmap.
  destruct (rows !! i) as [r|]; [|done]. cbn in *.
  injection Hi as Hi. by rewrite decide_True.
Qed.

Lemma upsert_row_new row rows :
  SupabaseAdapter.transaction_id row ∉ row_ids rows →
  upsert_row row rows = rows ++ [row].
Proof.
  intros Hnin. unfold upsert_row, SupabaseAdapter.select_single.
  by rewrite filter_absent.
Qed.

(** What [upsertSubscription] does to the [subscriptions] table, whatever it
    reports. *)
Lemma sb_upsert deviceId purchase w :
  ∃ (r : bool) (k : nat) subs,
    SupabaseAdapter.upsertSubscription deviceId purchase w =
      (r,
       mkWorld
         (SupabaseAdapter.set_subscriptions (fun _ => subs) (store w))
         (time w) (tick w + k)%nat (fired w))
    ∧ ((r = false ∧ subs = SupabaseAdapter.subscriptions (store w))
       ∨ (r = true ∧ SupabaseAdapter.offline (store w) = false
          ∧ ∃ row,
              subs = upsert_row row (SupabaseAdapter.subscriptions (store w))
              ∧ SupabaseAdapter.purchase_data row = purchase
              ∧ js_or (Purchase.transactionId purchase) (Purchase.id purchase)
                = Some (SupabaseAdapter.transaction_id row))).
Proof.
  assert (Hid : ∀ st : SupabaseAdapter.state,
            SupabaseAdapter.set_subscriptions
              (fun _ => SupabaseAdapter.subscriptions st) st = st)
    by (by intros []).
  assert (Hw : ∀ w0 : World SupabaseAdapter.state,
            mkWorld (store w0) (time w0) (tick w0) (fired w0) = w0)
    by (by intros []).
  destruct (sb_upsert_closed deviceId purchase w) as (k & ->).
  destruct (js_or (Purchase.transactionId purchase) (Purchase.id purchase))
    as [tid|] eqn:Htid.
  2: { exists false, O, (SupabaseAdapter.subscriptions (store w)).
       rewrite Hid, Nat.add_0_r, Hw. split; [done|by left]. }
  destruct (truthy_value tid) eqn:Htr; cbn [negb].
  2: { exists false, O, (SupabaseAdapter.subscriptions (store w)).
       rewrite Hid, Nat.add_0_r, Hw. split; [done|by left]. }
  cbn zeta.
  destruct (negb (storable purchase (transaction_time purchase w))
            || SupabaseAdapter.offline (store w)) eqn:Hbad.
  { exists false, k, (SupabaseAdapter.subscriptions (store w)).
    rewrite Hid. split; [done|by left]. }
  apply orb_false_iff in Hbad as [_ Hoff].
  exists true, k. eexists. split; [reflexivity|]. right.
  split; [done|]. split; [done|]. eexists. split; [reflexivity|]. done.
Qed.
End UpsertSupabase.

Section UpsertInvariant.
Lemma mem_upsert_NoDup deviceId purchase (w : World InMemoryAdapter.state) :
  (∀ d, NoDup (stored_ids d w)) →
  ∀ d, NoDup (stored_ids d (after (InMemoryAdapter.upsertSubscription deviceId purchase) w)).
Proof.
  intros Hinv d. unfold after.
  destruct (mem_upsert deviceId purchase w) as (k & sd & -> & _ & _).
  unfold stored_ids in *. cbn.
  destruct (decide (deviceId = d)) as [<-|Hne].
  - rewrite lookup_insert_eq. cbn. apply upsert_into_NoDup, Hinv.
  - rewrite lookup_insert_ne by done. apply Hinv.
Qed.

Lemma mem_upsertAll_NoDup calls : ∀ w : World InMemoryAdapter.state,
  (∀ d, NoDup (stored_ids d w)) → ∀ d, NoDup (stored_ids d (upsertAll calls w)).
Proof.
  induction calls as [|[dev purchase] calls IH]; intros w Hinv; [done|].
  cbn [upsertAll]. apply IH. by apply mem_upsert_NoDup.
Qed.

Lemma sb_upsert_NoDup deviceId purchase (w : World SupabaseAdapter.state) :
  NoDup (stored_row_ids w) →
  NoDup (stored_row_ids (after (SupabaseAdapter.upsertSubscription deviceId purchase) w)).
Proof.
  intros Hinv. unfold after.
  destruct (sb_upsert deviceId purchase w) as (r & k & subs & -> & Hcase).
  unfold stored_row_ids in *. cbn.
  destruct Hcase as [[_ ->]|(_ & _ & row & -> & _)]; [done|].
  by apply upsert_row_NoDup.
Qed.

Lemma sb_upsertAll_NoDup calls : ∀ w : World SupabaseAdapter.state,
  NoDup (stored_row_ids w) → NoDup (stored_row_ids (upsertAll calls w)).
Proof.
  induction calls as [|[dev purchase] calls IH]; intros w Hinv; [done|].
  cbn [upsertAll]. apply IH. by apply sb_upsert_NoDup.
Qed.
End UpsertInvariant.

(** C9.  Both adapters keep at most one stored record per transaction
    identifier (per device in memory, per table in Supabase): every
    [upsertSubscription] preserves this, so it holds after any sequence of
    calls on a store that began without records.  Upserting an event whose
    transaction identifier is already stored overwrites that record where it
    stands: the stored identifiers and their number are as before, and the
    record at that position now carries the new event.  On the Supabase
    adapter the write happens when the backend is in reach and the dates of
    the event can be printed; then the call reports success, the row at the
    position of the identifier is the row built from the event, and an
    identifier not stored yet gets its row at the end of the table. *)
Theorem C9_one_record_per_transaction :
  (∀ deviceId purchase (w : World InMemoryAdapter.state),
     let w' := after (InMemoryAdapter.upsertSubscription deviceId purchase) w in
     ((∀ d, NoDup (stored_ids d w)) → ∀ d, NoDup (stored_ids d w'))
     ∧ ∀ t, js_or (Purchase.transactionId purchase) (Purchase.id purchase) = Some t →
            t ≠ "" → t ∈ stored_ids deviceId w →
            stored_ids deviceId w' = stored_ids deviceId w
            ∧ length (stored_ids deviceId w') = length (stored_ids deviceId w)
            ∧ ∃ i r, stored_ids deviceId w !! i = Some t
                     ∧ default [] (InMemoryAdapter.subscriptions (store w') !! deviceId) !! i
                       = Some r
                     ∧ SubscriptionData.transactionId r = t
                     ∧ SubscriptionData.purchaseData r = purchase)
  ∧ (∀ calls (w : World InMemoryAdapter.state),
       InMemoryAdapter.subscriptions (store w) = ∅ →
       ∀ d, NoDup (stored_ids d (upsertAll calls w)))
  ∧ (∀ deviceId purchase (w : World SupabaseAdapter.state),
       let w' := after (SupabaseAdapter.upsertSubscription deviceId purchase) w in
       NoDup (stored_row_ids w) →
       NoDup (stored_row_ids w')
       ∧ ∀ t, js_or (Purchase.transactionId purchase) (Purchase.id purchase) = Some t →
              (t ∈ stored_row_ids w →
               stored_row_ids w' = stored_row_ids w
               ∧ length (stored_row_ids w') = length (stored_row_ids w))
              ∧ (t ≠ "" →
                 SupabaseAdapter.offline (store w) = false →
                 storable purchase (transaction_time purchase w) = true →
                 let row :=
                   SupabaseAdapter.subscriptionData deviceId t purchase
                     (transaction_time purchase w)
                     (live purchase (reading_of_now purchase w)) in
                 result (SupabaseAdapter.upsertSubscription deviceId purchase) w = true
                 ∧ SupabaseAdapter.transaction_id row = t
                 ∧ SupabaseAdapter.purchase_data row = purchase
                 ∧ (∀ i, stored_row_ids w !! i = Some t →
                         SupabaseAdapter.subscriptions (store w') !! i = Some row)
                 ∧ (t ∉ stored_row_ids w →
                    SupabaseAdapter.subscriptions (store w')
                    = SupabaseAdapter.subscriptions (store w) ++ [row])))
  ∧ (∀ calls (w : World SupabaseAdapter.state),
       SupabaseAdapter.subscriptions (store w) = [] →
       NoDup (stored_row_ids (upsertAll calls w))).
Proof.
  split; [|split; [|split]].
  - intros deviceId purchase w w'. split; [apply mem_upsert_NoDup|].
    intros t Ht Hne Hin. subst w'. unfold after.
    destruct (mem_upsert deviceId purchase w) as (k & sd & -> & Hp & Hid).
    assert (Htid : SubscriptionData.transactionId sd = t).
    { apply Hid; [done|]. apply negb_true_iff, String.eqb_neq, Hne. }
    unfold stored_ids in *. cbn. rewrite lookup_insert_eq. cbn.
    set (l := default [] (InMemoryAdapter.subscriptions (store w) !! deviceId)) in *.
    assert (Heq : SubscriptionData.transactionId <$> upsert_into sd l
                  = SubscriptionData.transactionId <$> l).
    { rewrite upsert_into_ids, Htid. by rewrite decide_True. }
    split; [done|]. split; [by rewrite Heq|].
    destruct (upsert_into_replaces sd l) as (_ & i & Hi & _ & Hr);
      [by rewrite Htid|].
    exists i, sd. rewrite <- Htid at 1. done.
  - intros calls w Hempty. apply mem_upsertAll_NoDup.
    intros d. unfold stored_ids. rewrite Hempty, lookup_empty. constructor.
  - intros deviceId purchase w w' Hnd. split; [by apply sb_upsert_NoDup|].
    intros t Ht. split.
    + intros Hin. subst w'. unfold after.
      destruct (sb_upsert deviceId purchase w) as (r & k & subs & -> & Hcase).
      unfold stored_row_ids in *. cbn.
      destruct Hcase as [[_ ->]|(_ & _ & row & -> & _ & Hrow)]; [done|].
      assert (SupabaseAdapter.transaction_id row = t) as Htid by congruence.
      assert (Heq : SupabaseAdapter.transaction_id
                      <$> upsert_row row (SupabaseAdapter.subscriptions (store w))
                    = SupabaseAdapter.transaction_id
                      <$> SupabaseAdapter.subscriptions (store w)).
      { rewrite upsert_row_ids by done. rewrite Htid. by rewrite decide_True. }
      split; [done|]. by rewrite Heq.
    + intros Hne Hoff Hstor row.
      destruct (sb_upsert_writes deviceId purchase t w Ht Hne Hoff Hstor)
        as [Hres Hrows].
      split; [done|]. split; [done|]. split; [done|]. subst w'.
      fold row in Hrows. rewrite Hrows. split.
      * intros i Hi. by apply upsert_row_at.
      * intros Hnin. by apply upsert_row_new.
  - intros calls w Hempty. apply sb_upsertAll_NoDup.
    unfold stored_row_ids. rewrite Hempty. constructor.
Qed.

Lemma C9_one_record_per_transaction_witness :
  let ev1 := sample_event (Some "tx-2") (Some 900) None in
  let ev2 := sample_event (Some "tx-2") (Some 950) (Some 5000) in
  let w1 := after (InMemoryAdapter.upsertSubscription "device-1" ev1) empty_world in
  let w2 := after (InMemoryAdapter.upsertSubscription "device-1" ev2) w1 in
  let s0 := sample_backend (sample_row (Some "pro") 42 (Some 200)) in
  let s1 := after (SupabaseAdapter.upsertSubscription "device-1" ev1) s0 in
  let s2 := after (SupabaseAdapter.upsertSubscription "device-1" ev2) s1 in
  (stored_ids "device-1" w2 = stored_ids "device-1" w1
   ∧ length (stored_ids "device-1" w2) = length (stored_ids "device-1" w1)
   ∧ NoDup (stored_ids "device-1" w2))
  ∧ (result (SupabaseAdapter.upsertSubscription "device-1" ev2) s1 = true
     ∧ SupabaseAdapter.purchase_data
         <$> (SupabaseAdapter.subscriptions (store s2) !! 0%nat) = Some ev2
     ∧ length (stored_row_ids s2) = 1%nat).
Proof.
  destruct C9_one_record_per_transaction as (Hmem & Hseq & Hsb & _).
  intros ev1 ev2 w1 w2 s0 s1 s2. split.
  - destruct (Hmem "device-1" ev2 w1) as [_ Hrep].
    destruct (Hrep "tx-2") as (Hids & Hlen & _).
    + reflexivity.
    + discriminate.
    + cbn. apply list_elem_of_singleton. reflexivity.
    + split; [exact Hids|]. split; [exact Hlen|].
      apply (Hseq [("device-1", ev1); ("device-1", ev2)] empty_world eq_refl "device-1").
  - destruct (Hsb "device-1" ev2 s1) as [_ Hrep].
    { vm_compute. apply NoDup_singleton. }
    destruct (Hrep "tx-2" eq_refl) as [Hsame Hwrite].
    destruct Hwrite as (Hres & _ & _ & Hat & _);
      [discriminate | reflexivity | reflexivity |].
    split; [exact Hres|]. split.
    + subst s2. rewrite (Hat 0%nat eq_refl). reflexivity.
    + destruct Hsame as [_ Hlen]; [vm_compute; apply list_elem_of_singleton; reflexivity|].
      subst s2. rewrite Hlen. reflexivity.
Defined.

(** ** The Supabase adapter under the services *)

Section Supabase.
Implicit Types (w : World SupabaseAdapter.state) (row : SupabaseAdapter.user_row).

Lemma sb_world_eta w : mkWorld (store w) (time w) (tick w) (fired w) = w.
Proof. by destruct w. Qed.

Lemma sb_getDeviceId dev w :
  speaks_for dev w → SupabaseAdapter.getDeviceId w = (dev, w).
Proof.
  intros [Hc Hne]. unfold SupabaseAdapter.getDeviceId. unfold_monad.
  rewrite Hc. cbn.
  assert (truthy_value dev = true) as -> by by apply negb_true_iff, String.eqb_neq.
  reflexivity.
Qed.

Lemma sb_getUserData dev w :
  SupabaseAdapter.getUserData dev w =
    (if SupabaseAdapter.offline (store w) then None
     else SupabaseAdapter.mapUserFromDb <$> row_of dev w, w).
Proof.
  unfold SupabaseAdapter.getUserData, row_of. unfold_monad.
  by destruct (SupabaseAdapter.offline (store w)).
Qed.

Lemma sb_shouldRenew dev orig T w :
  speaks_for dev w →
  RenewalService.shouldRenew orig T w =
    (negb (SupabaseAdapter.offline (store w))
     && decision (SupabaseAdapter.mapUserFromDb <$> row_of dev w) T, w).
Proof.
  intros Hdev. unfold RenewalService.shouldRenew.
  unfold mbind at 1. unfold M_bind at 1.
  cbn [StorageAdapter.getDeviceId SupabaseAdapter.adapter].
  rewrite (sb_getDeviceId dev w Hdev).
  unfold mbind at 1. unfold M_bind at 1.
  cbn [StorageAdapter.getUserData SupabaseAdapter.adapter].
  rewrite sb_getUserData.
  destruct (SupabaseAdapter.offline (store w)); [reflexivity|]. cbn [negb andb].
  unfold decision. destruct (row_of dev w) as [row|]; [|reflexivity].
  cbn [fmap option_fmap option_map].
  destruct (valid_date T); cbn; [|reflexivity].
  destruct (truthy (SupabaseAdapter.subscription_plan row)); cbn; [|reflexivity].
  destruct (SupabaseAdapter.last_renewal_at row) as [l|]; [|reflexivity].
  destruct (valid_date l); reflexivity.
Qed.

Lemma sb_processRenewal config dev w :
  speaks_for dev w → SupabaseAdapter.offline (store w) = false →
  RenewalService.processRenewal config "pro" w =
    (true,
     mkWorld
       (SupabaseAdapter.set_user
          (alter (fun row => renewed_row config (time w (tick w)) row) dev)
          (store w))
       (time w) (Datatypes.S (tick w))
       (fired w ++ if TokenConfig.onSubscriptionActivated config
                   then [SubscriptionActivated] else [])).
Proof.
  intros Hdev Hon. unfold RenewalService.processRenewal.
  unfold mbind at 1. unfold M_bind at 1.
  cbn [StorageAdapter.getDeviceId SupabaseAdapter.adapter].
  rewrite (sb_getDeviceId dev w Hdev).
  cbn [StorageAdapter.updateSubscriptionPlan SupabaseAdapter.adapter].
  unfold SupabaseAdapter.updateSubscriptionPlan, SupabaseAdapter.update_user.
  unfold_monad. cbn. rewrite Hon. cbn.
  destruct (TokenConfig.onSubscriptionActivated config); cbn;
    [reflexivity | by rewrite app_nil_r].
Qed.

(** The reconciler on the Supabase adapter: its verdict, and what it leaves
    behind in either case. *)
Lemma sb_check config subscription dev w :
  speaks_for dev w →
  let go :=
    loggable subscription (transaction_time subscription w)
    && live subscription (reading_of_now subscription w)
    && truthy (Purchase.originalTransactionIdentifierIOS subscription)
    && (negb (SupabaseAdapter.offline (store w))
        && decision (SupabaseAdapter.mapUserFromDb <$> row_of dev w)
                    (transaction_time subscription w)) in
  ∃ w',
    RenewalService.checkAndHandleRenewal config subscription w = (go, w')
    ∧ time w' = time w
    ∧ speaks_for dev w'
    ∧ (tick w < tick w')%nat
    ∧ if go
      then ∃ row (j : nat),
             row_of dev w = Some row ∧ (tick w < j)%nat
             ∧ SupabaseAdapter.user (store w') =
                 <[dev := renewed_row config (time w j) row]>
                   (SupabaseAdapter.user (store w))
             ∧ (SupabaseAdapter.subscriptions (store w')
                = SupabaseAdapter.subscriptions (store w)
                ∨ ∃ r, SupabaseAdapter.subscriptions (store w')
                       = upsert_row r (SupabaseAdapter.subscriptions (store w))
                       ∧ js_or (Purchase.transactionId subscription)
                               (Purchase.id subscription)
                         = Some (SupabaseAdapter.transaction_id r))
      else store w' = store w ∧ fired w' = fired w.
Proof.
  intros Hdev.
  unfold RenewalService.checkAndHandleRenewal, reading_of_now, transaction_time,
    live, loggable.
  set (td := js_or (Purchase.transactionDate subscription)
                   (Purchase.purchaseDateIOS subscription)).
  set (w0 := mkWorld (store w) (time w)
               (if truthy td then tick w else Datatypes.S (tick w)) (fired w)).
  set (T := match td with
            | Some t => if truthy_value t then t else time w (tick w)
            | None => time w (tick w)
            end).
  assert (Hread :
    (match td with
     | Some t => if truthy_value t then mret t else Date_now
     | None => Date_now
     end : M SupabaseAdapter.state Z) w = (T, w0)).
  { subst T w0. destruct td as [t|]; cbn; [destruct (truthy_value t)|];
      cbn; try reflexivity. by destruct w. }
  unfold mbind at 1. unfold M_bind at 1. rewrite Hread.
  unfold mbind at 1. unfold M_bind at 1. unfold Date_now at 1.
  replace (time w0 (tick w0))
    with (if truthy td then time w (tick w) else time w (Datatypes.S (tick w)))
    by (subst w0; cbn; by destruct (truthy td)).
  set (now := if truthy td then time w (tick w) else time w (Datatypes.S (tick w))).
  set (w1 := mkWorld (store w0) (time w0) (Datatypes.S (tick w0)) (fired w0)).
  assert (Hw1 : store w1 = store w ∧ time w1 = time w ∧ fired w1 = fired w
                ∧ (tick w < tick w1)%nat).
  { subst w1 w0. cbn. repeat split. destruct (truthy td); lia. }
  destruct Hw1 as (Hs1 & Ht1 & Hf1 & Hk1).
  assert (Hdev1 : speaks_for dev w1) by (unfold speaks_for; by rewrite Hs1).
  destruct (valid_date T && printable (Purchase.expirationDateIOS subscription));
    cbn [negb andb]; [|by exists w1].
  destruct (negb (truthy (Purchase.expirationDateIOS subscription))
            || bool_decide (now < default 0 (Purchase.expirationDateIOS subscription)));
    cbn [negb andb]; [|by exists w1].
  destruct (Purchase.originalTransactionIdentifierIOS subscription) as [orig|];
    cbn [truthy andb]; [|by exists w1].
  destruct (truthy_value orig); cbn [negb andb]; [|by exists w1].
  unfold mbind at 1. unfold M_bind at 1.
  rewrite (sb_shouldRenew dev orig T w1 Hdev1).
  replace (row_of dev w1) with (row_of dev w) by (unfold row_of; by rewrite Hs1).
  rewrite Hs1.
  destruct (SupabaseAdapter.offline (store w)) eqn:Hoff;
    cbn [negb andb]; [by exists w1|].
  destruct (decision (SupabaseAdapter.mapUserFromDb <$> row_of dev w) T) eqn:Hd;
    cbn [negb]; [|by exists w1].
  unfold mbind at 1. unfold M_bind at 1.
  cbn [StorageAdapter.getDeviceId SupabaseAdapter.adapter].
  rewrite (sb_getDeviceId dev w1 Hdev1).
  unfold mbind at 1. unfold M_bind at 1.
  cbn [StorageAdapter.upsertSubscription SupabaseAdapter.adapter].
  pose proof (sb_upsert dev subscription w1) as (saved & k & subs & Hup & Hcase).
  rewrite Hup.
  set (w2 := mkWorld _ _ _ _).
  assert (Hdev2 : speaks_for dev w2).
  { unfold speaks_for. subst w2. cbn. apply Hdev. }
  assert (Hoff2 : SupabaseAdapter.offline (store w2) = false).
  { subst w2. cbn. done. }
  unfold mbind at 1. unfold M_bind at 1.
  rewrite (sb_processRenewal config dev w2 Hdev2 Hoff2).
  unfold decision in Hd. destruct (row_of dev w) as [row|] eqn:Hrow; [|discriminate].
  eexists. split; [reflexivity|]. cbn [store time tick fired].
  split; [subst w2; cbn; done|].
  split; [unfold speaks_for; cbn; subst w2; cbn; apply Hdev|].
  split; [subst w2; cbn; cbn in Hk1; lia|].
  exists row, (tick w2).
  split; [done|]. split; [subst w2; cbn; cbn in Hk1; lia|].
  split.
  { subst w2. cbn [store time tick fired SupabaseAdapter.set_user
                   SupabaseAdapter.set_subscriptions SupabaseAdapter.user].
    unfold row_of in Hrow.
    apply map_eq. intros d. destruct (decide (dev = d)) as [<-|Hne].
    - rewrite lookup_alter_eq, lookup_insert_eq. cbn in *. by rewrite Hrow.
    - by rewrite lookup_alter_ne, lookup_insert_ne. }
  subst w2. cbn. rewrite Hs1 in Hcase.
  destruct Hcase as [[_ ->]|(_ & _ & r & -> & _ & Hj)]; [by left|].
  right. exists r. split; [done|exact Hj].
Qed.

Lemma sb_check_writes config subscription dev w :
  speaks_for dev w →
  result (RenewalService.checkAndHandleRenewal config subscription) w = true →
  RenewalService.checkAndHandleRenewal config subscription w =
    RenewalService.processRenewal config "pro"
      (after (SupabaseAdapter.upsertSubscription dev subscription)
             (after_reading_dates subscription w)).
Proof.
  intros Hdev Hr. unfold result in Hr.
  destruct (sb_check config subscription dev w Hdev) as (w' & Heq & _).
  rewrite Heq in Hr. cbn [fst] in Hr. clear Heq w'.
  apply andb_true_iff in Hr as [Hr Hdec].
  apply andb_true_iff in Hr as [Hr Horig].
  apply andb_true_iff in Hr as [Hlog Hlive].
  unfold RenewalService.checkAndHandleRenewal, reading_of_now, transaction_time,
    live, loggable, after_reading_dates in *.
  set (td := js_or (Purchase.transactionDate subscription)
                   (Purchase.purchaseDateIOS subscription)) in *.
  set (w0 := mkWorld (store w) (time w)
               (if truthy td then tick w else Datatypes.S (tick w)) (fired w)).
  set (T := match td with
            | Some t => if truthy_value t then t else time w (tick w)
            | None => time w (tick w)
            end) in *.
  assert (Hread :
    (match td with
     | Some t => if truthy_value t then mret t else Date_now
     | None => Date_now
     end : M SupabaseAdapter.state Z) w = (T, w0)).
  { subst T w0. destruct td as [t|]; cbn; [destruct (truthy_value t)|];
      cbn; try reflexivity. by destruct w. }
  unfold mbind at 1. unfold M_bind at 1. rewrite Hread.
  unfold mbind at 1. unfold M_bind at 1. unfold Date_now at 1.
  replace (time w0 (tick w0))
    with (if truthy td then time w (tick w) else time w (Datatypes.S (tick w)))
    by (subst w0; cbn; by destruct (truthy td)).
  set (w1 := mkWorld (store w0) (time w0) (Datatypes.S (tick w0)) (fired w0)).
  assert (Hdev1 : speaks_for dev w1) by exact Hdev.
  rewrite Hlog, Hlive. cbn [negb].
  destruct (Purchase.originalTransactionIdentifierIOS subscription) as [orig|];
    [|discriminate].
  cbn [truthy] in Horig. rewrite Horig. cbn [negb].
  unfold mbind at 1. unfold M_bind at 1.
  rewrite (sb_shouldRenew dev orig T w1 Hdev1).
  replace (row_of dev w1) with (row_of dev w) by reflexivity.
  replace (SupabaseAdapter.offline (store w1))
    with (SupabaseAdapter.offline (store w)) by reflexivity.
  rewrite Hdec. cbn [negb].
  unfold mbind at 1. unfold M_bind at 1.
  cbn [StorageAdapter.getDeviceId SupabaseAdapter.adapter].
  rewrite (sb_getDeviceId dev w1 Hdev1).
  unfold mbind at 1. unfold M_bind at 1.
  cbn [StorageAdapter.upsertSubscription SupabaseAdapter.adapter].
  unfold after. subst w1 w0. cbn [store time tick fired].
  destruct (SupabaseAdapter.upsertSubscription dev subscription _) as [saved w2].
  cbn [snd].
  unfold mbind at 1. unfold M_bind at 1.
  by destruct (RenewalService.processRenewal config "pro" w2).
Qed.

Lemma sb_upsert_needs_transaction_id dev purchase w :
  js_or (Purchase.transactionId purchase) (Purchase.id purchase) = None →
  SupabaseAdapter.upsertSubscription dev purchase w = (false, w).
Proof. intros H. unfold SupabaseAdapter.upsertSubscription. by rewrite H. Qed.
End Supabase.

(** ** Atomicity of a renewal *)

(** C3, as the code has it.  A renewal is two writes, not one.  When
    [checkAndHandleRenewal] reports a renewal it has upserted the
    transaction record for the device and then, whatever that call
    reported, run [processRenewal]: the world it leaves is the one
    [processRenewal] leaves after [upsertSubscription], and its result is
    that of [processRenewal].  The user record itself is written in one
    piece: afterwards the user records are either exactly as before, or the
    device's record has [subscriptionPlan], [generationsLeft] and
    [lastRenewalAt] all three rewritten.  In particular, when the upsert
    fails (an event without transaction identifier, on the Supabase adapter)
    the reset still takes place and the call reports true. *)
Theorem C3_user_record_written_in_one_piece
    (config : TokenConfig.t) (subscription : Purchase.t) (dev : string)
    (w : World SupabaseAdapter.state) :
  speaks_for dev w →
  let w' := after (RenewalService.checkAndHandleRenewal config subscription) w in
  (result (RenewalService.checkAndHandleRenewal config subscription) w = true →
   RenewalService.checkAndHandleRenewal config subscription w =
     RenewalService.processRenewal config "pro"
       (after (SupabaseAdapter.upsertSubscription dev subscription)
              (after_reading_dates subscription w)))
  ∧ (SupabaseAdapter.user (store w') = SupabaseAdapter.user (store w)
     ∨ ∃ row stamp,
         row_of dev w = Some row
         ∧ SupabaseAdapter.user (store w') =
             <[dev := renewed_row config stamp row]> (SupabaseAdapter.user (store w)))
  ∧ (js_or (Purchase.transactionId subscription) (Purchase.id subscription) = None →
     loggable subscription (transaction_time subscription w) = true →
     live subscription (reading_of_now subscription w) = true →
     truthy (Purchase.originalTransactionIdentifierIOS subscription) = true →
     SupabaseAdapter.offline (store w) = false →
     decision (SupabaseAdapter.mapUserFromDb <$> row_of dev w)
              (transaction_time subscription w) = true →
     (∀ w0, SupabaseAdapter.upsertSubscription dev subscription w0 = (false, w0))
     ∧ result (RenewalService.checkAndHandleRenewal config subscription) w = true
     ∧ SupabaseAdapter.subscriptions (store w') = SupabaseAdapter.subscriptions (store w)
     ∧ ∃ row stamp,
         row_of dev w = Some row ∧ row_of dev w' = Some (renewed_row config stamp row))
  ∧ (∀ wm : World InMemoryAdapter.state,
       let wm' := after (RenewalService.checkAndHandleRenewal config subscription) wm in
       (result (RenewalService.checkAndHandleRenewal config subscription) wm = true →
        RenewalService.checkAndHandleRenewal config subscription wm =
          RenewalService.processRenewal config "pro"
            (after (InMemoryAdapter.upsertSubscription
                      (InMemoryAdapter.deviceId (store wm)) subscription)
                   (after_reading_dates subscription wm)))
       ∧ (result (RenewalService.checkAndHandleRenewal config subscription) wm = true →
          ∃ sub, sub ∈ subs_of (InMemoryAdapter.deviceId (store wm)) wm'
                 ∧ SubscriptionData.purchaseData sub = subscription)
       ∧ (InMemoryAdapter.users (store wm') = InMemoryAdapter.users (store wm)
          ∨ ∃ u stamp,
              user_of wm = Some u
              ∧ InMemoryAdapter.users (store wm') =
                  <[InMemoryAdapter.deviceId (store wm) := renewed config stamp u]>
                    (InMemoryAdapter.users (store wm)))).
Proof.
  intros Hdev w'. subst w'.
  split; [by apply sb_check_writes|].
  unfold result, after.
  destruct (sb_check config subscription dev w Hdev) as (w' & -> & _ & _ & _ & Hgo).
  cbn [fst snd]. split; [|split].
  - destruct (_ && _ && _).
    + destruct Hgo as (row & j & Hrow & _ & Hu & _). right. eauto.
    + destruct Hgo as [-> _]. by left.
  - intros Hid Hlog Hl Ho Hoff Hd.
    rewrite Hlog, Hl, Ho, Hoff, Hd in Hgo |- *. cbn in Hgo |- *.
    destruct Hgo as (row & j & Hrow & _ & Hu & Hsubs).
    split; [intros w0; by apply sb_upsert_needs_transaction_id|].
    split; [done|]. split.
    + destruct Hsubs as [?|(r & _ & Hr)]; [done|congruence].
    + exists row, (time w j). split; [done|].
      unfold row_of. by rewrite Hu, lookup_insert_eq.
  - clear Hgo. intros wm. split; [by apply mem_check_writes|]. split.
    { intros Hres. unfold after, subs_of.
      rewrite (mem_check_writes config subscription wm Hres).
      fold (after (RenewalService.processRenewal config "pro")
              (after (InMemoryAdapter.upsertSubscription
                        (InMemoryAdapter.deviceId (store wm)) subscription)
                     (after_reading_dates subscription wm))).
      rewrite mem_processRenewal_frame. unfold after at 1.
      destruct (mem_upsert (InMemoryAdapter.deviceId (store wm)) subscription
                  (after_reading_dates subscription wm)) as (k & sd & -> & Hp & _).
      exists sd. split; [|done]. cbn. rewrite lookup_insert_eq. cbn.
      apply upsert_into_elem. }
    unfold after.
    destruct (mem_check config subscription wm) as (wm' & -> & _ & _ & _ & Hgo').
    cbn [snd]. destruct (_ && _ && _).
    + destruct Hgo' as (u & j & Hu & _ & Husers). right. eauto.
    + destruct Hgo' as [-> _]. by left.
Qed.

Lemma sample_backend_speaks row : speaks_for "device-1" (sample_backend row).
Proof. split; [reflexivity | discriminate]. Qed.

Lemma C3_user_record_written_in_one_piece_witness :
  let w := sample_backend (sample_row (Some "pro") 3 (Some 200)) in
  let ev := sample_event None (Some 900) None in
  let w' := after (RenewalService.checkAndHandleRenewal sample_config ev) w in
  result (RenewalService.checkAndHandleRenewal sample_config ev) w = true
  ∧ SupabaseAdapter.subscriptions (store w') = SupabaseAdapter.subscriptions (store w)
  ∧ ∃ row stamp,
      row_of "device-1" w = Some row
      ∧ row_of "device-1" w' = Some (renewed_row sample_config stamp row).
Proof.
  destruct (C3_user_record_written_in_one_piece sample_config
              (sample_event None (Some 900) None) "device-1"
              (sample_backend (sample_row (Some "pro") 3 (Some 200)))
              (sample_backend_speaks _)) as (_ & _ & Hfail & _).
  destruct Hfail as (_ & H); try reflexivity. exact H.
Defined.

(** C3 as stated fails: for a subscribed user and an event without
    transaction identifier the Supabase [upsertSubscription] reports failure
    and stores nothing, and still the user row goes from a balance of 3 and
    a renewal stamp of 200 to a balance of 100 and a fresh stamp. *)
Lemma C3_counterexample :
  let w := sample_backend (sample_row (Some "pro") 3 (Some 200)) in
  let ev := sample_event None (Some 900) None in
  let w' := after (RenewalService.checkAndHandleRenewal sample_config ev) w in
  result (SupabaseAdapter.upsertSubscription "device-1" ev) w = false
  ∧ SupabaseAdapter.subscriptions (store w') = []
  ∧ row_of "device-1" w = Some (sample_row (Some "pro") 3 (Some 200))
  ∧ row_of "device-1" w' = Some (sample_row (Some "pro") 100 (Some 1100))
  ∧ row_of "device-1" w' ≠ row_of "device-1" w.
Proof. vm_compute. repeat split. discriminate. Qed.

(** ** Cancelling *)

Lemma mem_cancelSubscription (w : World InMemoryAdapter.state) u :
  user_of w = Some u →
  TokenManager.cancelSubscription w =
    (true,
     mkWorld
       (InMemoryAdapter.set_users
          <[InMemoryAdapter.deviceId (store w) := UserData.set_subscriptionPlan None u]>
          (store w))
       (time w) (tick w) (fired w)).
Proof.
  intros Hu. unfold TokenManager.cancelSubscription, user_of in *.
  unfold_monad. cbn. unfold InMemoryAdapter.cancelSubscription. unfold_monad.
  cbn. by rewrite Hu.
Qed.

Lemma sb_cancelSubscription dev (w : World SupabaseAdapter.state) row :
  speaks_for dev w → SupabaseAdapter.offline (store w) = false →
  row_of dev w = Some row →
  result TokenManager.cancelSubscription w = true
  ∧ row_of dev (after TokenManager.cancelSubscription w) =
      Some (SupabaseAdapter.mk_user (SupabaseAdapter.device_id row) None 0
                                    (SupabaseAdapter.created_at row)
                                    (SupabaseAdapter.last_renewal_at row)).
Proof.
  intros Hdev Hoff Hrow. unfold TokenManager.cancelSubscription, result, after.
  unfold mbind at 1. unfold M_bind at 1.
  unfold mbind at 1. unfold M_bind at 1.
  cbn [StorageAdapter.getDeviceId StorageAdapter.cancelSubscription
       SupabaseAdapter.adapter].
  rewrite (sb_getDeviceId dev w Hdev).
  unfold SupabaseAdapter.cancelSubscription, SupabaseAdapter.update_user.
  unfold_monad. rewrite Hoff. cbn. split; [done|].
  unfold row_of in *. cbn. by rewrite lookup_alter_eq, Hrow.
Qed.

(** C5.  The two adapters disagree on cancelling.  For the same subscribed
    user with 42 generations left, [cancelSubscription] through the in-memory
    adapter clears the plan and keeps the 42, through the Supabase adapter it
    clears the plan and also sets the balance to 0. *)
Theorem C5_cancel_differs_between_adapters :
  let wm := sample_world (sample_user (Some "pro") 42 (Some 200)) in
  let ws := sample_backend (sample_row (Some "pro") 42 (Some 200)) in
  result TokenManager.getUserData wm = result TokenManager.getUserData ws
  ∧ result TokenManager.getUserData (after TokenManager.cancelSubscription wm)
    = Some (sample_user None 42 (Some 200))
  ∧ result TokenManager.getUserData (after TokenManager.cancelSubscription ws)
    = Some (sample_user None 0 (Some 200)).
Proof. vm_compute. repeat split. Qed.


(** ** The same ledger and reconciler properties on the Supabase adapter *)

Section SupabaseLedger.
Variable config : TokenConfig.t.
Implicit Types (w : World SupabaseAdapter.state) (row : SupabaseAdapter.user_row).

Lemma sb_useGeneration dev w :
  speaks_for dev w →
  TokenManager.useGeneration config w =
    match (if SupabaseAdapter.offline (store w) then None else row_of dev w) with
    | None => (false, w)
    | Some row =>
        let u := SupabaseAdapter.mapUserFromDb row in
        if bool_decide (UserData.generationsLeft u <= 0) then (false, w)
        else
          let newCount := Z.max 0 (to_double (UserData.generationsLeft u - 1)) in
          (true,
           mkWorld
             (SupabaseAdapter.set_user
                (alter (fun r =>
                          SupabaseAdapter.mk_user
                            (SupabaseAdapter.device_id r)
                            (SupabaseAdapter.subscription_plan r) newCount
                            (SupabaseAdapter.created_at r)
                            (SupabaseAdapter.last_renewal_at r)) dev)
                (store w))
             (time w) (tick w)
             (fired w ++ used_callbacks config u newCount))
    end.
Proof.
  intros Hdev. unfold TokenManager.useGeneration, TokenManager.getUserData.
  unfold mbind at 1. unfold M_bind at 1.
  unfold mbind at 1. unfold M_bind at 1.
  cbn [StorageAdapter.getDeviceId StorageAdapter.getUserData SupabaseAdapter.adapter].
  rewrite (sb_getDeviceId dev w Hdev), sb_getUserData.
  destruct (SupabaseAdapter.offline (store w)) eqn:Hoff; [reflexivity|].
  destruct (row_of dev w) as [row|] eqn:Hrow; [|reflexivity].
  cbn [fmap option_fmap option_map].
  destruct (bool_decide
              (UserData.generationsLeft (SupabaseAdapter.mapUserFromDb row) <= 0));
    [reflexivity|].
  unfold mbind at 1. unfold M_bind at 1.
  rewrite (sb_getDeviceId dev w Hdev).
  cbn [StorageAdapter.updateGenerations SupabaseAdapter.adapter].
  unfold SupabaseAdapter.updateGenerations, SupabaseAdapter.update_user.
  unfold_monad. rewrite Hoff. cbn. unfold used_callbacks.
  destruct (TokenConfig.onGenerationUsed config);
    destruct (bool_decide
                (Z.max 0 (to_double (SupabaseAdapter.generations_left row - 1)) = 0)
              && TokenConfig.onLimitReached config);
    cbn; rewrite <- ?app_assoc, ?app_nil_r; reflexivity.
Qed.

(** The balance floor holds on the Supabase adapter as well. *)
Lemma sb_useGeneration_keeps_nonneg dev w :
  speaks_for dev w → rows_nonneg w →
  rows_nonneg (TokenManager.useGeneration config w).2.
Proof.
  intros Hdev Hinv. rewrite (sb_useGeneration dev w Hdev).
  destruct (if SupabaseAdapter.offline (store w) then None else row_of dev w)
    as [row|]; [|done].
  cbn. destruct (bool_decide (SupabaseAdapter.generations_left row <= 0)); [done|].
  cbn. intros d r Hd. cbn in Hd.
  destruct (decide (dev = d)) as [<-|Hne].
  - rewrite lookup_alter_eq in Hd.
    destruct (SupabaseAdapter.user (store w) !! dev); [|done].
    injection Hd as <-. cbn. lia.
  - rewrite lookup_alter_ne in Hd by done. by eapply Hinv.
Qed.

(** So does the edge-triggered notification: it is invoked by the call that
    finds a balance of 1, and by no call that finds another balance. *)
Lemma sb_limit_reached_edge dev w :
  speaks_for dev w → TokenConfig.onLimitReached config = true →
  limit_events (fired (TokenManager.useGeneration config w).2) =
    limit_events (fired w)
    ++ match (if SupabaseAdapter.offline (store w) then None else row_of dev w) with
       | Some row =>
           if bool_decide (SupabaseAdapter.generations_left row = 1)
           then [LimitReached
                   (bool_decide (SupabaseAdapter.subscription_plan row = None))]
           else []
       | None => []
       end.
Proof.
  intros Hdev Hcb. rewrite (sb_useGeneration dev w Hdev).
  destruct (if SupabaseAdapter.offline (store w) then None else row_of dev w)
    as [row|]; [|by rewrite app_nil_r].
  cbn. destruct (bool_decide (SupabaseAdapter.generations_left row <= 0)) eqn:Hz.
  - apply bool_decide_eq_true in Hz.
    rewrite bool_decide_eq_false_2 by lia. by rewrite app_nil_r.
  - apply bool_decide_eq_false in Hz. cbn.
    unfold used_callbacks, limit_events. rewrite Hcb, !List.filter_app. cbn.
    destruct (bool_decide (SupabaseAdapter.generations_left row = 1)) eqn:H1.
    + apply bool_decide_eq_true in H1. rewrite H1. cbn.
      destruct (TokenConfig.onGenerationUsed config); cbn;
        destruct (SupabaseAdapter.subscription_plan row); reflexivity.
    + apply bool_decide_eq_false in H1.
      rewrite (bool_decide_eq_false_2
                 (Z.max 0 (to_double (SupabaseAdapter.generations_left row - 1)) = 0))
        by (pose proof (to_double_pos (SupabaseAdapter.generations_left row - 1));
            lia).
      destruct (TokenConfig.onGenerationUsed config); reflexivity.
Qed.

(** And a renewal writes plan "pro" and the configured limit. *)
Lemma sb_renewal_writes_pro_and_limit subscription dev w :
  speaks_for dev w →
  result (RenewalService.checkAndHandleRenewal config subscription) w = true →
  ∃ row',
    row_of dev (after (RenewalService.checkAndHandleRenewal config subscription) w)
      = Some row'
    ∧ SupabaseAdapter.subscription_plan row' = Some "pro"
    ∧ SupabaseAdapter.generations_left row' = TokenConfig.proTierLimit config.
Proof.
  intros Hdev. unfold result, after.
  destruct (sb_check config subscription dev w Hdev) as (w' & -> & _ & _ & _ & Hgo).
  cbn [fst snd]. intros Hr. rewrite Hr in Hgo.
  destruct Hgo as (row & j & _ & _ & Hu & _).
  exists (renewed_row config (time w j) row).
  unfold row_of. by rewrite Hu, lookup_insert_eq.
Qed.
End SupabaseLedger.

(** ** Scenarios of the design document, run on the in-memory adapter *)

(** A new device with a free allowance of 5: five generations succeed, the
    sixth is refused and the user is told to subscribe. *)
Example scenario_free_tier :
  let w0 := after (TokenManager.initializeUser sample_config) empty_world in
  let run := useGenerations sample_config 6 w0 in
  user_of w0 = Some (UserData.mk "device-1" None 5 1000 None)
  ∧ run.1 = [true; true; true; true; true; false]
  ∧ UserData.generationsLeft <$> user_of run.2 = Some 0
  ∧ result TokenManager.canGenerate run.2 = mkCheck false 0 true.
Proof. vm_compute. repeat split. Qed.

(** Subscribing sets the plan, the paid allowance and the renewal stamp; a
    renewal dated 31 days later resets the balance and advances the stamp;
    the same event delivered again is skipped. *)
Example scenario_subscribe_then_renew :
  let day := 86400000 in
  let clock (n : nat) := 1000 + 32 * day * Z.of_nat n in
  let w0 := mkWorld (InMemoryAdapter.mk
                       {["device-1" := sample_user None 0 None]} ∅ "device-1")
                    clock 0 [] in
  let w1 := after (TokenManager.activateSubscription sample_config "pro") w0 in
  let w2 := (useGenerations sample_config 3 w1).2 in
  let ev := sample_event (Some "tx-2") (Some (1000 + 31 * day)) None in
  let w3 := after (RenewalService.checkAndHandleRenewal sample_config ev) w2 in
  let w4 := after (RenewalService.checkAndHandleRenewal sample_config ev) w3 in
  user_of w1 = Some (sample_user (Some "pro") 100 (Some 1000))
  ∧ UserData.generationsLeft <$> user_of w2 = Some 97
  ∧ result (RenewalService.checkAndHandleRenewal sample_config ev) w2 = true
  ∧ user_of w3 = Some (sample_user (Some "pro") 100 (Some (1000 + 64 * day)))
  ∧ result (RenewalService.checkAndHandleRenewal sample_config ev) w3 = false
  ∧ user_of w4 = user_of w3.
Proof. vm_compute. repeat split. Qed.


(** * Further properties of the code *)

(** ** The ledger: questions and answers *)

(** X1.  [hasSubscription] answers true when the adapter returns no record
    for the device (the optional chain yields [undefined], neither [null] nor
    empty), while [canGenerate] in the same state refuses and asks for a
    subscription; with a record, [hasSubscription] answers true exactly when
    the plan is neither null nor empty. *)
Theorem X1_hasSubscription_without_record {S : Type} `{!StorageAdapter.ops S}
    (w : World S) :
  (result TokenManager.getUserData w = None →
   result TokenManager.hasSubscription w = true
   ∧ result TokenManager.canGenerate w = mkCheck false 0 true)
  ∧ (∀ u, result TokenManager.getUserData w = Some u →
          (result TokenManager.hasSubscription w = true
           ↔ UserData.subscriptionPlan u ≠ None ∧ UserData.subscriptionPlan u ≠ Some "")).
Proof.
  unfold TokenManager.hasSubscription, TokenManager.canGenerate.
  unfold_monad.
  destruct (TokenManager.getUserData w) as [[u|] w1]; cbn [fst].
  - split; [discriminate|]. intros u' [= <-]. cbn.
    rewrite andb_true_iff, !bool_decide_eq_true. done.
  - split; [done|]. discriminate.
Qed.

Lemma X1_hasSubscription_without_record_witness :
  result TokenManager.hasSubscription empty_world = true
  ∧ result TokenManager.canGenerate empty_world = mkCheck false 0 true.
Proof.
  destruct (X1_hasSubscription_without_record empty_world) as [H _].
  apply H. reflexivity.
Defined.

Section LedgerAnswers.
Variable config : TokenConfig.t.
Implicit Types (w : World InMemoryAdapter.state) (u : UserData.t).

Lemma mem_canGenerate w :
  TokenManager.canGenerate w =
    (match user_of w with
     | None => mkCheck false 0 true
     | Some u =>
         if bool_decide (0 < UserData.generationsLeft u)
         then mkCheck true (UserData.generationsLeft u) false
         else mkCheck false 0 (negb (bool_decide (UserData.subscriptionPlan u ≠ None)
                                      && bool_decide (UserData.subscriptionPlan u ≠ Some "")))
     end, w).
Proof.
  unfold TokenManager.canGenerate.
  unfold mbind at 1. unfold M_bind at 1. rewrite mem_getUserData.
  destruct (user_of w) as [u|]; [|reflexivity].
  destruct (bool_decide (UserData.subscriptionPlan u ≠ None)
            && bool_decide (UserData.subscriptionPlan u ≠ Some ""));
    destruct (bool_decide (0 < UserData.generationsLeft u)); reflexivity.
Qed.

Lemma useGenerations_exhausted k : ∀ w u,
  user_of w = Some u → UserData.generationsLeft u = 0 →
  useGenerations config k w = (replicate k false, w).
Proof.
  induction k as [|k IH]; intros w u Hu Hz; [done|].
  cbn [useGenerations replicate]. rewrite mem_useGeneration, Hu.
  rewrite bool_decide_eq_true_2 by lia.
  by rewrite (IH w u Hu Hz).
Qed.

Lemma mem_initializeUser w :
  TokenManager.initializeUser config w =
    match user_of w with
    | Some u => (Some u, w)
    | None =>
        let newUser :=
          UserData.mk (InMemoryAdapter.deviceId (store w)) None
                      (TokenConfig.freeTierLimit config) (time w (tick w)) None in
        (Some newUser,
         mkWorld
           (InMemoryAdapter.set_users
              <[InMemoryAdapter.deviceId (store w) := newUser]> (store w))
           (time w) (Datatypes.S (tick w)) (fired w))
    end.
Proof.
  unfold TokenManager.initializeUser, user_of. unfold_monad. cbn.
  unfold InMemoryAdapter.initializeUser. unfold_monad.
  by destruct (InMemoryAdapter.users (store w) !! InMemoryAdapter.deviceId (store w)).
Qed.
End LedgerAnswers.

(** X2.  On the in-memory adapter [canGenerate] changes nothing and predicts
    [useGeneration]: it allows exactly when a [useGeneration] call in the same
    state succeeds.  It never allows and asks for a subscription at once, and
    it reports the stored balance when it allows, 0 when it refuses. *)
Theorem X2_canGenerate_predicts_useGeneration
    (config : TokenConfig.t) (w : World InMemoryAdapter.state) :
  let answer := result TokenManager.canGenerate w in
  after TokenManager.canGenerate w = w
  ∧ canGenerate_ answer = result (TokenManager.useGeneration config) w
  ∧ (canGenerate_ answer = true → needsSubscription_ answer = false)
  ∧ generationsLeft_ answer =
      if canGenerate_ answer
      then default 0 (UserData.generationsLeft <$> user_of w) else 0.
Proof.
  unfold result, after. rewrite mem_canGenerate, (mem_useGeneration config w).
  cbn [fst snd]. destruct (user_of w) as [u|]; [|done]. cbn.
  destruct (bool_decide (0 < UserData.generationsLeft u)) eqn:Hpos.
  - apply bool_decide_eq_true in Hpos.
    rewrite (bool_decide_eq_false_2 (UserData.generationsLeft u <= 0)) by lia. done.
  - apply bool_decide_eq_false in Hpos.
    rewrite (bool_decide_eq_true_2 (UserData.generationsLeft u <= 0)) by lia. done.
Qed.

(** X3.  A balance of [n] buys exactly [n] generations, for every [n] a
    JavaScript number counts exactly (up to [Number.MAX_SAFE_INTEGER]): of
    [n + k] [useGeneration] calls in a row the first [n] succeed and the
    last [k] fail, and the balance ends at 0. *)
Theorem X3_balance_buys_exactly_n
    (config : TokenConfig.t) (n k : nat) (w : World InMemoryAdapter.state)
    (u : UserData.t) :
  user_of w = Some u →
  UserData.generationsLeft u = Z.of_nat n →
  Z.of_nat n <= MAX_SAFE_INTEGER →
  (useGenerations config (n + k) w).1 = replicate n true ++ replicate k false
  ∧ UserData.generationsLeft <$> user_of (useGenerations config (n + k) w).2 = Some 0.
Proof.
  revert w u. induction n as [|n IH]; intros w u Hu Hn Hsafe.
  - cbn [Nat.add]. rewrite (useGenerations_exhausted config k w u Hu Hn).
    cbn [fst snd replicate app]. rewrite Hu. cbn. by rewrite Hn.
  - cbn [Nat.add useGenerations]. rewrite mem_useGeneration, Hu.
    rewrite bool_decide_eq_false_2 by lia. cbn zeta.
    set (w1 := mkWorld _ _ _ _).
    destruct (IH w1 (UserData.set_generationsLeft (Z.of_nat n) u)) as [Hl Hb].
    { unfold user_of. subst w1. cbn. rewrite lookup_insert_eq.
      rewrite to_double_exact by (unfold MAX_SAFE_INTEGER in *; lia).
      do 2 f_equal. lia. }
    { reflexivity. }
    { lia. }
    destruct (useGenerations config (n + k) w1) as [oks w2]. cbn in *.
    by rewrite Hl.
Qed.

Lemma X3_balance_buys_exactly_n_witness :
  let w := sample_world (sample_user None 2 None) in
  (useGenerations sample_config (2 + 3) w).1 = [true; true; false; false; false]
  ∧ UserData.generationsLeft <$> user_of (useGenerations sample_config (2 + 3) w).2
    = Some 0.
Proof.
  apply (X3_balance_buys_exactly_n sample_config 2 3
           (sample_world (sample_user None 2 None)) (sample_user None 2 None));
    [reflexivity | reflexivity | unfold MAX_SAFE_INTEGER; lia].
Defined.

(** X4.  [initializeUser] never overwrites: for a device that has a record it
    returns that record and leaves the world alone, so balance, plan and
    renewal stamp survive a restart of the application.  For a new device it
    stores and returns a record with no plan, the configured
    [freeTierLimit] and no renewal stamp, and touches no other device.
    Either way [getUserData] afterwards returns what [initializeUser]
    returned. *)
Theorem X4_initializeUser_keeps_existing_record
    (config : TokenConfig.t) (w : World InMemoryAdapter.state) :
  let w' := after (TokenManager.initializeUser config) w in
  (∀ u, user_of w = Some u →
        TokenManager.initializeUser config w = (Some u, w))
  ∧ (user_of w = None →
     ∃ created,
       user_of w' =
         Some (UserData.mk (InMemoryAdapter.deviceId (store w)) None
                           (TokenConfig.freeTierLimit config) created None)
       ∧ ∀ d, d ≠ InMemoryAdapter.deviceId (store w) →
              InMemoryAdapter.users (store w') !! d
              = InMemoryAdapter.users (store w) !! d)
  ∧ result TokenManager.getUserData w' = result (TokenManager.initializeUser config) w.
Proof.
  unfold result, after. rewrite mem_initializeUser, !mem_getUserData.
  destruct (user_of w) as [u|] eqn:Hu; cbn [fst snd].
  - split; [by intros ? [= <-]|]. split; [discriminate|done].
  - split; [discriminate|]. split.
    + intros _. eexists. split.
      * unfold user_of. cbn. by rewrite lookup_insert_eq.
      * intros d Hd. cbn. by rewrite lookup_insert_ne.
    + unfold user_of. cbn. by rewrite lookup_insert_eq.
Qed.

Lemma X4_initializeUser_keeps_existing_record_witness :
  let w := sample_world (sample_user (Some "pro") 42 (Some 200)) in
  TokenManager.initializeUser sample_config w
  = (Some (sample_user (Some "pro") 42 (Some 200)), w).
Proof.
  destruct (X4_initializeUser_keeps_existing_record sample_config
              (sample_world (sample_user (Some "pro") 42 (Some 200)))) as (H & _).
  apply H. reflexivity.
Defined.


(** ** The renewal path *)

Section RenewalPath.
Variable config : TokenConfig.t.
Implicit Types (w : World InMemoryAdapter.state) (u : UserData.t).

(** [mem_check] with the place of the stamp among the clock readings. *)
Lemma mem_check_stamp subscription w :
  let go :=
    loggable subscription (transaction_time subscription w)
    && live subscription (reading_of_now subscription w)
    && truthy (Purchase.originalTransactionIdentifierIOS subscription)
    && decision (user_of w) (transaction_time subscription w) in
  ∃ w',
    RenewalService.checkAndHandleRenewal config subscription w = (go, w')
    ∧ time w' = time w
    ∧ InMemoryAdapter.deviceId (store w') = InMemoryAdapter.deviceId (store w)
    ∧ (tick w < tick w')%nat
    ∧ if go
      then ∃ u (j : nat),
             user_of w = Some u ∧ (tick w < j < tick w')%nat
             ∧ InMemoryAdapter.users (store w') =
                 <[InMemoryAdapter.deviceId (store w) := renewed config (time w j) u]>
                   (InMemoryAdapter.users (store w))
      else store w' = store w ∧ fired w' = fired w.
Proof. exact (mem_check config subscription w). Qed.

(** What [shouldRenew] refuses is skipped and leaves no trace. *)
Lemma mem_check_refused subscription w :
  decision (user_of w) (transaction_time subscription w) = false →
  ∃ w', RenewalService.checkAndHandleRenewal config subscription w = (false, w')
        ∧ store w' = store w ∧ fired w' = fired w ∧ time w' = time w
        ∧ (tick w < tick w')%nat.
Proof.
  intros Hd.
  destruct (mem_check_stamp subscription w) as (w' & Heq & Ht & _ & Hk & Hgo).
  rewrite Hd, andb_false_r in Heq, Hgo. destruct Hgo as [Hs Hf]. eauto 10.
Qed.

Lemma mem_activateSubscription plan w u :
  user_of w = Some u →
  TokenManager.activateSubscription config plan w =
    (true,
     mkWorld
       (InMemoryAdapter.set_users
          <[InMemoryAdapter.deviceId (store w) :=
              UserData.mk (UserData.deviceId u) (Some plan)
                          (TokenConfig.proTierLimit config) (UserData.createdAt u)
                          (Some (time w (tick w)))]>
          (store w))
       (time w) (Datatypes.S (tick w))
       (fired w ++ if TokenConfig.onSubscriptionActivated config
                   then [SubscriptionActivated] else [])).
Proof.
  intros Hu. unfold TokenManager.activateSubscription, user_of in *.
  unfold_monad. cbn. unfold InMemoryAdapter.updateSubscriptionPlan.
  unfold_monad. cbn. rewrite Hu. cbn.
  destruct (TokenConfig.onSubscriptionActivated config); cbn;
    [reflexivity | by rewrite app_nil_r].
Qed.

Lemma mem_activateSubscription_missing plan w :
  user_of w = None → TokenManager.activateSubscription config plan w = (false, w).
Proof.
  intros Hu. unfold TokenManager.activateSubscription, user_of in *.
  unfold_monad. cbn. unfold InMemoryAdapter.updateSubscriptionPlan.
  unfold_monad. cbn. rewrite Hu. cbn. by destruct w.
Qed.

Lemma dated_transaction_time_of subscription T w :
  js_or (Purchase.transactionDate subscription)
        (Purchase.purchaseDateIOS subscription) = Some T →
  T ≠ 0 → transaction_time subscription w = T.
Proof.
  intros Hd Hnz. unfold transaction_time. rewrite Hd.
  assert (truthy_value T = true) as -> by by apply negb_true_iff, Z.eqb_neq.
  reflexivity.
Qed.
End RenewalPath.

(** X5.  The renewal path never activates anybody: for a device without a
    record, or with a plan that is null or empty, every event is skipped and
    neither the store nor the callbacks are touched.  In particular, once
    [cancelSubscription] has run, no renewal event resets the balance. *)
Theorem X5_renewal_never_activates
    (config : TokenConfig.t) (subscription : Purchase.t)
    (w : World InMemoryAdapter.state) :
  ((user_of w = None
    ∨ ∃ u, user_of w = Some u ∧ truthy (UserData.subscriptionPlan u) = false) →
   result (RenewalService.checkAndHandleRenewal config subscription) w = false
   ∧ store (after (RenewalService.checkAndHandleRenewal config subscription) w) = store w
   ∧ fired (after (RenewalService.checkAndHandleRenewal config subscription) w) = fired w)
  ∧ (let wc := after TokenManager.cancelSubscription w in
     result (RenewalService.checkAndHandleRenewal config subscription) wc = false
     ∧ store (after (RenewalService.checkAndHandleRenewal config subscription) wc)
       = store wc).
Proof.
  assert (Hskip : ∀ w0 : World InMemoryAdapter.state,
            (user_of w0 = None
             ∨ ∃ u, user_of w0 = Some u ∧ truthy (UserData.subscriptionPlan u) = false) →
            result (RenewalService.checkAndHandleRenewal config subscription) w0 = false
            ∧ store (after (RenewalService.checkAndHandleRenewal config subscription) w0)
              = store w0
            ∧ fired (after (RenewalService.checkAndHandleRenewal config subscription) w0)
              = fired w0).
  { intros w0 Hno. unfold result, after.
    destruct (mem_check_refused config subscription w0) as (w' & -> & Hs & Hf & _).
    - unfold decision. destruct Hno as [->|(u & -> & ->)]; [reflexivity|].
      by rewrite andb_false_r.
    - done. }
  split; [apply Hskip|].
  cbn zeta. destruct (user_of w) as [u|] eqn:Hu.
  - destruct (Hskip (after TokenManager.cancelSubscription w)) as (H1 & H2 & _); [|done].
    right. exists (UserData.set_subscriptionPlan None u).
    unfold after. rewrite (mem_cancelSubscription w u Hu). cbn.
    unfold user_of. cbn. by rewrite lookup_insert_eq.
  - destruct (Hskip (after TokenManager.cancelSubscription w)) as (H1 & H2 & _); [|done].
    left. unfold after, TokenManager.cancelSubscription, user_of in *.
    unfold_monad. cbn. unfold InMemoryAdapter.cancelSubscription. unfold_monad.
    cbn. by rewrite Hu.
Qed.

Lemma X5_renewal_never_activates_witness :
  let w := sample_world (sample_user None 2 None) in
  let ev := sample_event (Some "tx-2") (Some 900) None in
  result (RenewalService.checkAndHandleRenewal sample_config ev) w = false
  ∧ store (after (RenewalService.checkAndHandleRenewal sample_config ev) w) = store w
  ∧ fired (after (RenewalService.checkAndHandleRenewal sample_config ev) w) = fired w.
Proof.
  destruct (X5_renewal_never_activates sample_config
              (sample_event (Some "tx-2") (Some 900) None)
              (sample_world (sample_user None 2 None))) as [H _].
  apply H. right. exists (sample_user None 2 None). split; reflexivity.
Defined.

(** X6.  The purchase that activated a subscription is not credited a second
    time by the renewal monitor: after [activateSubscription], an event whose
    transaction date is not later than the clock at activation is skipped,
    and the balance the user has meanwhile is left alone. *)
Theorem X6_activating_purchase_is_not_credited_twice
    (config : TokenConfig.t) (plan : string) (subscription : Purchase.t) (T : Z)
    (w : World InMemoryAdapter.state) :
  js_or (Purchase.transactionDate subscription)
        (Purchase.purchaseDateIOS subscription) = Some T →
  T ≠ 0 →
  T <= time w (tick w) →
  let w1 := after (TokenManager.activateSubscription config plan) w in
  result (RenewalService.checkAndHandleRenewal config subscription) w1 = false
  ∧ store (after (RenewalService.checkAndHandleRenewal config subscription) w1) = store w1
  ∧ fired (after (RenewalService.checkAndHandleRenewal config subscription) w1) = fired w1.
Proof.
  intros Hd Hnz Hpast w1. unfold result, after.
  destruct (mem_check_refused config subscription w1) as (w' & -> & Hs & Hf & _);
    [|done].
  rewrite (dated_transaction_time_of subscription T w1 Hd Hnz).
  subst w1. unfold after. destruct (user_of w) as [u|] eqn:Hu.
  - rewrite (mem_activateSubscription config plan w u Hu). cbn [snd].
    unfold user_of, decision. cbn. rewrite lookup_insert_eq. cbn.
    rewrite (bool_decide_eq_false_2 (time w (tick w) < T)) by lia.
    by rewrite !andb_false_r.
  - rewrite (mem_activateSubscription_missing config plan w Hu). cbn [snd].
    by rewrite Hu.
Qed.

Lemma X6_activating_purchase_is_not_credited_twice_witness :
  let w := sample_world (sample_user None 0 None) in
  let ev := sample_event (Some "tx-1") (Some 900) (Some 5000) in
  let w1 := after (TokenManager.activateSubscription sample_config "pro") w in
  result (RenewalService.checkAndHandleRenewal sample_config ev) w1 = false
  ∧ store (after (RenewalService.checkAndHandleRenewal sample_config ev) w1) = store w1
  ∧ fired (after (RenewalService.checkAndHandleRenewal sample_config ev) w1) = fired w1.
Proof.
  apply (X6_activating_purchase_is_not_credited_twice sample_config "pro"
           (sample_event (Some "tx-1") (Some 900) (Some 5000)) 900
           (sample_world (sample_user None 0 None))).
  - reflexivity.
  - lia.
  - vm_compute. discriminate.
Defined.

Section Stamps.
Variable config : TokenConfig.t.
Implicit Types (w : World InMemoryAdapter.state).

(** One event: the stamp stays or moves to a later reading of the clock. *)
Lemma stamp_step subscription w l :
  monotone (time w) →
  UserData.lastRenewalAt <$> user_of w = Some (Some l) →
  l <= time w (tick w) →
  let w' := after (RenewalService.checkAndHandleRenewal config subscription) w in
  time w' = time w
  ∧ ∃ l', UserData.lastRenewalAt <$> user_of w' = Some (Some l')
          ∧ l <= l' ∧ l' <= time w' (tick w').
Proof.
  intros Hmono Hl Hle w'. subst w'. unfold after.
  destruct (mem_check_stamp config subscription w) as (w' & -> & Ht & Hd & Hk & Hgo).
  cbn [snd]. split; [done|]. rewrite Ht.
  destruct (_ && _ && _).
  - destruct Hgo as (u & j & Hu & Hj & Husers).
    exists (time w j). unfold user_of. rewrite Hd, Husers, lookup_insert_eq. cbn.
    split; [done|]. split.
    + transitivity (time w (tick w)); [done|]. apply Hmono. lia.
    + apply Hmono. lia.
  - destruct Hgo as [Hs _]. exists l. unfold user_of in *. rewrite Hs.
    split; [done|]. split; [lia|].
    transitivity (time w (tick w)); [done|]. apply Hmono. lia.
Qed.
End Stamps.

(** X7.  The renewal stamp never goes back: with a clock that does not run
    backwards and a stamp that is not ahead of it, [lastRenewalAt] after any
    sequence of renewal events is the stamp before or a later one. *)
Theorem X7_renewal_stamp_never_goes_back
    (config : TokenConfig.t) (events : list Purchase.t)
    (w : World InMemoryAdapter.state) (l : Z) :
  monotone (time w) →
  UserData.lastRenewalAt <$> user_of w = Some (Some l) →
  l <= time w (tick w) →
  ∃ l', UserData.lastRenewalAt <$> user_of (reconcileAll config events w)
        = Some (Some l')
        ∧ l <= l'.
Proof.
  revert w l. induction events as [|ev events IH]; intros w l Hmono Hl Hle.
  - exists l. split; [done|lia].
  - cbn [reconcileAll].
    destruct (stamp_step config ev w l Hmono Hl Hle) as (Ht & l1 & Hl1 & Hle1 & Hclock).
    destruct (IH (after (RenewalService.checkAndHandleRenewal config ev) w) l1)
      as (l' & Hl' & Hle'); [by rewrite Ht|done|done|].
    exists l'. split; [done|lia].
Qed.

Lemma X7_renewal_stamp_never_goes_back_witness :
  let w := sample_world (sample_user (Some "pro") 3 (Some 200)) in
  let events := [sample_event (Some "tx-3") (Some 950) None;
                 sample_event (Some "tx-2") (Some 900) None] in
  ∃ l', UserData.lastRenewalAt <$> user_of (reconcileAll sample_config events w)
        = Some (Some l')
        ∧ 200 <= l'.
Proof.
  apply (X7_renewal_stamp_never_goes_back sample_config
           [sample_event (Some "tx-3") (Some 950) None;
            sample_event (Some "tx-2") (Some 900) None]
           (sample_world (sample_user (Some "pro") 3 (Some 200))) 200).
  - exact sample_clock_monotone.
  - reflexivity.
  - vm_compute. discriminate.
Defined.

(** X8.  Out-of-order delivery: once an event dated [T2], not later than the
    clock, has been renewed, an event dated [T1 <= T2] that arrives after it
    is skipped and changes nothing. *)
Theorem X8_older_event_after_newer_is_skipped
    (config : TokenConfig.t) (newer older : Purchase.t) (T1 T2 : Z)
    (w : World InMemoryAdapter.state) :
  monotone (time w) →
  js_or (Purchase.transactionDate older) (Purchase.purchaseDateIOS older) = Some T1 →
  T1 ≠ 0 →
  transaction_time newer w = T2 →
  T1 <= T2 →
  T2 <= time w (tick w) →
  result (RenewalService.checkAndHandleRenewal config newer) w = true →
  let w1 := after (RenewalService.checkAndHandleRenewal config newer) w in
  result (RenewalService.checkAndHandleRenewal config older) w1 = false
  ∧ store (after (RenewalService.checkAndHandleRenewal config older) w1) = store w1.
Proof.
  intros Hmono Hd1 Hnz HT2 H12 Hpast Hr w1. subst w1. unfold result, after in *.
  destruct (mem_check_stamp config newer w) as (w1 & Heq & Ht & Hdev & Hk & Hgo).
  rewrite Heq in Hr |- *. cbn [fst snd] in *. rewrite Hr in Hgo.
  destruct Hgo as (u & j & Hu & Hj & Husers).
  destruct (mem_check_refused config older w1) as (w' & -> & Hs & _); [|done].
  rewrite (dated_transaction_time_of older T1 w1 Hd1 Hnz).
  unfold user_of, decision. rewrite Hdev, Husers, lookup_insert_eq. cbn.
  assert (time w (tick w) <= time w j) by (apply Hmono; lia).
  rewrite (bool_decide_eq_false_2 (time w j < T1)) by lia.
  by rewrite !andb_false_r.
Qed.

Lemma X8_older_event_after_newer_is_skipped_witness :
  let w := sample_world (sample_user (Some "pro") 3 (Some 200)) in
  let newer := sample_event (Some "tx-3") (Some 950) None in
  let older := sample_event (Some "tx-2") (Some 900) None in
  let w1 := after (RenewalService.checkAndHandleRenewal sample_config newer) w in
  result (RenewalService.checkAndHandleRenewal sample_config older) w1 = false
  ∧ store (after (RenewalService.checkAndHandleRenewal sample_config older) w1) = store w1.
Proof.
  apply (X8_older_event_after_newer_is_skipped sample_config
           (sample_event (Some "tx-3") (Some 950) None)
           (sample_event (Some "tx-2") (Some 900) None) 900 950
           (sample_world (sample_user (Some "pro") 3 (Some 200)))).
  - exact sample_clock_monotone.
  - reflexivity.
  - lia.
  - reflexivity.
  - lia.
  - vm_compute. discriminate.
  - reflexivity.
Defined.

(** X9.  Without an original transaction identifier (missing, or empty) an
    event is skipped before the store is consulted: the call reports false
    and leaves the store and the callbacks alone, on any adapter. *)
Theorem X9_event_without_original_id_is_skipped {S : Type} `{!StorageAdapter.ops S}
    (config : TokenConfig.t) (subscription : Purchase.t) (w : World S) :
  truthy (Purchase.originalTransactionIdentifierIOS subscription) = false →
  result (RenewalService.checkAndHandleRenewal config subscription) w = false
  ∧ store (after (RenewalService.checkAndHandleRenewal config subscription) w) = store w
  ∧ fired (after (RenewalService.checkAndHandleRenewal config subscription) w) = fired w.
Proof.
  intros Ho. unfold RenewalService.checkAndHandleRenewal. unfold_monad.
  destruct (js_or (Purchase.transactionDate subscription)
                  (Purchase.purchaseDateIOS subscription)) as [t|];
    [destruct (truthy_value t)|]; cbn;
    (destruct (valid_date _ && printable _); cbn; [|done]);
    destruct (negb (truthy (Purchase.expirationDateIOS subscription)) || _);
    cbn; try done;
    destruct (Purchase.originalTransactionIdentifierIOS subscription) as [o|];
    cbn in *; try done; rewrite Ho; cbn; done.
Qed.

Lemma X9_event_without_original_id_is_skipped_witness :
  let w := sample_world (sample_user (Some "pro") 3 None) in
  let ev := Purchase.mk (Some "tx-2") None None (Some "com.example.pro")
                        (Some 900) None None (Some "RENEWAL") None None None None None None in
  result (RenewalService.checkAndHandleRenewal sample_config ev) w = false
  ∧ store (after (RenewalService.checkAndHandleRenewal sample_config ev) w) = store w
  ∧ fired (after (RenewalService.checkAndHandleRenewal sample_config ev) w) = fired w.
Proof.
  apply (X9_event_without_original_id_is_skipped sample_config
           (Purchase.mk (Some "tx-2") None None (Some "com.example.pro")
                        (Some 900) None None (Some "RENEWAL") None None None None None None)
           (sample_world (sample_user (Some "pro") 3 None))).
  reflexivity.
Defined.


(** ** Configuration *)

(** What [validateConfig] lets through. *)
Lemma validateConfig_None (config : Config.full) :
  Config.validateConfig config = None ↔
    TokenConfig.productId (Config.services config) ≠ ""
    ∧ 0 <= TokenConfig.freeTierLimit (Config.services config)
    ∧ 0 <= TokenConfig.proTierLimit (Config.services config)
    ∧ Config.resetPeriod config ∈ ["monthly"; "weekly"; "daily"].
Proof.
  unfold Config.validateConfig, truthy_value, Truthy_string.
  destruct (String.eqb_spec (TokenConfig.productId (Config.services config)) "")
    as [He|Hne]; cbn [negb].
  { split; [discriminate|]. by intros (? & _). }
  case_bool_decide as Hf; [split; [discriminate|]; intros (_ & ? & _); lia|].
  case_bool_decide as Hq; [split; [discriminate|]; intros (_ & _ & ? & _); lia|].
  case_bool_decide as Hr; cbn [negb].
  - split; [intros _|done]. repeat split; [done|lia|lia|done].
  - split; [discriminate|]. by intros (_ & _ & _ & ?).
Qed.

(** X10.  [createConfig] fills in only what is missing, so an explicit limit
    of 0 is kept, and [validateConfig] accepts the result exactly when
    [productId] is not empty, no limit that was given is negative and a
    reset period that was given is one of "monthly", "weekly", "daily". *)
Theorem X10_validateConfig_accepts (userConfig : Config.partial) :
  (Config.validateConfig (Config.createConfig userConfig) = None ↔
     Config.p_productId userConfig ≠ ""
     ∧ (∀ n, Config.p_freeTierLimit userConfig = Some n → 0 <= n)
     ∧ (∀ n, Config.p_proTierLimit userConfig = Some n → 0 <= n)
     ∧ (∀ r, Config.p_resetPeriod userConfig = Some r →
             r = "monthly" ∨ r = "weekly" ∨ r = "daily"))
  ∧ TokenConfig.freeTierLimit (Config.services (Config.createConfig userConfig))
    = default 5 (Config.p_freeTierLimit userConfig)
  ∧ TokenConfig.proTierLimit (Config.services (Config.createConfig userConfig))
    = default 100 (Config.p_proTierLimit userConfig).
Proof.
  split; [|done]. rewrite validateConfig_None.
  unfold Config.createConfig, nullish. cbn.
  assert (Hfree : 0 <= default Config.DEFAULT_freeTierLimit (Config.p_freeTierLimit userConfig)
                  ↔ ∀ n, Config.p_freeTierLimit userConfig = Some n → 0 <= n).
  { destruct (Config.p_freeTierLimit userConfig) as [f|]; cbn.
    - split; [by intros ? ? [= <-]|]. intros H. by apply H.
    - unfold Config.DEFAULT_freeTierLimit. split; [by intros ? ? [=]|]. lia. }
  assert (Hpro : 0 <= default Config.DEFAULT_proTierLimit (Config.p_proTierLimit userConfig)
                 ↔ ∀ n, Config.p_proTierLimit userConfig = Some n → 0 <= n).
  { destruct (Config.p_proTierLimit userConfig) as [q|]; cbn.
    - split; [by intros ? ? [= <-]|]. intros H. by apply H.
    - unfold Config.DEFAULT_proTierLimit. split; [by intros ? ? [=]|]. lia. }
  assert (Hper : default Config.DEFAULT_resetPeriod (Config.p_resetPeriod userConfig)
                   ∈ ["monthly"; "weekly"; "daily"]
                 ↔ ∀ r, Config.p_resetPeriod userConfig = Some r →
                        r = "monthly" ∨ r = "weekly" ∨ r = "daily").
  { destruct (Config.p_resetPeriod userConfig) as [r|]; cbn.
    - rewrite !elem_of_cons, elem_of_nil.
      split; [intros H ? [= <-]; tauto|]. intros H.
      destruct (H r eq_refl) as [?|[?|?]]; tauto.
    - unfold Config.DEFAULT_resetPeriod.
      split; [by intros ? ? [=]|]. intros _. by left. }
  rewrite Hfree, Hpro, Hper. done.
Qed.

Section BalanceInvariant.
Variable config : TokenConfig.t.
Hypothesis free_nonneg : 0 <= TokenConfig.freeTierLimit config.
Hypothesis pro_nonneg : 0 <= TokenConfig.proTierLimit config.
Implicit Types (w : World InMemoryAdapter.state) (u : UserData.t).

Lemma nonneg_insert w w' d u :
  balances_nonneg w → 0 <= UserData.generationsLeft u →
  InMemoryAdapter.users (store w') = <[d := u]> (InMemoryAdapter.users (store w)) →
  balances_nonneg w'.
Proof.
  intros Hinv Hu Heq d' u' Hd'. rewrite Heq in Hd'.
  destruct (decide (d = d')) as [<-|Hne].
  - rewrite lookup_insert_eq in Hd'. by injection Hd' as <-.
  - rewrite lookup_insert_ne in Hd' by done. by eapply Hinv.
Qed.

Lemma nonneg_same w w' :
  balances_nonneg w →
  InMemoryAdapter.users (store w') = InMemoryAdapter.users (store w) →
  balances_nonneg w'.
Proof. intros Hinv Heq d u Hd. rewrite Heq in Hd. by eapply Hinv. Qed.

Lemma run_call_keeps_nonneg c w :
  balances_nonneg w → balances_nonneg (run_call config c w).
Proof.
  intros Hinv. destruct c as [| | |plan| |subscription]; cbn [run_call]; unfold after.
  - rewrite mem_initializeUser. destruct (user_of w) as [u|]; [done|].
    eapply nonneg_insert; [done| |reflexivity]. done.
  - by apply useGeneration_keeps_nonneg.
  - unfold TokenManager.resetGenerations. unfold_monad. cbn.
    unfold InMemoryAdapter.updateGenerations. unfold_monad. cbn.
    destruct (InMemoryAdapter.users (store w) !! InMemoryAdapter.deviceId (store w))
      as [u|]; cbn; [|by eapply nonneg_same].
    eapply nonneg_insert; [done| |reflexivity]. done.
  - destruct (user_of w) as [u|] eqn:Hu.
    + rewrite (mem_activateSubscription config plan w u Hu).
      eapply nonneg_insert; [done| |reflexivity]. done.
    + by rewrite (mem_activateSubscription_missing config plan w Hu).
  - destruct (user_of w) as [u|] eqn:Hu.
    + rewrite (mem_cancelSubscription w u Hu).
      eapply nonneg_insert; [done| |reflexivity]. cbn.
      apply (Hinv (InMemoryAdapter.deviceId (store w))), Hu.
    + unfold TokenManager.cancelSubscription, user_of in *.
      unfold_monad. cbn. unfold InMemoryAdapter.cancelSubscription. unfold_monad.
      cbn. by rewrite Hu.
  - destruct (mem_check config subscription w) as (w' & -> & _ & _ & _ & Hgo).
    cbn [snd]. destruct (_ && _ && _).
    + destruct Hgo as (u & j & _ & _ & Husers).
      eapply nonneg_insert; [done| |exact Husers]. done.
    + destruct Hgo as [Hs _]. eapply nonneg_same; [done|by rewrite Hs].
Qed.

Lemma session_keeps_nonneg calls : ∀ w,
  balances_nonneg w → balances_nonneg (session config calls w).
Proof.
  unfold session. induction calls as [|c calls IH]; intros w Hinv; [done|].
  cbn [foldl]. apply IH. by apply run_call_keeps_nonneg.
Qed.
End BalanceInvariant.

(** X11.  With a configuration that [validateConfig] accepts, no session of
    ledger and reconciler calls (initialising, consuming, resetting,
    activating, cancelling, handling renewal events, in any order and number)
    leaves a negative balance anywhere in the store. *)
Theorem X11_no_negative_balance_in_any_session
    (config : Config.full) (calls : list Call) (w : World InMemoryAdapter.state) :
  Config.validateConfig config = None →
  balances_nonneg w →
  balances_nonneg (session (Config.services config) calls w).
Proof.
  intros (_ & Hfree & Hpro & _)%validateConfig_None Hinv.
  by apply session_keeps_nonneg.
Qed.

Lemma X11_no_negative_balance_in_any_session_witness :
  let config := Config.createConfig
                  (Config.mk_partial "com.example.pro" None (Some 0) None None
                                     true true true) in
  balances_nonneg
    (session (Config.services config)
       [CallInitializeUser; CallUseGeneration; CallActivateSubscription "pro";
        CallUseGeneration; CallCheckAndHandleRenewal
                             (sample_event (Some "tx-2") (Some 5000) None);
        CallCancelSubscription; CallResetGenerations]
       empty_world).
Proof.
  apply (X11_no_negative_balance_in_any_session
           (Config.createConfig
              (Config.mk_partial "com.example.pro" None (Some 0) None None
                                 true true true))).
  - reflexivity.
  - intros d u Hd. cbn in Hd. by rewrite lookup_empty in Hd.
Defined.


(** ** The Supabase adapter: device identifier and failures *)

Section SupabaseFailures.
Implicit Types (w : World SupabaseAdapter.state).

Lemma js_or_default_truthy (x : option string) (d : string) :
  truthy_value d = true → truthy_value (js_or_default x d) = true.
Proof.
  intros Hd. unfold js_or_default. destruct x as [a|]; [|done].
  by destruct (truthy_value a) eqn:Ha.
Qed.

Lemma truthy_value_nonempty (d : string) : truthy_value d = true ↔ d ≠ "".
Proof.
  unfold truthy_value, Truthy_string. rewrite negb_true_iff.
  by destruct (String.eqb_spec d "").
Qed.

(** [getDeviceId] in closed form: the cached identifier, or else the first
    device property that is there, or else "unknown-device"; it is cached. *)
Lemma sb_getDeviceId_any w :
  ∃ d st',
    SupabaseAdapter.getDeviceId w = (d, mkWorld st' (time w) (tick w) (fired w))
    ∧ d ≠ ""
    ∧ SupabaseAdapter.cachedDeviceId st' = Some d
    ∧ SupabaseAdapter.user st' = SupabaseAdapter.user (store w)
    ∧ SupabaseAdapter.subscriptions st' = SupabaseAdapter.subscriptions (store w)
    ∧ SupabaseAdapter.offline st' = SupabaseAdapter.offline (store w).
Proof.
  unfold SupabaseAdapter.getDeviceId. unfold_monad.
  destruct (truthy (SupabaseAdapter.cachedDeviceId (store w))) eqn:Hc.
  - destruct (SupabaseAdapter.cachedDeviceId (store w)) as [d|] eqn:Hd; [|done].
    exists d, (store w). cbn in *. rewrite Hd.
    repeat split; [by destruct w|by apply truthy_value_nonempty].
  - eexists _, _. split; [reflexivity|]. cbn.
    split; [|done]. apply truthy_value_nonempty, js_or_default_truthy. reflexivity.
Qed.

Lemma sb_offline_getUserData w :
  SupabaseAdapter.offline (store w) = true →
  ∃ w', TokenManager.getUserData w = (None, w') ∧ same_tables w w'
        ∧ time w' = time w ∧ tick w' = tick w.
Proof.
  intros Hoff. unfold TokenManager.getUserData.
  unfold mbind at 1. unfold M_bind at 1.
  cbn [StorageAdapter.getDeviceId StorageAdapter.getUserData SupabaseAdapter.adapter].
  destruct (sb_getDeviceId_any w) as (d & st' & -> & _ & _ & Hu & Hs & Ho).
  rewrite sb_getUserData. cbn [store]. rewrite Ho, Hoff.
  eexists. split; [reflexivity|]. unfold same_tables. cbn. by rewrite Ho, Hoff.
Qed.

(** An update of the [user] table through a service, with the backend out of
    reach: the device identifier is worked out, then the query fails. *)
Lemma sb_offline_update w (patch : SupabaseAdapter.user_row → SupabaseAdapter.user_row) :
  SupabaseAdapter.offline (store w) = true →
  ∃ w', (deviceId ← SupabaseAdapter.getDeviceId;
         SupabaseAdapter.update_user deviceId patch) w = (None, w')
        ∧ same_tables w w' ∧ time w' = time w ∧ tick w' = tick w.
Proof.
  intros Hoff. unfold mbind at 1. unfold M_bind at 1.
  destruct (sb_getDeviceId_any w) as (d & st' & -> & _ & _ & Hu & Hs & Ho).
  unfold SupabaseAdapter.update_user. unfold_monad. cbn. rewrite Ho, Hoff.
  eexists. split; [reflexivity|]. unfold same_tables. cbn. by rewrite Ho, Hoff.
Qed.
End SupabaseFailures.

(** X12.  [getDeviceId] of the Supabase adapter never returns an empty
    identifier (it falls back to "unknown-device"), touches no table, and is
    stable: what the first call returned is cached and returned by every
    later call, whatever the device properties say by then. *)
Theorem X12_device_identifier_is_stable (w : World SupabaseAdapter.state) :
  let d := result SupabaseAdapter.getDeviceId w in
  let w1 := after SupabaseAdapter.getDeviceId w in
  d ≠ ""
  ∧ speaks_for d w1
  ∧ same_tables w w1
  ∧ ∀ w2 : World SupabaseAdapter.state,
      SupabaseAdapter.cachedDeviceId (store w2) = SupabaseAdapter.cachedDeviceId (store w1) →
      SupabaseAdapter.getDeviceId w2 = (d, w2).
Proof.
  unfold result, after.
  destruct (sb_getDeviceId_any w) as (d & st' & -> & Hne & Hc & Hu & Hs & Ho).
  cbn [fst snd store]. split; [done|]. split; [done|].
  split; [done|]. intros w2 Hw2. apply sb_getDeviceId. split; [|done].
  by rewrite Hw2.
Qed.

Section Unreachable.
Variables (config : TokenConfig.t) (w : World SupabaseAdapter.state).
Hypothesis unreachable : SupabaseAdapter.offline (store w) = true.

Lemma sb_offline_initializeUser :
  result (TokenManager.initializeUser config) w = None
  ∧ same_tables w (after (TokenManager.initializeUser config) w).
Proof.
  unfold result, after, TokenManager.initializeUser.
  unfold mbind at 1 2. unfold M_bind at 1 2.
  cbn [StorageAdapter.getDeviceId StorageAdapter.initializeUser SupabaseAdapter.adapter].
  destruct (sb_getDeviceId_any w) as (d & st' & -> & _ & _ & Hu & Hs & Ho).
  unfold SupabaseAdapter.initializeUser. unfold_monad. cbn.
  rewrite Ho, unreachable. cbn. unfold same_tables. cbn.
  by rewrite Ho, unreachable.
Qed.

Lemma sb_offline_canGenerate :
  result TokenManager.canGenerate w = mkCheck false 0 true
  ∧ same_tables w (after TokenManager.canGenerate w).
Proof.
  unfold result, after, TokenManager.canGenerate.
  unfold mbind at 1 2. unfold M_bind at 1 2.
  by destruct (sb_offline_getUserData w unreachable) as (w' & -> & Hsame & _).
Qed.

Lemma sb_offline_useGeneration :
  result (TokenManager.useGeneration config) w = false
  ∧ same_tables w (after (TokenManager.useGeneration config) w).
Proof.
  unfold result, after, TokenManager.useGeneration.
  unfold mbind at 1 6. unfold M_bind at 1 6.
  by destruct (sb_offline_getUserData w unreachable) as (w' & -> & Hsame & _).
Qed.

Lemma sb_offline_writes plan :
  (result (TokenManager.resetGenerations config) w = false
   ∧ same_tables w (after (TokenManager.resetGenerations config) w))
  ∧ (result (TokenManager.activateSubscription config plan) w = false
     ∧ same_tables w (after (TokenManager.activateSubscription config plan) w))
  ∧ (result TokenManager.cancelSubscription w = false
     ∧ same_tables w (after TokenManager.cancelSubscription w)).
Proof.
  unfold result, after, TokenManager.resetGenerations,
    TokenManager.activateSubscription, TokenManager.cancelSubscription.
  cbn [StorageAdapter.getDeviceId StorageAdapter.updateGenerations
       StorageAdapter.updateSubscriptionPlan StorageAdapter.cancelSubscription
       SupabaseAdapter.adapter].
  unfold SupabaseAdapter.updateGenerations, SupabaseAdapter.updateSubscriptionPlan,
    SupabaseAdapter.cancelSubscription, SupabaseAdapter.update_user.
  unfold_monad.
  destruct (sb_getDeviceId_any w) as (d & st' & -> & _ & _ & Hu & Hs & Ho).
  cbn. rewrite Ho, unreachable. cbn. unfold same_tables. cbn.
  by rewrite Ho, unreachable.
Qed.

Lemma sb_offline_shouldRenew orig T (w0 : World SupabaseAdapter.state) :
  same_tables w w0 →
  result (RenewalService.shouldRenew orig T) w0 = false
  ∧ same_tables w (after (RenewalService.shouldRenew orig T) w0).
Proof.
  intros (Hu0 & Hs0 & Ho0 & Hf0).
  unfold result, after, RenewalService.shouldRenew.
  unfold mbind at 1 2 3 4. unfold M_bind at 1 2 3 4.
  cbn [StorageAdapter.getDeviceId StorageAdapter.getUserData SupabaseAdapter.adapter].
  destruct (sb_getDeviceId_any w0) as (d & st' & -> & _ & _ & Hu & Hs & Ho).
  rewrite sb_getUserData. cbn [store]. rewrite Ho, Ho0, unreachable.
  split; [done|]. unfold same_tables. cbn. by rewrite Hu, Hs, Ho.
Qed.

Lemma sb_offline_check subscription :
  result (RenewalService.checkAndHandleRenewal config subscription) w = false
  ∧ same_tables w (after (RenewalService.checkAndHandleRenewal config subscription) w).
Proof.
  assert (Hrefl : ∀ k, same_tables w (mkWorld (store w) (time w) k (fired w)))
    by (intros k; by unfold same_tables).
  unfold RenewalService.checkAndHandleRenewal. unfold_monad.
  destruct (js_or (Purchase.transactionDate subscription)
                  (Purchase.purchaseDateIOS subscription)) as [t|];
    [destruct (truthy_value t)|];
    cbn [store time tick fired];
    (destruct (valid_date _ && printable _);
     cbn [negb fst snd]; [|split; [done|apply Hrefl]]);
    (destruct (negb (truthy (Purchase.expirationDateIOS subscription)) || _);
     cbn [negb fst snd]; [|split; [done|apply Hrefl]]);
    (destruct (Purchase.originalTransactionIdentifierIOS subscription) as [o|];
     [|split; [done|apply Hrefl]]);
    (destruct (truthy_value o); cbn [negb fst snd]; [|split; [done|apply Hrefl]]);
    match goal with
    | |- context [RenewalService.shouldRenew ?o ?T ?w0] =>
        destruct (sb_offline_shouldRenew o T w0 (Hrefl _)) as [Hr Hsame];
        unfold result, after in Hr, Hsame;
        destruct (RenewalService.shouldRenew o T w0) as [r w1];
        cbn in Hr; subst r; done
    end.
Qed.
End Unreachable.

(** X13.  With the backend out of reach the services fail closed on the
    Supabase adapter: [canGenerate] refuses, and [initializeUser],
    [useGeneration], [resetGenerations], [activateSubscription],
    [cancelSubscription] and [checkAndHandleRenewal] all report failure;
    none of them changes a table or invokes a callback. *)
Theorem X13_unreachable_backend_fails_closed
    (config : TokenConfig.t) (plan : string) (subscription : Purchase.t)
    (w : World SupabaseAdapter.state) :
  SupabaseAdapter.offline (store w) = true →
  (result (TokenManager.initializeUser config) w = None
   ∧ same_tables w (after (TokenManager.initializeUser config) w))
  ∧ (result TokenManager.canGenerate w = mkCheck false 0 true
     ∧ same_tables w (after TokenManager.canGenerate w))
  ∧ (result (TokenManager.useGeneration config) w = false
     ∧ same_tables w (after (TokenManager.useGeneration config) w))
  ∧ (result (TokenManager.resetGenerations config) w = false
     ∧ same_tables w (after (TokenManager.resetGenerations config) w))
  ∧ (result (TokenManager.activateSubscription config plan) w = false
     ∧ same_tables w (after (TokenManager.activateSubscription config plan) w))
  ∧ (result TokenManager.cancelSubscription w = false
     ∧ same_tables w (after TokenManager.cancelSubscription w))
  ∧ (result (RenewalService.checkAndHandleRenewal config subscription) w = false
     ∧ same_tables w (after (RenewalService.checkAndHandleRenewal config subscription) w)).
Proof.
  intros Hoff.
  destruct (sb_offline_writes config w Hoff plan) as (H4 & H5 & H6).
  split; [by apply sb_offline_initializeUser|].
  split; [by apply sb_offline_canGenerate|].
  split; [by apply sb_offline_useGeneration|].
  split; [done|]. split; [done|]. split; [done|].
  by apply sb_offline_check.
Qed.

Lemma X13_unreachable_backend_fails_closed_witness :
  let w := mkWorld (SupabaseAdapter.mk {["device-1" := sample_row (Some "pro") 7 None]}
                                       [] true (Some "device-1") None None None 0)
                   sample_clock 0 [] in
  result TokenManager.canGenerate w = mkCheck false 0 true
  ∧ result (TokenManager.useGeneration sample_config) w = false.
Proof.
  destruct (X13_unreachable_backend_fails_closed sample_config "pro"
              (sample_event (Some "tx-2") (Some 900) None)
              (mkWorld (SupabaseAdapter.mk
                          {["device-1" := sample_row (Some "pro") 7 None]}
                          [] true (Some "device-1") None None None 0)
                       sample_clock 0 []) eq_refl)
    as (_ & [H1 _] & [H2 _] & _).
  split; assumption.
Defined.

Lemma alter_absent {V} (f : V → V) (k : string) (m : gmap string V) :
  m !! k = None → alter f k m = m.
Proof.
  intros Hk. apply map_eq. intros i. destruct (decide (k = i)) as [<-|Hne].
  - by rewrite lookup_alter_eq, Hk.
  - by rewrite lookup_alter_ne.
Qed.

(** X14.  The adapters disagree about a device without a user record.  On the
    Supabase adapter the updates behind [activateSubscription],
    [resetGenerations] and [cancelSubscription] match no row and report no
    error: the calls return true (and the activation callback is invoked)
    although the [user] table is as before and [getUserData] still finds
    nothing.  On the in-memory adapter the same calls return false. *)
Theorem X14_update_without_row_reports_success
    (config : TokenConfig.t) (plan dev : string) (w : World SupabaseAdapter.state) :
  speaks_for dev w →
  SupabaseAdapter.offline (store w) = false →
  row_of dev w = None →
  (result (TokenManager.activateSubscription config plan) w = true
   ∧ SupabaseAdapter.user (store (after (TokenManager.activateSubscription config plan) w))
     = SupabaseAdapter.user (store w)
   ∧ fired (after (TokenManager.activateSubscription config plan) w)
     = fired w ++ (if TokenConfig.onSubscriptionActivated config
                   then [SubscriptionActivated] else [])
   ∧ result TokenManager.getUserData
       (after (TokenManager.activateSubscription config plan) w) = None)
  ∧ (result (TokenManager.resetGenerations config) w = true
     ∧ SupabaseAdapter.user (store (after (TokenManager.resetGenerations config) w))
       = SupabaseAdapter.user (store w))
  ∧ (result TokenManager.cancelSubscription w = true
     ∧ SupabaseAdapter.user (store (after TokenManager.cancelSubscription w))
       = SupabaseAdapter.user (store w))
  ∧ (∀ wm : World InMemoryAdapter.state,
       user_of wm = None →
       result (TokenManager.activateSubscription config plan) wm = false
       ∧ result (TokenManager.resetGenerations config) wm = false
       ∧ result TokenManager.cancelSubscription wm = false).
Proof.
  intros Hdev Hoff Hrow. unfold row_of in Hrow.
  assert (Hst : ∀ f, SupabaseAdapter.set_user (alter f dev) (store w) = store w).
  { intros f. unfold SupabaseAdapter.set_user. rewrite (alter_absent f dev _ Hrow).
    by destruct (store w). }
  assert (Hact : TokenManager.activateSubscription config plan w =
                 (true, mkWorld (store w) (time w) (Datatypes.S (tick w))
                          (fired w ++ if TokenConfig.onSubscriptionActivated config
                                      then [SubscriptionActivated] else []))).
  { unfold TokenManager.activateSubscription.
    unfold mbind at 1. unfold M_bind at 1.
    cbn [StorageAdapter.getDeviceId StorageAdapter.updateSubscriptionPlan
         SupabaseAdapter.adapter].
    rewrite (sb_getDeviceId dev w Hdev).
    unfold SupabaseAdapter.updateSubscriptionPlan, SupabaseAdapter.update_user.
    unfold_monad. cbn. rewrite Hoff. cbn. rewrite Hst.
    destruct (TokenConfig.onSubscriptionActivated config); cbn;
      [reflexivity | by rewrite app_nil_r]. }
  split; [|split; [|split]].
  - unfold result, after. rewrite Hact. cbn [fst snd store fired].
    split; [done|]. split; [done|]. split; [done|].
    unfold TokenManager.getUserData. unfold mbind at 1. unfold M_bind at 1.
    cbn [StorageAdapter.getDeviceId StorageAdapter.getUserData SupabaseAdapter.adapter].
    rewrite (sb_getDeviceId dev) by done.
    rewrite sb_getUserData. cbn [store fst]. rewrite Hoff. unfold row_of. cbn.
    by rewrite Hrow.
  - unfold result, after, TokenManager.resetGenerations.
    unfold mbind at 1 2. unfold M_bind at 1 2.
    cbn [StorageAdapter.getDeviceId StorageAdapter.updateGenerations
         SupabaseAdapter.adapter].
    rewrite (sb_getDeviceId dev w Hdev).
    unfold SupabaseAdapter.updateGenerations, SupabaseAdapter.update_user.
    unfold_monad. cbn. rewrite Hoff. cbn. by rewrite (alter_absent _ dev _ Hrow).
  - unfold result, after, TokenManager.cancelSubscription.
    unfold mbind at 1 2. unfold M_bind at 1 2.
    cbn [StorageAdapter.getDeviceId StorageAdapter.cancelSubscription
         SupabaseAdapter.adapter].
    rewrite (sb_getDeviceId dev w Hdev).
    unfold SupabaseAdapter.cancelSubscription, SupabaseAdapter.update_user.
    unfold_monad. cbn. rewrite Hoff. cbn. by rewrite (alter_absent _ dev _ Hrow).
  - intros wm Hu. unfold user_of in Hu.
    unfold TokenManager.activateSubscription, TokenManager.resetGenerations,
      TokenManager.cancelSubscription.
    unfold_monad. cbn.
    unfold InMemoryAdapter.updateSubscriptionPlan, InMemoryAdapter.updateGenerations,
      InMemoryAdapter.cancelSubscription.
    unfold_monad. cbn. by rewrite Hu.
Qed.

Lemma X14_update_without_row_reports_success_witness :
  let w := mkWorld (SupabaseAdapter.mk ∅ [] false (Some "device-1") None None
                                       (Some "device-1") 0)
                   sample_clock 0 [] in
  result (TokenManager.activateSubscription sample_config "pro") w = true
  ∧ result TokenManager.getUserData
      (after (TokenManager.activateSubscription sample_config "pro") w) = None.
Proof.
  destruct (X14_update_without_row_reports_success sample_config "pro" "device-1"
              (mkWorld (SupabaseAdapter.mk ∅ [] false (Some "device-1") None None
                                           (Some "device-1") 0)
                       sample_clock 0 []))
    as ((H1 & _ & _ & H2) & _).
  - split; [reflexivity | discriminate].
  - reflexivity.
  - reflexivity.
  - split; assumption.
Defined.

(** ** The in-memory adapter: one device at a time *)

(** X15.  A write of the in-memory adapter that is addressed to one device
    (creating the user, setting the balance, the plan or the renewal stamp,
    cancelling, upserting a transaction) leaves the user record and the
    transaction records of every other device as they were. *)
Theorem X15_writes_touch_one_device
    (d d' : string) (wr : Write) (w : World InMemoryAdapter.state) :
  d ≠ d' →
  InMemoryAdapter.users (store (run_write d wr w)) !! d'
    = InMemoryAdapter.users (store w) !! d'
  ∧ subs_of d' (run_write d wr w) = subs_of d' w.
Proof.
  intros Hne. unfold subs_of.
  destruct wr as [freeLimit|count|plan generations|date| |purchase];
    cbn [run_write]; unfold after.
  1-5:
    unfold InMemoryAdapter.initializeUser, InMemoryAdapter.updateGenerations,
      InMemoryAdapter.updateSubscriptionPlan, InMemoryAdapter.updateLastRenewal,
      InMemoryAdapter.cancelSubscription;
    unfold_monad; cbn;
    destruct (InMemoryAdapter.users (store w) !! d); cbn;
    rewrite ?lookup_insert_ne by done; done.
  destruct (mem_upsert d purchase w) as (k & sd & -> & _). cbn.
  by rewrite lookup_insert_ne.
Qed.

Lemma X15_writes_touch_one_device_witness :
  let w := sample_world (sample_user (Some "pro") 3 None) in
  InMemoryAdapter.users (store (run_write "device-2" (WriteInitializeUser 5) w))
    !! "device-1"
  = InMemoryAdapter.users (store w) !! "device-1"
  ∧ subs_of "device-1" (run_write "device-2" (WriteInitializeUser 5) w)
    = subs_of "device-1" w.
Proof.
  apply (X15_writes_touch_one_device "device-2" "device-1" (WriteInitializeUser 5)
           (sample_world (sample_user (Some "pro") 3 None))).
  discriminate.
Defined.

(** ** Transaction records of the in-memory adapter *)

Section Records.
Implicit Types (l : list SubscriptionData.t) (sd sub : SubscriptionData.t)
               (w : World InMemoryAdapter.state).

Lemma mem_getActiveSubscription d w :
  InMemoryAdapter.getActiveSubscription d w =
    (snd <$> list_find (fun sub =>
                          InMemoryAdapter.is_current (time w (tick w)) sub = true)
                       (subs_of d w),
     mkWorld (store w) (time w) (Datatypes.S (tick w)) (fired w)).
Proof. reflexivity. Qed.

Lemma is_current_spec now sub :
  InMemoryAdapter.is_current now sub = true ↔
    SubscriptionData.isActive sub = true
    ∧ ∀ e, SubscriptionData.expirationDate sub = Some e → now <= e.
Proof.
  unfold InMemoryAdapter.is_current.
  destruct (SubscriptionData.isActive sub); cbn; [|split; [done|by intros [? _]]].
  destruct (SubscriptionData.expirationDate sub) as [e|].
  - case_bool_decide.
    + split; [done|]. intros [_ H']. specialize (H' e eq_refl). lia.
    + split; [|done]. intros _. split; [done|]. intros ? [= <-]. lia.
  - split; [|done]. intros _. split; [done|]. by intros ? [=].
Qed.

(** The record [upsertSubscription] writes: flagged active and not cancelled,
    with the event's expiration date when it has one. *)
Lemma mem_upsert_record deviceId purchase w :
  ∃ (k : nat) sd,
    InMemoryAdapter.upsertSubscription deviceId purchase w =
      (true,
       mkWorld
         (InMemoryAdapter.set_subscriptions
            <[deviceId := upsert_into sd (subs_of deviceId w)]> (store w))
         (time w) (tick w + k)%nat (fired w))
    ∧ SubscriptionData.isActive sd = true
    ∧ SubscriptionData.isCancelled sd = false
    ∧ SubscriptionData.expirationDate sd
      = date_if_truthy (Purchase.expirationDateIOS purchase).
Proof.
  unfold InMemoryAdapter.upsertSubscription, upsert_into, subs_of. unfold_monad.
  destruct (js_or (Purchase.transactionId purchase) (Purchase.id purchase))
    as [s|]; [destruct (truthy_value s) eqn:Hs|];
    destruct (truthy (Purchase.transactionDate purchase)); cbn;
    match goal with |- context [ _ ++ [?x] ] => eexists _, x end;
    (split;
     [ first
         [ rewrite Nat.add_0_r; reflexivity
         | replace (Datatypes.S (tick w)) with (tick w + 1)%nat by lia; reflexivity
         | replace (Datatypes.S (Datatypes.S (tick w))) with (tick w + 2)%nat by lia;
           reflexivity ]
     | done ]).
Qed.

Lemma upsert_into_elems sd l x :
  x ∈ upsert_into sd l → x = sd ∨ x ∈ l.
Proof.
  unfold upsert_into.
  destruct (findIndex (SubscriptionData.transactionId sd) l) as [i|].
  - intros (j & Hj)%list_elem_of_lookup_1.
    destruct (decide (i = j)) as [<-|Hne].
    + destruct (decide (i < length l)%nat).
      * rewrite list_lookup_insert_eq in Hj by done. left. congruence.
      * rewrite list_insert_ge in Hj by lia. right. by eapply list_elem_of_lookup_2.
    + rewrite list_lookup_insert_ne in Hj by done. right.
      by eapply list_elem_of_lookup_2.
  - intros [?|Hx]%elem_of_app; [auto|].
    apply list_elem_of_singleton in Hx as ->. auto.
Qed.

(** [markSubscriptionCancelled], entry by entry. *)
Lemma mem_mark entries tid : ∀ w,
  ∃ (b : bool) subs',
    InMemoryAdapter.markSubscriptionCancelled entries tid w =
      (b, mkWorld (InMemoryAdapter.mk (InMemoryAdapter.users (store w)) subs'
                                      (InMemoryAdapter.deviceId (store w)))
                  (time w) (tick w) (fired w))
    ∧ (b = true ↔ ∃ d, d ∈ entries ∧ tid ∈ stored_ids d w)
    ∧ if b
      then ∃ d i sub,
             d ∈ entries ∧ subs_of d w !! i = Some sub
             ∧ SubscriptionData.transactionId sub = tid
             ∧ subs' = <[d := alter InMemoryAdapter.cancel_record i (subs_of d w)]>
                         (InMemoryAdapter.subscriptions (store w))
      else subs' = InMemoryAdapter.subscriptions (store w).
Proof.
  induction entries as [|d entries IH]; intros w.
  - exists false, (InMemoryAdapter.subscriptions (store w)). cbn.
    split; [by destruct w as [[] ? ? ?]|]. split; [|done].
    split; [done|]. by intros (? & ?%elem_of_nil & _).
  - cbn [InMemoryAdapter.markSubscriptionCancelled]. unfold_monad.
    cbn [store time tick fired]. fold (subs_of d w).
    destruct (findIndex tid (subs_of d w)) as [i|] eqn:Hf.
    + pose proof (findIndex_Some _ _ _ Hf) as Hi.
      rewrite list_lookup_fmap in Hi.
      destruct (subs_of d w !! i) as [sub|] eqn:Hsub; [|done].
      injection Hi as Hi.
      eexists true, _. split; [reflexivity|]. split.
      * split; [intros _|done]. exists d. split; [by left|].
        unfold stored_ids. fold (subs_of d w).
        apply list_elem_of_fmap. exists sub. split; [done|].
        by eapply list_elem_of_lookup_2.
      * exists d, i, sub. split; [by left|]. done.
    + destruct (IH w) as (b & subs' & -> & Hiff & Hcase).
      exists b, subs'. split; [reflexivity|]. split.
      * rewrite Hiff. split.
        -- intros (d0 & Hd0 & Hin). exists d0. split; [by right|done].
        -- intros (d0 & [->|Hd0]%elem_of_cons & Hin).
           ++ apply findIndex_None in Hf. done.
           ++ eauto.
      * destruct b; [|done].
        destruct Hcase as (d0 & j & sub & Hd0 & ?). exists d0, j, sub.
        split; [by right|done].
Qed.

Lemma alter_cancel_ids i l :
  SubscriptionData.transactionId <$> alter InMemoryAdapter.cancel_record i l
  = SubscriptionData.transactionId <$> l.
Proof.
  revert i. induction l as [|x l IH]; intros [|i]; cbn; [done..| |].
  - done.
  - f_equal. apply IH.
Qed.

Lemma alter_cancel_elems i l x :
  x ∈ alter InMemoryAdapter.cancel_record i l →
  x ∈ l ∨ ∃ sub, sub ∈ l ∧ x = InMemoryAdapter.cancel_record sub.
Proof.
  revert i. induction l as [|y l IH]; intros [|i]; cbn.
  - by intros ?%elem_of_nil.
  - by intros ?%elem_of_nil.
  - intros [->|Hx]%elem_of_cons.
    + right. exists y. split; [by left|done].
    + left. by right.
  - intros [->|Hx]%elem_of_cons.
    + left. by left.
    + destruct (IH i Hx) as [?|(sub & ? & ->)].
      * left. by right.
      * right. exists sub. split; [by right|done].
Qed.
End Records.

(** X16.  A purchase that is saved and has not expired at the reading of
    the clock [hasActiveSubscription] then takes counts as an active
    subscription: [saveSubscription] reports success and
    [hasActiveSubscription] answers true, whatever was stored before, also
    when the same transaction had been marked cancelled. *)
Theorem X16_saved_live_purchase_is_active
    (purchase : Purchase.t) (w : World InMemoryAdapter.state) :
  let w1 := after (SubscriptionService.saveSubscription purchase) w in
  live purchase (time w1 (tick w1)) = true →
  result (SubscriptionService.saveSubscription purchase) w = true
  ∧ result SubscriptionService.hasActiveSubscription w1 = true.
Proof.
  intros w1. subst w1.
  unfold result, after, SubscriptionService.saveSubscription,
    SubscriptionService.hasActiveSubscription,
    SubscriptionService.getActiveSubscription.
  unfold_monad.
  cbn [StorageAdapter.getDeviceId StorageAdapter.upsertSubscription
       StorageAdapter.getActiveSubscription InMemoryAdapter.adapter
       InMemoryAdapter.queries].
  unfold InMemoryAdapter.getDeviceId. unfold_monad.
  destruct (mem_upsert_record (InMemoryAdapter.deviceId (store w)) purchase w)
    as (k & sd & -> & Hact & Hcan & Hexp).
  cbn [fst snd store time tick]. intros Hlive. split; [done|].
  rewrite mem_getActiveSubscription. cbn [fst snd store time tick fired].
  set (now := time w (tick w + k)%nat) in *.
  set (l := subs_of _ _).
  assert (Hin : sd ∈ l).
  { subst l. unfold subs_of. cbn. rewrite lookup_insert_eq. cbn.
    apply upsert_into_elem. }
  assert (Hcur : InMemoryAdapter.is_current now sd = true).
  { apply is_current_spec. split; [done|]. intros e He.
    unfold live in Hlive. rewrite Hexp in He. unfold date_if_truthy in He.
    destruct (truthy (Purchase.expirationDateIOS purchase)); [|done].
    rewrite He in Hlive. cbn in Hlive. apply bool_decide_eq_true in Hlive. lia. }
  destruct (list_find_elem_of
              (fun sub => InMemoryAdapter.is_current now sub = true) l sd Hin Hcur)
    as [[i x] Hfind].
  rewrite Hfind. cbn. apply list_find_Some in Hfind as (_ & Hx & _).
  by apply is_current_spec in Hx as [? _].
Qed.

Lemma X16_saved_live_purchase_is_active_witness :
  let ev := sample_event (Some "tx-2") (Some 900) (Some 5000) in
  result (SubscriptionService.saveSubscription ev) empty_world = true
  ∧ result SubscriptionService.hasActiveSubscription
      (after (SubscriptionService.saveSubscription ev) empty_world) = true.
Proof.
  apply (X16_saved_live_purchase_is_active
           (sample_event (Some "tx-2") (Some 900) (Some 5000)) empty_world).
  vm_compute. reflexivity.
Defined.

Section Bookkeeping.
Implicit Types (w : World InMemoryAdapter.state).

Lemma run_booking_keeps_invariant b w :
  active_not_cancelled w → active_not_cancelled (run_booking b w).
Proof.
  intros Hinv. destruct b as [d purchase|entries tid]; cbn [run_booking]; unfold after.
  - destruct (mem_upsert_record d purchase w) as (k & sd & -> & Hact & Hcan & _).
    intros d' sub Hin Ha. unfold subs_of in Hin. cbn in Hin.
    destruct (decide (d = d')) as [<-|Hne].
    + rewrite lookup_insert_eq in Hin. cbn in Hin.
      apply upsert_into_elems in Hin as [->|Hin]; [done|]. by eapply Hinv.
    + rewrite lookup_insert_ne in Hin by done. by eapply Hinv.
  - destruct (mem_mark entries tid w) as (r & subs' & -> & _ & Hcase).
    intros d' sub Hin Ha. unfold subs_of in Hin. cbn in Hin.
    destruct r; [|subst subs'; by eapply Hinv].
    destruct Hcase as (d & i & old & _ & _ & _ & ->).
    destruct (decide (d = d')) as [<-|Hne].
    + rewrite lookup_insert_eq in Hin. cbn in Hin.
      apply alter_cancel_elems in Hin as [Hin|(x & _ & ->)]; [by eapply Hinv|].
      done.
    + rewrite lookup_insert_ne in Hin by done. by eapply Hinv.
Qed.

Lemma bookkeeping_keeps_invariant bs : ∀ w,
  active_not_cancelled w → active_not_cancelled (bookkeeping bs w).
Proof.
  unfold bookkeeping. induction bs as [|b bs IH]; intros w Hinv; [done|].
  cbn [foldl]. apply IH. by apply run_booking_keeps_invariant.
Qed.
End Bookkeeping.

(** X17.  Starting from a store without transaction records, whatever
    transactions are upserted and marked cancelled, in any order, the record
    [getActiveSubscription] returns is one of the device's stored records,
    flagged active, not cancelled, and not expired at the time of the call. *)
Theorem X17_active_subscription_is_never_cancelled
    (bs : list Booking) (w : World InMemoryAdapter.state)
    (d : string) (sub : SubscriptionData.t) :
  InMemoryAdapter.subscriptions (store w) = ∅ →
  let w' := bookkeeping bs w in
  result (InMemoryAdapter.getActiveSubscription d) w' = Some sub →
  sub ∈ subs_of d w'
  ∧ SubscriptionData.isActive sub = true
  ∧ SubscriptionData.isCancelled sub = false
  ∧ ∀ e, SubscriptionData.expirationDate sub = Some e → time w' (tick w') <= e.
Proof.
  intros Hempty w'. unfold result. rewrite mem_getActiveSubscription. cbn [fst].
  intros Hres.
  destruct (list_find _ (subs_of d w')) as [[i x]|] eqn:Hfind; [|done].
  injection Hres as ->.
  apply list_find_Some in Hfind as (Hi & Hcur & _).
  apply is_current_spec in Hcur as [Hact Hexp].
  assert (Hin : sub ∈ subs_of d w') by by eapply list_elem_of_lookup_2.
  split; [done|]. split; [done|]. split; [|done].
  eapply (bookkeeping_keeps_invariant bs w); [|exact Hin|done].
  intros d0 s0 Hs0. unfold subs_of in Hs0. rewrite Hempty, lookup_empty in Hs0.
  by apply elem_of_nil in Hs0.
Qed.

Lemma X17_active_subscription_is_never_cancelled_witness :
  let ev := sample_event (Some "tx-2") (Some 900) (Some 5000) in
  let bs := [BookUpsert "device-1" ev; BookCancel ["device-1"] "tx-2";
             BookUpsert "device-1" ev] in
  ∃ sub, result (InMemoryAdapter.getActiveSubscription "device-1")
           (bookkeeping bs empty_world) = Some sub
         ∧ SubscriptionData.isActive sub = true
         ∧ SubscriptionData.isCancelled sub = false.
Proof.
  intros ev bs. eexists. split; [vm_compute; reflexivity|].
  edestruct (X17_active_subscription_is_never_cancelled bs empty_world "device-1")
    as (_ & Ha & Hc & _); [reflexivity | vm_compute; reflexivity |].
  split; [exact Ha | exact Hc].
Defined.

(** X18.  [markSubscriptionCancelled] returns true exactly when the
    identifier is stored under one of the devices it walks through.  Then
    one record with that identifier is flagged cancelled and inactive; when
    it returns false the world is untouched.  Either way user records are
    left alone and every device keeps its transaction identifiers, in
    number and order. *)
Theorem X18_markSubscriptionCancelled_flags_one_record
    (entries : list string) (transactionId : string)
    (w : World InMemoryAdapter.state) :
  let found := result (InMemoryAdapter.markSubscriptionCancelled entries transactionId) w in
  let w' := after (InMemoryAdapter.markSubscriptionCancelled entries transactionId) w in
  (found = true ↔ ∃ d, d ∈ entries ∧ transactionId ∈ stored_ids d w)
  ∧ (found = false → w' = w)
  ∧ (found = true →
     ∃ d sub, d ∈ entries ∧ sub ∈ subs_of d w'
              ∧ SubscriptionData.transactionId sub = transactionId
              ∧ SubscriptionData.isCancelled sub = true
              ∧ SubscriptionData.isActive sub = false)
  ∧ InMemoryAdapter.users (store w') = InMemoryAdapter.users (store w)
  ∧ ∀ d, stored_ids d w' = stored_ids d w.
Proof.
  unfold result, after.
  destruct (mem_mark entries transactionId w) as (b & subs' & -> & Hiff & Hcase).
  cbn [fst snd]. split; [done|]. split; [|split; [|split; [done|]]].
  - intros ->. subst subs'. by destruct w as [[] ? ? ?].
  - intros ->. destruct Hcase as (d & i & sub & Hd & Hi & Hid & ->).
    exists d, (InMemoryAdapter.cancel_record sub). split; [done|].
    split; [|done]. unfold subs_of at 1. cbn. rewrite lookup_insert_eq. cbn.
    eapply list_elem_of_lookup_2. rewrite list_lookup_alter_eq, Hi. done.
  - intros d. unfold stored_ids. cbn. destruct b; [|by subst subs'].
    destruct Hcase as (d0 & i & sub & _ & _ & _ & ->).
    destruct (decide (d0 = d)) as [<-|Hne].
    + rewrite lookup_insert_eq. cbn. apply alter_cancel_ids.
    + by rewrite lookup_insert_ne.
Qed.

Lemma X18_markSubscriptionCancelled_flags_one_record_witness :
  let ev := sample_event (Some "tx-2") (Some 900) None in
  let w := after (InMemoryAdapter.upsertSubscription "device-1" ev) empty_world in
  result (InMemoryAdapter.markSubscriptionCancelled ["device-1"] "tx-2") w = true
  ∧ result (InMemoryAdapter.markSubscriptionCancelled ["device-1"] "tx-9") w = false
  ∧ after (InMemoryAdapter.markSubscriptionCancelled ["device-1"] "tx-9") w = w.
Proof.
  intros ev w.
  destruct (X18_markSubscriptionCancelled_flags_one_record ["device-1"] "tx-2" w)
    as (Hiff & _).
  destruct (X18_markSubscriptionCancelled_flags_one_record ["device-1"] "tx-9" w)
    as (_ & Hsame & _).
  split; [|split].
  - apply Hiff. exists "device-1". split; [by left|]. vm_compute. by left.
  - reflexivity.
  - apply Hsame. reflexivity.
Defined.

(** X19.  What [getActiveSubscription] returns is shown as active: in a store
    built by upserting and cancelling transactions, [getSubscriptionStatus]
    of the record returned is never "Cancelled" nor "Not subscribed"; it is
    "Expired" only when the record expires between the two readings of the
    clock, and "Active" or "Active (Auto-renewing)" when the clock has not
    moved past the reading [getActiveSubscription] took. *)
Theorem X19_active_subscription_is_shown_active
    (bs : list Booking) (w : World InMemoryAdapter.state)
    (d : string) (sub : SubscriptionData.t) :
  InMemoryAdapter.subscriptions (store w) = ∅ →
  let w' := bookkeeping bs w in
  result (InMemoryAdapter.getActiveSubscription d) w' = Some sub →
  let w'' := after (InMemoryAdapter.getActiveSubscription d) w' in
  let status := result (SubscriptionService.getSubscriptionStatus (Some sub)) w'' in
  status ≠ "Cancelled" ∧ status ≠ "Not subscribed"
  ∧ (status = "Expired" →
     ∃ e, SubscriptionData.expirationDate sub = Some e
          ∧ time w' (tick w') <= e < time w' (Datatypes.S (tick w')))
  ∧ (time w' (Datatypes.S (tick w')) <= time w' (tick w') →
     status = "Active" ∨ status = "Active (Auto-renewing)").
Proof.
  intros Hempty w'. unfold result, after. rewrite mem_getActiveSubscription.
  cbn [fst snd]. intros Hres.
  destruct (list_find _ (subs_of d w')) as [[i x]|] eqn:Hfind; [|done].
  injection Hres as ->.
  apply list_find_Some in Hfind as (Hi & Hcur & _).
  apply is_current_spec in Hcur as [Hact Hexp].
  assert (Hin : sub ∈ subs_of d w') by by eapply list_elem_of_lookup_2.
  assert (Hcan : SubscriptionData.isCancelled sub = false).
  { eapply (bookkeeping_keeps_invariant bs w); [|exact Hin|done].
    intros d0 s0 Hs0. unfold subs_of in Hs0. rewrite Hempty, lookup_empty in Hs0.
    by apply elem_of_nil in Hs0. }
  unfold SubscriptionService.getSubscriptionStatus,
    SubscriptionService.isSubscriptionExpired.
  rewrite Hact, Hcan. cbn [negb orb].
  destruct (SubscriptionData.expirationDate sub) as [e|]; unfold_monad;
    cbn [fst snd time tick].
  - specialize (Hexp e eq_refl). case_bool_decide.
    + cbn. split; [done|]. split; [done|]. split; [|lia].
      intros _. exists e. split; [done|lia].
    + destruct (SubscriptionData.isAutoRenewing sub); cbn;
        (split; [done|]; split; [done|]; split; [done|]; auto).
  - destruct (SubscriptionData.isAutoRenewing sub); cbn;
      (split; [done|]; split; [done|]; split; [done|]; auto).
Qed.

Lemma X19_active_subscription_is_shown_active_witness :
  let ev := sample_event (Some "tx-2") (Some 900) (Some 5000) in
  let bs := [BookUpsert "device-1" ev; BookCancel ["device-1"] "tx-2";
             BookUpsert "device-1" ev] in
  let w' := bookkeeping bs empty_world in
  ∃ sub, result (InMemoryAdapter.getActiveSubscription "device-1") w' = Some sub
         ∧ result (SubscriptionService.getSubscriptionStatus (Some sub))
             (after (InMemoryAdapter.getActiveSubscription "device-1") w')
           ≠ "Cancelled".
Proof.
  intros ev bs w'. eexists. split; [vm_compute; reflexivity|].
  edestruct (X19_active_subscription_is_shown_active bs empty_world "device-1")
    as (Hc & _); [reflexivity | vm_compute; reflexivity |].
  exact Hc.
Defined.

(** X20.  A mock date overrides the clock and is undone by [clearMockDate]:
    while it is set, [getCurrentTimestamp], [isExpired] and [isFuture] answer
    from the mock date and do not read the clock; after [clearMockDate] they
    read the clock again.  In any state a date is never both expired and in
    the future, and the current instant itself is neither. *)
Theorem X20_mock_date_overrides_clock (mock date : Z) (w : World (option Z)) :
  let wm := after (dateUtils.setMockDate (Some mock)) w in
  let wc := after dateUtils.clearMockDate wm in
  dateUtils.getCurrentTimestamp wm = (mock, wm)
  ∧ dateUtils.isExpired date wm = (bool_decide (date < mock), wm)
  ∧ dateUtils.isFuture date wm = (bool_decide (mock < date), wm)
  ∧ result dateUtils.getCurrentTimestamp wc = time w (tick w)
  ∧ result (dateUtils.isExpired date) wc = bool_decide (date < time w (tick w))
  ∧ (∀ w0 : World (option Z),
       ¬ (result (dateUtils.isExpired date) w0 = true
          ∧ result (dateUtils.isFuture date) w0 = true))
  ∧ (∀ w0 : World (option Z),
       let now := result dateUtils.getCurrentTimestamp w0 in
       result (dateUtils.isExpired now) w0 = false
       ∧ result (dateUtils.isFuture now) w0 = false).
Proof.
  unfold dateUtils.clearMockDate, dateUtils.isExpired, dateUtils.isFuture,
    dateUtils.getCurrentTimestamp, dateUtils.getCurrentDate, dateUtils.setMockDate.
  unfold_monad. cbn.
  split; [done|]. split; [done|]. split; [done|]. split; [done|]. split; [done|].
  split.
  - intros w0 [H1 H2]. destruct (store w0); cbn in *;
      apply bool_decide_eq_true in H1, H2; lia.
  - intros w0. destruct (store w0); cbn;
      split; apply bool_decide_eq_false_2; lia.
Qed.

Section PurchaseHandler.
Context {A : Type} `{!StorageAdapter.ops A} (config : TokenConfig.t).
Implicit Types (w : World (useTokenSubscription.state A)) (purchase : Purchase.t).

Lemma onPurchaseSuccess_seen purchase w :
  handled_id purchase ∈ useTokenSubscription.processedTransactions (store w) →
  useTokenSubscription.onPurchaseSuccess config purchase w = (tt, w).
Proof.
  intros Hin. unfold useTokenSubscription.onPurchaseSuccess. unfold_monad.
  fold (handled_id purchase). rewrite bool_decide_eq_true_2 by done.
  by destruct w.
Qed.

(** The handler on a purchase it has not seen, step by step. *)
Lemma onPurchaseSuccess_fresh purchase w :
  handled_id purchase ∉ useTokenSubscription.processedTransactions (store w) →
  useTokenSubscription.onPurchaseSuccess config purchase w =
    let processed :=
      {[handled_id purchase]} ∪ useTokenSubscription.processedTransactions (store w) in
    let done_ := useTokenSubscription.finished (store w) ++ [purchase] in
    if negb (printable (Purchase.expirationDateIOS purchase))
    then (tt, mkWorld (useTokenSubscription.mk
                         (useTokenSubscription.adapter (store w)) processed
                         (useTokenSubscription.userData (store w)) true
                         (useTokenSubscription.finished (store w)))
                      (time w) (Datatypes.S (tick w)) (fired w))
    else if negb (live purchase (time w (tick w)))
    then (tt, mkWorld (useTokenSubscription.mk
                         (useTokenSubscription.adapter (store w)) processed
                         (useTokenSubscription.userData (store w)) true done_)
                      (time w) (Datatypes.S (tick w)) (fired w))
    else
      let (_, w1) :=
        SubscriptionService.saveSubscription purchase
          (mkWorld (useTokenSubscription.adapter (store w))
                   (time w) (Datatypes.S (tick w)) (fired w)) in
      if is_initial_purchase purchase
      then
        let (_, w2) := TokenManager.activateSubscription config "pro" w1 in
        let (data, w3) := TokenManager.getUserData w2 in
        (tt, mkWorld (useTokenSubscription.mk
                        (store w3) processed data
                        match data with
                        | Some data =>
                            bool_decide (UserData.subscriptionPlan data ≠ None)
                            && bool_decide (UserData.subscriptionPlan data ≠ Some "")
                        | None => true
                        end
                        done_)
                     (time w3) (tick w3) (fired w3))
      else
        (tt, mkWorld (useTokenSubscription.mk
                        (store w1) processed
                        (useTokenSubscription.userData (store w)) true done_)
                     (time w1) (tick w1) (fired w1)).
Proof.
  intros Hin.
  unfold useTokenSubscription.onPurchaseSuccess,
    useTokenSubscription.setLocalIsSubscribed,
    useTokenSubscription.finishTransaction.
  unfold_monad.
  fold (handled_id purchase) (handled_reason purchase).
  fold (is_initial_purchase purchase).
  rewrite bool_decide_eq_false_2 by done.
  cbn [fst snd store time tick fired useTokenSubscription.adapter
       useTokenSubscription.processedTransactions useTokenSubscription.userData
       useTokenSubscription.localIsSubscribed useTokenSubscription.finished].
  destruct (negb (printable (Purchase.expirationDateIOS purchase))); [reflexivity|].
  fold (live purchase (time w (tick w))).
  destruct (negb (live purchase (time w (tick w)))); [reflexivity|].
  unfold useTokenSubscription.on_adapter at 1. cbn [fst snd store time tick fired useTokenSubscription.adapter].
  destruct (SubscriptionService.saveSubscription purchase _) as [saved [s1 t1 k1 f1]].
  cbn [fst snd store time tick fired useTokenSubscription.adapter
       useTokenSubscription.processedTransactions useTokenSubscription.userData
       useTokenSubscription.localIsSubscribed useTokenSubscription.finished].
  destruct (is_initial_purchase purchase); [|reflexivity].
  unfold useTokenSubscription.refreshUserData, useTokenSubscription.on_adapter,
    useTokenSubscription.setUserData, useTokenSubscription.setLocalIsSubscribed.
  unfold_monad.
  cbn [fst snd store time tick fired useTokenSubscription.adapter
       useTokenSubscription.processedTransactions useTokenSubscription.userData
       useTokenSubscription.localIsSubscribed useTokenSubscription.finished].
  destruct (TokenManager.activateSubscription config "pro" _) as [updated [s2 t2 k2 f2]].
  cbn [fst snd store time tick fired useTokenSubscription.adapter
       useTokenSubscription.processedTransactions useTokenSubscription.userData
       useTokenSubscription.localIsSubscribed useTokenSubscription.finished].
  destruct (TokenManager.getUserData _) as [data [s3 t3 k3 f3]].
  destruct data; reflexivity.
Qed.

(** A purchase seen for the first time is filed as processed; it is handed
    to [finishTransaction] unless its expiration date cannot be printed. *)
Lemma onPurchaseSuccess_books purchase w :
  handled_id purchase ∉ useTokenSubscription.processedTransactions (store w) →
  let w' := after (useTokenSubscription.onPurchaseSuccess config purchase) w in
  useTokenSubscription.processedTransactions (store w')
    = {[handled_id purchase]} ∪ useTokenSubscription.processedTransactions (store w)
  ∧ useTokenSubscription.finished (store w')
    = if printable (Purchase.expirationDateIOS purchase)
      then useTokenSubscription.finished (store w) ++ [purchase]
      else useTokenSubscription.finished (store w).
Proof.
  intros Hin. unfold after. rewrite onPurchaseSuccess_fresh by done. cbn zeta.
  destruct (printable (Purchase.expirationDateIOS purchase)); cbn [negb]; [|done].
  destruct (negb (live purchase (time w (tick w)))); [done|].
  destruct (SubscriptionService.saveSubscription purchase _) as [saved w1].
  destruct (is_initial_purchase purchase); [|done].
  destruct (TokenManager.activateSubscription config "pro" w1) as [updated w2].
  by destruct (TokenManager.getUserData w2) as [data w3].
Qed.

Lemma onPurchaseSuccess_keeps_finished_once purchase w :
  finished_once w →
  let w' := after (useTokenSubscription.onPurchaseSuccess config purchase) w in
  finished_once w'
  ∧ (∀ x, x ∈ useTokenSubscription.processedTransactions (store w')
          ↔ x = handled_id purchase
            ∨ x ∈ useTokenSubscription.processedTransactions (store w))
  ∧ (printable (Purchase.expirationDateIOS purchase) = true →
     all_finished w → all_finished w').
Proof.
  intros [Hnd Hsub] w'. subst w'.
  destruct (decide (handled_id purchase
                    ∈ useTokenSubscription.processedTransactions (store w)))
    as [Hin|Hin].
  - unfold after. rewrite onPurchaseSuccess_seen by done. cbn [snd].
    split; [done|]. split; [|done]. intros x. split; [auto|]. by intros [->|?].
  - destruct (onPurchaseSuccess_books purchase w Hin) as [Hp Hf].
    unfold finished_once, all_finished, finished_ids. rewrite Hf, Hp.
    split; [split|split].
    + destruct (printable (Purchase.expirationDateIOS purchase)); [|done].
      rewrite fmap_app. cbn.
      apply NoDup_app. split; [done|]. split; [|apply NoDup_singleton].
      intros x Hx ->%list_elem_of_singleton. by apply Hin, Hsub.
    + intros x. rewrite elem_of_union, elem_of_singleton.
      destruct (printable (Purchase.expirationDateIOS purchase)).
      * rewrite fmap_app. cbn. rewrite elem_of_app, list_elem_of_singleton.
        intros [?|?]; [right; by apply Hsub|by left].
      * intros ?. right. by apply Hsub.
    + intros x. rewrite elem_of_union, elem_of_singleton. tauto.
    + intros -> Hall x. rewrite fmap_app. cbn.
      rewrite elem_of_union, elem_of_singleton, elem_of_app, list_elem_of_singleton.
      intros [?|?]; [by right|left; by apply Hall].
Qed.

Lemma deliveries_keep_finished_once purchases : ∀ w,
  finished_once w →
  finished_once (deliveries config purchases w)
  ∧ (∀ x, x ∈ useTokenSubscription.processedTransactions
                (store (deliveries config purchases w))
          ↔ x ∈ handled_id <$> purchases
            ∨ x ∈ useTokenSubscription.processedTransactions (store w))
  ∧ (Forall (fun p => printable (Purchase.expirationDateIOS p) = true) purchases →
     all_finished w → all_finished (deliveries config purchases w)).
Proof.
  unfold deliveries.
  induction purchases as [|p ps IH]; intros w Hinv; cbn [foldl fmap list_fmap].
  - split; [done|]. split; [|done]. intros x. rewrite elem_of_nil. tauto.
  - destruct (onPurchaseSuccess_keeps_finished_once p w Hinv) as (Hinv' & Hp & Hall).
    destruct (IH _ Hinv') as (Hfin & Hq & Hall'). split; [done|]. split.
    + intros x. rewrite Hq, Hp, elem_of_cons. tauto.
    + intros [Hpr Hrest]%Forall_cons Hw. apply Hall'; [done|]. by apply Hall.
Qed.
End PurchaseHandler.

(** X21.  A purchase is handled at most once: after the handler has run on a
    purchase, a second delivery under the same transaction identifier
    (retried by the store, or replayed at the next launch within the same
    mount) changes nothing at all, on any adapter. *)
Theorem X21_purchase_is_handled_once {A : Type} `{!StorageAdapter.ops A}
    (config : TokenConfig.t) (purchase again : Purchase.t)
    (w : World (useTokenSubscription.state A)) :
  handled_id again = handled_id purchase →
  let w1 := after (useTokenSubscription.onPurchaseSuccess config purchase) w in
  useTokenSubscription.onPurchaseSuccess config again w1 = (tt, w1).
Proof.
  intros Hid w1. apply onPurchaseSuccess_seen. rewrite Hid. subst w1.
  destruct (decide (handled_id purchase
                    ∈ useTokenSubscription.processedTransactions (store w)))
    as [Hin|Hin].
  - unfold after. by rewrite onPurchaseSuccess_seen.
  - destruct (onPurchaseSuccess_books config purchase w Hin) as [-> _].
    apply elem_of_union_l, elem_of_singleton. reflexivity.
Qed.

Lemma X21_purchase_is_handled_once_witness :
  let first := sample_event (Some "tx-2") (Some 900) None in
  let again := sample_event (Some "tx-2") (Some 950) (Some 1) in
  let w1 := after (useTokenSubscription.onPurchaseSuccess sample_config first)
                  (mounted empty_world) in
  useTokenSubscription.onPurchaseSuccess sample_config again w1 = (tt, w1).
Proof.
  intros first again.
  apply (X21_purchase_is_handled_once sample_config first again (mounted empty_world)).
  reflexivity.
Defined.

(** X22.  Starting from a freshly mounted hook, whatever purchases are
    delivered and in whatever order, no transaction identifier is handed to
    [finishTransaction] twice, and only identifiers that were delivered are.
    When the expiration date of every purchase delivered can be printed
    (it is missing or within the range of [Date]), every identifier
    delivered is handed to [finishTransaction]. *)
Theorem X22_each_transaction_is_finished_once {A : Type} `{!StorageAdapter.ops A}
    (config : TokenConfig.t) (purchases : list Purchase.t)
    (w : World (useTokenSubscription.state A)) :
  useTokenSubscription.processedTransactions (store w) = ∅ →
  useTokenSubscription.finished (store w) = [] →
  let w' := deliveries config purchases w in
  NoDup (finished_ids w')
  ∧ (∀ x, x ∈ finished_ids w' → x ∈ handled_id <$> purchases)
  ∧ (Forall (fun p => printable (Purchase.expirationDateIOS p) = true) purchases →
     ∀ x, x ∈ handled_id <$> purchases → x ∈ finished_ids w').
Proof.
  intros Hp Hf w'.
  assert (Hinv : finished_once w).
  { split; unfold finished_ids; rewrite Hf; cbn; [apply NoDup_nil_2|].
    by intros x ?%elem_of_nil. }
  assert (Hall : all_finished w).
  { intros x. rewrite Hp. by intros ?%elem_of_empty. }
  destruct (deliveries_keep_finished_once config purchases w Hinv)
    as ([Hnd Hsub] & Hq & Hfin).
  split; [done|]. split.
  - intros x Hx. apply Hsub, Hq in Hx as [?|Hx]; [done|].
    rewrite Hp in Hx. by apply elem_of_empty in Hx.
  - intros Hpr x Hx. apply (Hfin Hpr Hall), Hq. by left.
Qed.

Lemma X22_each_transaction_is_finished_once_witness :
  let a := sample_event (Some "tx-2") (Some 900) None in
  let b := sample_event (Some "tx-3") (Some 950) (Some 1) in
  let w' := deliveries sample_config [a; b; a; b; a] (mounted empty_world) in
  NoDup (finished_ids w')
  ∧ ∀ x, x ∈ handled_id <$> [a; b; a; b; a] → x ∈ finished_ids w'.
Proof.
  intros a b.
  destruct (X22_each_transaction_is_finished_once sample_config [a; b; a; b; a]
              (mounted empty_world)) as (Hnd & _ & Hall); [reflexivity..|].
  split; [exact Hnd|]. apply Hall. repeat constructor.
Defined.

Section PurchaseInMemory.
Context (config : TokenConfig.t).
Implicit Types (w : World (useTokenSubscription.state InMemoryAdapter.state))
               (wa : World InMemoryAdapter.state).

Lemma mem_saveSubscription purchase wa :
  ∃ (k : nat) sd,
    SubscriptionService.saveSubscription purchase wa =
      (true,
       mkWorld
         (InMemoryAdapter.set_subscriptions
            <[InMemoryAdapter.deviceId (store wa) :=
                upsert_into sd (subs_of (InMemoryAdapter.deviceId (store wa)) wa)]>
            (store wa))
         (time wa) (tick wa + k)%nat (fired wa))
    ∧ SubscriptionData.isActive sd = true
    ∧ SubscriptionData.isCancelled sd = false.
Proof.
  destruct (mem_upsert_record (InMemoryAdapter.deviceId (store wa)) purchase wa)
    as (k & sd & Hup & Hact & Hcan & _).
  exists k, sd. split; [|done].
  unfold SubscriptionService.saveSubscription. unfold_monad.
  cbn [StorageAdapter.getDeviceId StorageAdapter.upsertSubscription
       InMemoryAdapter.adapter].
  unfold InMemoryAdapter.getDeviceId. unfold_monad.
  by rewrite Hup.
Qed.
End PurchaseInMemory.

(** X23.  A live purchase with reason PURCHASE that the handler has not seen,
    and whose expiration date can be printed (it is missing or within the
    range of [Date]; the handler logs it before anything else and has no
    [try] around the log line), activates the subscription of a device that
    has a user record: the
    stored record gets plan "pro" and the balance [proTierLimit], the
    provider's [userData] is that record and it shows as subscribed, an
    active transaction record is stored, the activation callback is the only
    one invoked, and the purchase is finished. *)
Theorem X23_initial_purchase_activates
    (config : TokenConfig.t) (purchase : Purchase.t) (u : UserData.t)
    (w : World (useTokenSubscription.state InMemoryAdapter.state)) :
  handled_id purchase ∉ useTokenSubscription.processedTransactions (store w) →
  printable (Purchase.expirationDateIOS purchase) = true →
  live purchase (time w (tick w)) = true →
  is_initial_purchase purchase = true →
  user_of (adapter_world w) = Some u →
  let w' := after (useTokenSubscription.onPurchaseSuccess config purchase) w in
  (∃ u', user_of (adapter_world w') = Some u'
         ∧ useTokenSubscription.userData (store w') = Some u'
         ∧ UserData.subscriptionPlan u' = Some "pro"
         ∧ UserData.generationsLeft u' = TokenConfig.proTierLimit config)
  ∧ useTokenSubscription.localIsSubscribed (store w') = true
  ∧ (∃ sub, sub ∈ subs_of (InMemoryAdapter.deviceId (store (adapter_world w)))
                          (adapter_world w')
            ∧ SubscriptionData.isActive sub = true)
  ∧ fired w' = fired w ++ (if TokenConfig.onSubscriptionActivated config
                           then [SubscriptionActivated] else [])
  ∧ useTokenSubscription.finished (store w')
    = useTokenSubscription.finished (store w) ++ [purchase].
Proof.
  intros Hfresh Hprint Hlive Hinit Hu. unfold after.
  rewrite onPurchaseSuccess_fresh by done. cbn zeta.
  rewrite Hprint, Hlive, Hinit. cbn [negb].
  set (wa := mkWorld (useTokenSubscription.adapter (store w)) (time w)
                     (Datatypes.S (tick w)) (fired w)).
  destruct (mem_saveSubscription purchase wa) as (k & sd & -> & Hact & _).
  set (w1 := mkWorld _ _ _ _).
  assert (Hu1 : user_of w1 = Some u) by exact Hu.
  rewrite (mem_activateSubscription config "pro" w1 u Hu1).
  set (w2 := mkWorld _ _ _ _).
  rewrite (mem_getUserData w2).
  assert (Hu2 : user_of w2
                = Some (UserData.mk (UserData.deviceId u) (Some "pro")
                                    (TokenConfig.proTierLimit config)
                                    (UserData.createdAt u)
                                    (Some (time w1 (tick w1))))).
  { unfold user_of, w2. cbn. by rewrite lookup_insert_eq. }
  rewrite Hu2. cbn [snd store time tick fired adapter_world
                    useTokenSubscription.adapter useTokenSubscription.userData
                    useTokenSubscription.localIsSubscribed
                    useTokenSubscription.finished].
  split; [|split; [|split; [|split]]].
  - eexists. split; [exact Hu2|]. done.
  - reflexivity.
  - exists sd. split; [|done]. unfold subs_of. cbn.
    rewrite lookup_insert_eq. cbn. apply upsert_into_elem.
  - reflexivity.
  - reflexivity.
Qed.

Lemma X23_initial_purchase_activates_witness :
  let bought :=
    Purchase.mk (Some "tx-1") None (Some "orig-1") (Some "com.example.pro")
                (Some 900) None (Some 5000) (Some "PURCHASE") None
                (Some "Production") None (Some true) None None in
  let w := mounted (sample_world (sample_user None 0 None)) in
  let w' := after (useTokenSubscription.onPurchaseSuccess sample_config bought) w in
  ∃ u', user_of (adapter_world w') = Some u'
        ∧ useTokenSubscription.userData (store w') = Some u'
        ∧ UserData.subscriptionPlan u' = Some "pro"
        ∧ UserData.generationsLeft u' = 100.
Proof.
  intros bought w.
  apply (X23_initial_purchase_activates sample_config bought
           (sample_user None 0 None) w); [|reflexivity..].
  apply (bool_decide_unpack _). vm_compute. exact I.
Defined.

(** X24.  Only a live, first-time purchase with reason PURCHASE touches the
    user's record.  For a purchase already seen, an expired one, or one with
    any other reason (a renewal, a missing reason), the handler leaves the
    user records, the provider's [userData] and the callbacks alone; an
    expired purchase leaves the whole adapter alone.  A purchase seen for the
    first time makes the provider show as subscribed all the same, also when
    it has expired. *)
Theorem X24_only_initial_purchase_touches_user
    (config : TokenConfig.t) (purchase : Purchase.t)
    (w : World (useTokenSubscription.state InMemoryAdapter.state)) :
  handled_id purchase ∈ useTokenSubscription.processedTransactions (store w)
  ∨ live purchase (time w (tick w)) = false
  ∨ is_initial_purchase purchase = false →
  let w' := after (useTokenSubscription.onPurchaseSuccess config purchase) w in
  InMemoryAdapter.users (useTokenSubscription.adapter (store w'))
    = InMemoryAdapter.users (useTokenSubscription.adapter (store w))
  ∧ useTokenSubscription.userData (store w') = useTokenSubscription.userData (store w)
  ∧ fired w' = fired w
  ∧ (live purchase (time w (tick w)) = false →
     useTokenSubscription.adapter (store w') = useTokenSubscription.adapter (store w))
  ∧ (handled_id purchase ∉ useTokenSubscription.processedTransactions (store w) →
     useTokenSubscription.localIsSubscribed (store w') = true).
Proof.
  intros Hcase. unfold after.
  destruct (decide (handled_id purchase
                    ∈ useTokenSubscription.processedTransactions (store w)))
    as [Hin|Hin].
  { rewrite onPurchaseSuccess_seen by done. cbn [snd]. by repeat split. }
  destruct Hcase as [?|Hcase]; [done|].
  rewrite onPurchaseSuccess_fresh by done. cbn zeta.
  destruct (printable (Purchase.expirationDateIOS purchase)); cbn [negb];
    [|by repeat split].
  destruct (live purchase (time w (tick w))) eqn:Hlive; cbn [negb];
    [|by repeat split].
  destruct Hcase as [?|Hinit]; [done|]. rewrite Hinit.
  set (wa := mkWorld (useTokenSubscription.adapter (store w)) (time w)
                     (Datatypes.S (tick w)) (fired w)).
  destruct (mem_saveSubscription purchase wa) as (k & sd & -> & _).
  cbn. by repeat split.
Qed.

Lemma X24_only_initial_purchase_touches_user_witness :
  let renewal := sample_event (Some "tx-2") (Some 900) (Some 5000) in
  let w := mounted (sample_world (sample_user None 0 None)) in
  let w' := after (useTokenSubscription.onPurchaseSuccess sample_config renewal) w in
  user_of (adapter_world w') = Some (sample_user None 0 None)
  ∧ useTokenSubscription.localIsSubscribed (store w') = true.
Proof.
  intros renewal w.
  destruct (X24_only_initial_purchase_touches_user sample_config renewal w)
    as (Husers & _ & _ & _ & Hsub).
  - right. right. reflexivity.
  - split; [|apply Hsub, (bool_decide_unpack _); vm_compute; exact I].
    unfold user_of, adapter_world. cbn [store]. rewrite Husers.
    vm_compute. reflexivity.
Defined.

Section Redelivery.
Implicit Types (w : World InMemoryAdapter.state) (l : list SubscriptionData.t).

(** The record [upsertSubscription] writes, with the identifier it is filed
    under. *)
Lemma mem_upsert_full deviceId purchase w :
  ∃ (k : nat) sd,
    InMemoryAdapter.upsertSubscription deviceId purchase w =
      (true,
       mkWorld
         (InMemoryAdapter.set_subscriptions
            <[deviceId := upsert_into sd (subs_of deviceId w)]> (store w))
         (time w) (tick w + k)%nat (fired w))
    ∧ SubscriptionData.isActive sd = true
    ∧ SubscriptionData.isCancelled sd = false
    ∧ SubscriptionData.purchaseData sd = purchase
    ∧ ∀ t, handled_id purchase = Some t → truthy_value t = true →
           SubscriptionData.transactionId sd = t.
Proof.
  unfold InMemoryAdapter.upsertSubscription, upsert_into, subs_of, handled_id.
  unfold_monad.
  destruct (js_or (Purchase.transactionId purchase) (Purchase.id purchase))
    as [s|]; [destruct (truthy_value s) eqn:Hs|];
    destruct (truthy (Purchase.transactionDate purchase)); cbn;
    match goal with |- context [ _ ++ [?x] ] => eexists _, x end;
    (split;
     [ first
         [ rewrite Nat.add_0_r; reflexivity
         | replace (Datatypes.S (tick w)) with (tick w + 1)%nat by lia; reflexivity
         | replace (Datatypes.S (Datatypes.S (tick w))) with (tick w + 2)%nat by lia;
           reflexivity ]
     | repeat split; try done; intros t [= <-] Ht; cbn; congruence ]).
Qed.

Lemma upsert_into_unique sd l x :
  NoDup (SubscriptionData.transactionId <$> l) →
  x ∈ upsert_into sd l →
  SubscriptionData.transactionId x = SubscriptionData.transactionId sd →
  x = sd.
Proof.
  intros Hnd Hx Hid. unfold upsert_into in Hx.
  destruct (findIndex (SubscriptionData.transactionId sd) l) as [i|] eqn:Hf.
  - apply findIndex_Some in Hf.
    apply list_elem_of_lookup_1 in Hx as (j & Hj).
    destruct (decide (i = j)) as [<-|Hne].
    + apply lookup_lt_Some in Hf. rewrite length_fmap in Hf.
      rewrite list_lookup_insert_eq in Hj by done. congruence.
    + rewrite list_lookup_insert_ne in Hj by done.
      exfalso. apply Hne. eapply NoDup_lookup; [exact Hnd|exact Hf|].
      by rewrite list_lookup_fmap, Hj, <- Hid.
  - apply elem_of_app in Hx as [Hx|Hx].
    + exfalso.
      assert (Hin : SubscriptionData.transactionId sd
                    ∈ SubscriptionData.transactionId <$> l).
      { rewrite <- Hid. by apply list_elem_of_fmap_2. }
      apply findIndex_elem in Hin as (i & Hi). congruence.
    + by apply list_elem_of_singleton in Hx.
Qed.

Lemma mem_mark_ids entries tid w d :
  stored_ids d (after (InMemoryAdapter.markSubscriptionCancelled entries tid) w)
  = stored_ids d w.
Proof.
  unfold after.
  destruct (mem_mark entries tid w) as (b & subs' & -> & _ & Hcase).
  unfold stored_ids. cbn. destruct b; [|by subst subs'].
  destruct Hcase as (d0 & i & sub & _ & _ & _ & ->).
  destruct (decide (d0 = d)) as [<-|Hne].
  - rewrite lookup_insert_eq. cbn. apply alter_cancel_ids.
  - by rewrite lookup_insert_ne.
Qed.
End Redelivery.

(** X25.  A cancellation does not survive a second delivery of the purchase:
    when a device's stored identifiers are distinct and a transaction is
    marked cancelled, upserting a purchase with that identifier again leaves
    the device with that identifier stored, and every record under it is
    the new purchase, flagged active and not cancelled. *)
Theorem X25_redelivery_undoes_cancellation
    (entries : list string) (d tid : string) (purchase : Purchase.t)
    (w : World InMemoryAdapter.state) :
  handled_id purchase = Some tid →
  truthy_value tid = true →
  NoDup (stored_ids d w) →
  let w1 := after (InMemoryAdapter.markSubscriptionCancelled entries tid) w in
  let w2 := after (InMemoryAdapter.upsertSubscription d purchase) w1 in
  tid ∈ stored_ids d w2
  ∧ ∀ sub, sub ∈ subs_of d w2 →
           SubscriptionData.transactionId sub = tid →
           SubscriptionData.isCancelled sub = false
           ∧ SubscriptionData.isActive sub = true
           ∧ SubscriptionData.purchaseData sub = purchase.
Proof.
  intros Hid Htr Hnd w1 w2.
  assert (Hnd1 : NoDup (stored_ids d w1)) by (subst w1; by rewrite mem_mark_ids).
  subst w2. unfold after.
  destruct (mem_upsert_full d purchase w1) as (k & sd & -> & Hact & Hcan & Hdata & Hsd).
  specialize (Hsd tid Hid Htr).
  unfold stored_ids, subs_of. cbn. rewrite lookup_insert_eq. cbn. split.
  - rewrite <- Hsd. apply list_elem_of_fmap_2, upsert_into_elem.
  - intros sub Hin Hsub.
    assert (sub = sd) as ->; [|done].
    eapply upsert_into_unique; [exact Hnd1|exact Hin|congruence].
Qed.

Lemma X25_redelivery_undoes_cancellation_witness :
  let ev := sample_event (Some "tx-2") (Some 900) (Some 5000) in
  let w := after (InMemoryAdapter.upsertSubscription "device-1" ev) empty_world in
  let w1 := after (InMemoryAdapter.markSubscriptionCancelled ["device-1"] "tx-2") w in
  let w2 := after (InMemoryAdapter.upsertSubscription "device-1" ev) w1 in
  "tx-2" ∈ stored_ids "device-1" w2.
Proof.
  intros ev w.
  apply (X25_redelivery_undoes_cancellation ["device-1"] "device-1" "tx-2" ev w);
    [reflexivity | reflexivity |].
  vm_compute. apply NoDup_singleton.
Defined.

(** X26.  On the Supabase adapter [markSubscriptionCancelled] reports what
    the backend reports, not whether a row was found: with the backend in
    reach it returns true, also when no row carries the identifier and
    nothing was changed; out of reach it returns false and changes nothing.
    When it returns true every row with that identifier is flagged
    cancelled and inactive; rows with other identifiers, the identifiers
    stored and the [user] table are as before. *)
Theorem X26_supabase_cancel_reports_backend
    (transactionId : string) (w : World SupabaseAdapter.state) :
  let found := result (SupabaseAdapter.markSubscriptionCancelled transactionId) w in
  let w' := after (SupabaseAdapter.markSubscriptionCancelled transactionId) w in
  found = negb (SupabaseAdapter.offline (store w))
  ∧ (found = false → w' = w)
  ∧ (found = true →
     ∀ r, r ∈ SupabaseAdapter.subscriptions (store w') →
          SupabaseAdapter.transaction_id r = transactionId →
          SupabaseAdapter.is_cancelled r = true ∧ SupabaseAdapter.is_active r = false)
  ∧ (∀ r, SupabaseAdapter.transaction_id r ≠ transactionId →
          r ∈ SupabaseAdapter.subscriptions (store w')
          ↔ r ∈ SupabaseAdapter.subscriptions (store w))
  ∧ (transactionId ∉ stored_row_ids w →
     SupabaseAdapter.subscriptions (store w') = SupabaseAdapter.subscriptions (store w))
  ∧ stored_row_ids w' = stored_row_ids w
  ∧ SupabaseAdapter.user (store w') = SupabaseAdapter.user (store w).
Proof.
  unfold result, after, SupabaseAdapter.markSubscriptionCancelled, stored_row_ids.
  unfold_monad.
  destruct (SupabaseAdapter.offline (store w)) eqn:Hoff; cbn.
  { split; [done|]. split; [by destruct w|]. split; [done|]. by repeat split. }
  split; [done|]. split; [done|].
  set (f := fun r : SupabaseAdapter.subscription_row => _).
  assert (Hf_id : ∀ r, SupabaseAdapter.transaction_id (f r) = SupabaseAdapter.transaction_id r).
  { intros r. unfold f. by destruct (decide _). }
  split; [|split; [|split; [|split]]].
  - intros _ r (r0 & -> & Hr0)%list_elem_of_fmap Hr.
    rewrite Hf_id in Hr. unfold f. by rewrite decide_True.
  - intros r Hr. split.
    + intros (r0 & -> & Hr0)%list_elem_of_fmap.
      rewrite Hf_id in Hr. unfold f. by rewrite decide_False.
    + intros Hin. apply list_elem_of_fmap. exists r. split; [|done].
      unfold f. by rewrite decide_False.
  - intros Hnot. induction (SupabaseAdapter.subscriptions (store w)) as [|r l IH];
      [done|]. cbn. rewrite fmap_cons, not_elem_of_cons in Hnot.
      destruct Hnot as [Hne Hnot].
      f_equal; [unfold f; by rewrite decide_False|by apply IH].
  - rewrite <- list_fmap_compose. apply list_fmap_ext. intros i r _. apply Hf_id.
  - reflexivity.
Qed.

Lemma X26_supabase_cancel_reports_backend_witness :
  let w := sample_backend (sample_row (Some "pro") 42 (Some 200)) in
  result (SupabaseAdapter.markSubscriptionCancelled "tx-9") w = true
  ∧ SupabaseAdapter.subscriptions
      (store (after (SupabaseAdapter.markSubscriptionCancelled "tx-9") w))
    = SupabaseAdapter.subscriptions (store w).
Proof.
  intros w.
  destruct (X26_supabase_cancel_reports_backend "tx-9" w)
    as (Hfound & _ & _ & _ & Hsame & _).
  split; [exact Hfound|]. apply Hsame. apply not_elem_of_nil.
Defined.

Section OwnDevice.
Variable config : TokenConfig.t.
Implicit Types (w : World InMemoryAdapter.state) (u : UserData.t).

(** A service call keeps the device identifier and writes no user record but
    the one of that device. *)
Lemma run_call_frame c w :
  InMemoryAdapter.deviceId (store (run_call config c w))
    = InMemoryAdapter.deviceId (store w)
  ∧ ∀ d, d ≠ InMemoryAdapter.deviceId (store w) →
         InMemoryAdapter.users (store (run_call config c w)) !! d
         = InMemoryAdapter.users (store w) !! d.
Proof.
  destruct c as [| | |plan| |subscription]; cbn [run_call]; unfold after.
  - rewrite mem_initializeUser. destruct (user_of w) as [u|]; [done|].
    cbn. split; [done|]. intros d Hd. by rewrite lookup_insert_ne.
  - rewrite mem_useGeneration. destruct (user_of w) as [u|]; [|done].
    destruct (bool_decide _); [done|].
    cbn. split; [done|]. intros d Hd. by rewrite lookup_insert_ne.
  - unfold TokenManager.resetGenerations. unfold_monad. cbn.
    unfold InMemoryAdapter.updateGenerations. unfold_monad. cbn.
    destruct (InMemoryAdapter.users (store w) !! InMemoryAdapter.deviceId (store w))
      as [u|]; cbn; [|done].
    split; [done|]. intros d Hd. by rewrite lookup_insert_ne.
  - destruct (user_of w) as [u|] eqn:Hu.
    + rewrite (mem_activateSubscription config plan w u Hu).
      cbn. split; [done|]. intros d Hd. by rewrite lookup_insert_ne.
    + by rewrite (mem_activateSubscription_missing config plan w Hu).
  - destruct (user_of w) as [u|] eqn:Hu.
    + rewrite (mem_cancelSubscription w u Hu).
      cbn. split; [done|]. intros d Hd. by rewrite lookup_insert_ne.
    + unfold TokenManager.cancelSubscription, user_of in *.
      unfold_monad. cbn. unfold InMemoryAdapter.cancelSubscription. unfold_monad.
      cbn. by rewrite Hu.
  - destruct (mem_check config subscription w) as (w' & -> & _ & Hdev & _ & Hgo).
    cbn [snd]. split; [done|]. intros d Hd. destruct (_ && _ && _).
    + destruct Hgo as (u & j & _ & _ & ->). by rewrite lookup_insert_ne.
    + destruct Hgo as [-> _]. done.
Qed.

Lemma session_frame calls : ∀ w,
  InMemoryAdapter.deviceId (store (session config calls w))
    = InMemoryAdapter.deviceId (store w)
  ∧ ∀ d, d ≠ InMemoryAdapter.deviceId (store w) →
         InMemoryAdapter.users (store (session config calls w)) !! d
         = InMemoryAdapter.users (store w) !! d.
Proof.
  unfold session. induction calls as [|c calls IH]; intros w; [done|].
  cbn [foldl]. destruct (run_call_frame c w) as [Hdev Husers].
  destruct (IH (run_call config c w)) as [Hdev' Husers'].
  split; [congruence|]. intros d Hd.
  rewrite Husers' by congruence. by apply Husers.
Qed.
End OwnDevice.

(** X27.  Users are kept apart on the in-memory adapter: after [setDeviceId]
    to another device, a session of service calls of any length (initialising,
    consuming, resetting, activating, cancelling, handling renewals) runs
    under that device and writes no other device's user record; switching
    back, the first device finds its record as it left it. *)
Theorem X27_session_of_another_device_leaves_user_alone
    (config : TokenConfig.t) (calls : list Call) (other : string)
    (w : World InMemoryAdapter.state) :
  other ≠ InMemoryAdapter.deviceId (store w) →
  let w1 := after (InMemoryAdapter.setDeviceId other) w in
  let w2 := session config calls w1 in
  InMemoryAdapter.deviceId (store w2) = other
  ∧ (∀ d, d ≠ other →
          InMemoryAdapter.users (store w2) !! d = InMemoryAdapter.users (store w) !! d)
  ∧ user_of (after (InMemoryAdapter.setDeviceId (InMemoryAdapter.deviceId (store w))) w2)
    = user_of w.
Proof.
  intros Hne w1 w2.
  destruct (session_frame config calls w1) as [Hdev Husers].
  fold w2 in Hdev, Husers. cbn in Hdev, Husers.
  split; [done|]. split; [done|].
  unfold user_of. cbn. by apply Husers.
Qed.

Lemma X27_session_of_another_device_leaves_user_alone_witness :
  let w := sample_world (sample_user (Some "pro") 3 (Some 200)) in
  let w2 := session sample_config
              [CallInitializeUser; CallUseGeneration; CallActivateSubscription "pro";
               CallCancelSubscription]
              (after (InMemoryAdapter.setDeviceId "device-2") w) in
  user_of (after (InMemoryAdapter.setDeviceId "device-1") w2)
  = Some (sample_user (Some "pro") 3 (Some 200)).
Proof.
  intros w.
  apply (X27_session_of_another_device_leaves_user_alone sample_config
           [CallInitializeUser; CallUseGeneration; CallActivateSubscription "pro";
            CallCancelSubscription] "device-2" w).
  discriminate.
Defined.

Lemma select_single_elem tid rows r :
  SupabaseAdapter.select_single tid rows = Some r →
  r ∈ rows ∧ SupabaseAdapter.transaction_id r = tid.
Proof.
  unfold SupabaseAdapter.select_single. intros Hsel.
  assert (Hin : r ∈ filter (fun r => SupabaseAdapter.transaction_id r = tid) rows).
  { destruct (filter _ rows) as [|x [|y l]]; [done| |done].
    injection Hsel as ->. by apply list_elem_of_singleton. }
  apply list_elem_of_filter in Hin. tauto.
Qed.

(** X28.  The adapters disagree about a purchase that has already expired.
    The in-memory [upsertSubscription] files it as active whatever its
    expiration date; the Supabase one files it as inactive, when the backend
    is in reach, the purchase has expired at the reading of the clock the
    call takes and the dates it prints (the transaction date, and the
    original purchase, expiration and renewal dates where present) are within
    the range of [Date].  Both report success and store the purchase under
    its transaction identifier. *)
Theorem X28_expired_purchase_is_filed_differently
    (d tid : string) (purchase : Purchase.t)
    (wm : World InMemoryAdapter.state) (ws : World SupabaseAdapter.state) :
  handled_id purchase = Some tid →
  truthy_value tid = true →
  live purchase (reading_of_now purchase ws) = false →
  SupabaseAdapter.offline (store ws) = false →
  storable purchase (transaction_time purchase ws) = true →
  (result (InMemoryAdapter.upsertSubscription d purchase) wm = true
   ∧ ∃ sub, sub ∈ subs_of d (after (InMemoryAdapter.upsertSubscription d purchase) wm)
            ∧ SubscriptionData.transactionId sub = tid
            ∧ SubscriptionData.purchaseData sub = purchase
            ∧ SubscriptionData.isActive sub = true)
  ∧ (result (SupabaseAdapter.upsertSubscription d purchase) ws = true
     ∧ ∃ row, row ∈ SupabaseAdapter.subscriptions
                      (store (after (SupabaseAdapter.upsertSubscription d purchase) ws))
              ∧ SupabaseAdapter.transaction_id row = tid
              ∧ SupabaseAdapter.purchase_data row = purchase
              ∧ SupabaseAdapter.is_active row = false).
Proof.
  intros Hid Htr Hdead Hoff Hstor. split.
  - unfold result, after.
    destruct (mem_upsert_full d purchase wm) as (k & sd & -> & Hact & _ & Hdata & Hsd).
    cbn [fst snd]. split; [done|]. exists sd.
    split; [|by auto].
    unfold subs_of. cbn. rewrite lookup_insert_eq. cbn. apply upsert_into_elem.
  - unfold result, after.
    destruct (sb_upsert_closed d purchase ws) as [k ->].
    unfold handled_id in Hid. rewrite Hid, Htr. cbn zeta.
    rewrite Hstor, Hoff, Hdead. cbn [negb orb fst snd store].
    split; [done|].
    exists (SupabaseAdapter.subscriptionData d tid purchase
              (transaction_time purchase ws) false).
    split; [|done].
    unfold SupabaseAdapter.set_subscriptions, upsert_row.
    cbn [SupabaseAdapter.subscriptions].
    destruct (SupabaseAdapter.select_single _ _) as [old|] eqn:Hsel.
    + apply select_single_elem in Hsel as [Hin Hold].
      apply list_elem_of_fmap. exists old. split; [|done].
      by rewrite decide_True.
    + apply elem_of_app. right. by apply list_elem_of_singleton.
Qed.

Lemma X28_expired_purchase_is_filed_differently_witness :
  let ev := sample_event (Some "tx-2") (Some 900) (Some 1) in
  result (InMemoryAdapter.upsertSubscription "device-1" ev) empty_world = true
  ∧ result (SupabaseAdapter.upsertSubscription "device-1" ev)
      (sample_backend (sample_row (Some "pro") 42 (Some 200))) = true.
Proof.
  intros ev.
  destruct (X28_expired_purchase_is_filed_differently "device-1" "tx-2" ev
              empty_world (sample_backend (sample_row (Some "pro") 42 (Some 200))))
    as [[Hm _] [Hs _]]; [reflexivity..|done].
Defined.
